(** * script-executor: the execution pipeline, embedded and verified

    A shallow embedding of the Go packages [params], [script], [security],
    [image], [approval], [config] and [execution] of the script executor,
    followed by the properties of the pipeline that the specification
    states.  Go strings are byte strings: they are modelled by [string]
    (a list of 8-bit characters), so [String.length] is Go's [len].
    Go maps are [gmap]s; a nil map and an empty map are both [∅], which
    the code never distinguishes (it only ranges over them or looks keys
    up). *)

From Stdlib Require Import ZArith QArith_base Ascii String List Lia DecimalString.
From stdpp Require Import base option list gmap strings fin_maps sorting.

Local Open Scope string_scope.
Local Open Scope Z_scope.

(** ** Go's [strings] package, on byte strings *)

Module Strings.

Definition is_empty (s : string) : bool :=
  match s with EmptyString => true | _ => false end.

Definition eqb (a b : string) : bool := bool_decide (a = b).

Fixpoint HasPrefix (s prefix : string) : bool :=
  match prefix, s with
  | EmptyString, _ => true
  | String p prefix', String c s' => Ascii.eqb c p && HasPrefix s' prefix'
  | String _ _, EmptyString => false
  end.

Fixpoint drop (n : nat) (s : string) : string :=
  match n, s with
  | O, _ => s
  | S n', String _ s' => drop n' s'
  | S _, EmptyString => EmptyString
  end.

Fixpoint take (n : nat) (s : string) : string :=
  match n, s with
  | O, _ => EmptyString
  | S n', String c s' => String c (take n' s')
  | S _, EmptyString => EmptyString
  end.

Definition TrimPrefix (s prefix : string) : string :=
  if HasPrefix s prefix then drop (String.length prefix) s else s.

Definition HasSuffix (s suffix : string) : bool :=
  let n := String.length s in
  let k := String.length suffix in
  (k <=? n)%nat && eqb (drop (n - k) s) suffix.

Definition TrimSuffix (s suffix : string) : string :=
  if HasSuffix s suffix
  then take (String.length s - String.length suffix) s else s.

(** [strings.Split(s, sep)] for a one-byte separator: the pieces between
    the separators, of which there is always at least one. *)
Fixpoint Split (s : string) (sep : ascii) : list string :=
  match s with
  | EmptyString => [EmptyString]
  | String c s' =>
      if Ascii.eqb c sep then EmptyString :: Split s' sep
      else match Split s' sep with
           | piece :: rest => String c piece :: rest
           | [] => [String c EmptyString]
           end
  end.

(** [strings.ReplaceAll(s, old, new)] for one-byte [old] and [new]. *)
Fixpoint ReplaceAll (s : string) (old new : ascii) : string :=
  match s with
  | EmptyString => EmptyString
  | String c s' =>
      String (if Ascii.eqb c old then new else c) (ReplaceAll s' old new)
  end.

(** White space as [unicode.IsSpace] sees it on ASCII bytes: tab, line
    feed, vertical tab, form feed, carriage return and space.  The two
    Latin-1 spaces U+0085 and U+00A0 are multi-byte in UTF-8 and are not
    modelled. *)
Definition isSpace (c : ascii) : bool :=
  let n := nat_of_ascii c in
  ((9 <=? n)%nat && (n <=? 13)%nat) || (n =? 32)%nat.

Fixpoint TrimLeft (s : string) : string :=
  match s with
  | String c s' => if isSpace c then TrimLeft s' else s
  | EmptyString => EmptyString
  end.

Fixpoint TrimRight (s : string) : string :=
  match s with
  | EmptyString => EmptyString
  | String c s' =>
      match TrimRight s' with
      | EmptyString => if isSpace c then EmptyString else String c EmptyString
      | t => String c t
      end
  end.

Definition TrimSpace (s : string) : string := TrimRight (TrimLeft s).

(** [strings.Fields]: the maximal runs of non-space bytes.  [cur] is the
    run being read, reversed. *)
Fixpoint fields_go (s : string) (cur : list ascii) : list string :=
  let flush (k : list string) :=
    match cur with
    | [] => k
    | _ => string_of_list_ascii (rev cur) :: k
    end in
  match s with
  | EmptyString => flush []
  | String c s' =>
      if isSpace c then flush (fields_go s' [])
      else fields_go s' (c :: cur)
  end.

Definition Fields (s : string) : list string := fields_go s [].

(** ASCII case folding, the part of [strings.EqualFold] that does not
    depend on the Unicode tables. *)
Definition lower (c : ascii) : ascii :=
  let n := nat_of_ascii c in
  if ((65 <=? n)%nat && (n <=? 90)%nat) then ascii_of_nat (n + 32) else c.

Fixpoint EqualFold (a b : string) : bool :=
  match a, b with
  | EmptyString, EmptyString => true
  | String x a', String y b' => Ascii.eqb (lower x) (lower y) && EqualFold a' b'
  | _, _ => false
  end.

(** [%d] of [fmt.Sprintf]. *)
Definition itoa (z : Z) : string := NilZero.string_of_int (Z.to_int z).

End Strings.

(** ** [structpb]: the dynamically typed parameter bag *)

Module Structpb.

(** A [structpb.Value]; [VStruct] carries the [Fields] map of a
    [structpb.Struct].  Numbers are doubles in the wire format; they are
    kept as the rational they denote (not-a-number and the infinities
    are left out). *)
#[warnings="-register-all"]
Inductive Value : Type :=
| VNull
| VNumber (n : Q)
| VString (s : string)
| VBool (b : bool)
| VStruct (fields : gmap string Value)
| VList (values : list Value).

Abbreviation Struct := (gmap string Value).

Definition GetStringValue (v : Value) : string :=
  match v with VString s => s | _ => "" end.

Definition GetBoolValue (v : Value) : bool :=
  match v with VBool b => b | _ => false end.

Definition GetNumberValue (v : Value) : Q :=
  match v with VNumber n => n | _ => Qmake 0 1 end.

(** Go's conversion [int(x)] of a double: truncation toward zero. *)
Definition int (x : Q) : Z := Z.quot (Qnum x) (Zpos (Qden x)).

Definition GetStructValue (v : Value) : option (gmap string Value) :=
  match v with VStruct m => Some m | _ => None end.

Definition GetListValue (v : Value) : option (list Value) :=
  match v with VList l => Some l | _ => None end.

End Structpb.
Export Structpb.

(** ** The parameter readers

    [internal/execution/params.go]; the [script] package carries its own
    copies of [getString] and [getMap] with the same text.  A [*Struct]
    that may be nil is an [option]; [Struct.Fields] holds no nil entry
    (the protobuf decoder never produces one), so looking a key up either
    finds a value or does not. *)

Module Params.

Definition getString (m : option Struct) (key def : string) : string :=
  match m with
  | None => def
  | Some fields =>
      match fields !! key with
      | None => def
      | Some f =>
          let s := GetStringValue f in
          if Strings.is_empty s then def else s
      end
  end.

Definition getMap (m : option Struct) (key : string) : option Struct :=
  match m with
  | None => None
  | Some fields =>
      match fields !! key with
      | None => None
      | Some f => GetStructValue f
      end
  end.

Definition getList (m : option Struct) (key : string) : option (list Value) :=
  match m with
  | None => None
  | Some fields =>
      match fields !! key with
      | None => None
      | Some f => GetListValue f
      end
  end.

Definition getStringSlice (m : option Struct) (key : string)
  : option (list string) :=
  match getList m key with
  | None => None
  | Some l => Some (map GetStringValue l)
  end.

Definition getBool (m : option Struct) (key : string) : bool :=
  match m with
  | None => false
  | Some fields =>
      match fields !! key with
      | None => false
      | Some f => GetBoolValue f
      end
  end.

Definition getInt (m : option Struct) (key : string) : Z :=
  match m with
  | None => 0
  | Some fields =>
      match fields !! key with
      | None => 0
      | Some f => int (GetNumberValue f)
      end
  end.

End Params.

(** ** [time.Duration] and [time.ParseDuration]

    A duration is a count of nanoseconds in an [int64].  The parser
    follows the standard library's: a sign, then one or more groups of
    digits, an optional fraction and a unit.  The library scales the
    fraction in floating point; here it is scaled exactly and truncated. *)

Module Time.

Definition Duration := Z.

Definition Nanosecond : Duration := 1.
Definition Microsecond : Duration := 1000 * Nanosecond.
Definition Millisecond : Duration := 1000 * Microsecond.
Definition Second : Duration := 1000 * Millisecond.
Definition Minute : Duration := 60 * Second.
Definition Hour : Duration := 60 * Minute.

(** [int64(d.Seconds())]: the whole seconds of [d].  The code goes through
    a double; the rounding that adds (a second more, for a duration of
    half a year or longer whose fraction is within nanoseconds of the next
    second) is left out. *)
Definition Seconds (d : Duration) : Z := Z.quot d Second.

Definition isDigit (c : ascii) : bool :=
  let n := nat_of_ascii c in ((48 <=? n)%nat && (n <=? 57)%nat).

Definition digit (c : ascii) : Z := Z.of_nat (nat_of_ascii c) - 48.

Definition two63 : Z := 2 ^ 63.

(** [leadingInt]: the leading digits of [s] and what follows them;
    [None] when the number overflows. *)
Fixpoint leadingInt (s : string) (x : Z) : option (Z * string) :=
  match s with
  | String c s' =>
      if isDigit c then
        if two63 / 10 <? x then None
        else
          let x' := x * 10 + digit c in
          if two63 <? x' then None else leadingInt s' x'
      else Some (x, s)
  | EmptyString => Some (x, s)
  end.

(** [leadingFraction]: digits after the point, with the power of ten
    they are to be divided by; digits past the overflow are skipped. *)
Fixpoint leadingFraction (s : string) (x scale : Z) (overflow : bool)
  : Z * Z * string :=
  match s with
  | String c s' =>
      if isDigit c then
        if overflow then leadingFraction s' x scale true
        else if (two63 - 1) / 10 <? x then leadingFraction s' x scale true
        else
          let y := x * 10 + digit c in
          if two63 <? y then leadingFraction s' x scale true
          else leadingFraction s' y (scale * 10) false
      else (x, scale, s)
  | EmptyString => (x, scale, s)
  end.

(** The unit: the bytes up to the next digit or point. *)
Fixpoint unitOf (s : string) : string * string :=
  match s with
  | String c s' =>
      if isDigit c || Ascii.eqb c "."%char then (EmptyString, s)
      else let '(u, r) := unitOf s' in (String c u, r)
  | EmptyString => (EmptyString, EmptyString)
  end.

Definition micro1 : string :=
  String (ascii_of_nat 194) (String (ascii_of_nat 181) "s").
Definition micro2 : string :=
  String (ascii_of_nat 206) (String (ascii_of_nat 188) "s").

Definition unitMap (u : string) : option Z :=
  if Strings.eqb u "ns" then Some Nanosecond
  else if Strings.eqb u "us" then Some Microsecond
  else if Strings.eqb u micro1 then Some Microsecond
  else if Strings.eqb u micro2 then Some Microsecond
  else if Strings.eqb u "ms" then Some Millisecond
  else if Strings.eqb u "s" then Some Second
  else if Strings.eqb u "m" then Some Minute
  else if Strings.eqb u "h" then Some Hour
  else None.

(** One round of the parser's loop per unit of fuel; each round
    consumes at least one byte, so the length of the input is enough. *)
Fixpoint parseGroups (fuel : nat) (s : string) (d : Z) : option Z :=
  match fuel with
  | O => match s with EmptyString => Some d | _ => None end
  | S fuel' =>
      match s with
      | EmptyString => Some d
      | String c0 _ =>
          if negb (isDigit c0 || Ascii.eqb c0 "."%char) then None else
          match leadingInt s 0 with
          | None => None
          | Some (v, s1) =>
              let pre := negb (String.length s1 =? String.length s)%nat in
              let '(f, scale, s2, post) :=
                match s1 with
                | String "." s1' =>
                    let '(f, scale, r) := leadingFraction s1' 0 1 false in
                    (f, scale, r,
                     negb (String.length r =? String.length s1')%nat)
                | _ => (0, 1, s1, false)
                end in
              if negb (pre || post) then None else
              let '(u, s3) := unitOf s2 in
              if Strings.is_empty u then None else
              match unitMap u with
              | None => None
              | Some unit =>
                  if two63 / unit <? v then None else
                  let v1 := v * unit in
                  let v2 := if 0 <? f then v1 + (f * unit) / scale else v1 in
                  if two63 <? v2 then None else
                  let d' := d + v2 in
                  if two63 <? d' then None else parseGroups fuel' s3 d'
              end
          end
      end
  end.

Definition ParseDuration (s : string) : option Duration :=
  let '(neg, body) :=
    match s with
    | String "-" r => (true, r)
    | String "+" r => (false, r)
    | _ => (false, s)
    end in
  if Strings.eqb body "0" then Some 0
  else if Strings.is_empty body then None
  else
    match parseGroups (String.length body) body 0 with
    | None => None
    | Some d =>
        if neg then Some (- d)
        else if two63 - 1 <? d then None else Some d
    end.

End Time.

(** ** [resource.Quantity] of the cluster API

    The code parses quantities with [resource.MustParse], which panics on
    text that is not a quantity, and compares them with [Cmp].  A quantity
    is kept as its value in nano-units (the finest scale the API keeps),
    rounded up as the API does; [None] stands for the panic.  The forms
    read are a sign, digits with an optional fraction, and a binary
    suffix (Ki..Ei), a decimal suffix (n, u, m, k, M, G, T, P, E) or a
    decimal exponent (e3, E-2). *)

Module Resource.

Abbreviation Quantity := Z.

Fixpoint digits (s : string) (acc : Z) (count : nat) : Z * nat * string :=
  match s with
  | String c s' =>
      if Time.isDigit c then digits s' (acc * 10 + Time.digit c) (S count)
      else (acc, count, s)
  | EmptyString => (acc, count, s)
  end.

(** The multiplier of a suffix, as a fraction. *)
Definition suffix (s : string) : option (Z * Z) :=
  if Strings.eqb s "" then Some (1, 1)
  else if Strings.eqb s "Ki" then Some (2 ^ 10, 1)
  else if Strings.eqb s "Mi" then Some (2 ^ 20, 1)
  else if Strings.eqb s "Gi" then Some (2 ^ 30, 1)
  else if Strings.eqb s "Ti" then Some (2 ^ 40, 1)
  else if Strings.eqb s "Pi" then Some (2 ^ 50, 1)
  else if Strings.eqb s "Ei" then Some (2 ^ 60, 1)
  else if Strings.eqb s "n" then Some (1, 10 ^ 9)
  else if Strings.eqb s "u" then Some (1, 10 ^ 6)
  else if Strings.eqb s "m" then Some (1, 10 ^ 3)
  else if Strings.eqb s "k" then Some (10 ^ 3, 1)
  else if Strings.eqb s "M" then Some (10 ^ 6, 1)
  else if Strings.eqb s "G" then Some (10 ^ 9, 1)
  else if Strings.eqb s "T" then Some (10 ^ 12, 1)
  else if Strings.eqb s "P" then Some (10 ^ 15, 1)
  else if Strings.eqb s "E" then Some (10 ^ 18, 1)
  else
    match s with
    | String c r =>
        if Ascii.eqb c "e"%char || Ascii.eqb c "E"%char then
          let '(neg, r') :=
            match r with
            | String "-" t => (true, t)
            | String "+" t => (false, t)
            | _ => (false, r)
            end in
          match digits r' 0 0 with
          | (e, S _, EmptyString) =>
              if neg then Some (1, 10 ^ e) else Some (10 ^ e, 1)
          | _ => None
          end
        else None
    | EmptyString => None
    end.

Definition ceil_div (a b : Z) : Z := (a + b - 1) / b.

Definition ParseQuantity (s : string) : option Quantity :=
  let '(neg, body) :=
    match s with
    | String "-" r => (true, r)
    | String "+" r => (false, r)
    | _ => (false, s)
    end in
  let '(i, ni, r1) := digits body 0 0 in
  let '(f, nf, r2) :=
    match r1 with
    | String "." t => digits t 0 0
    | _ => (0, O, r1)
    end in
  match ni, nf with
  | O, O => None
  | _, _ =>
      match suffix r2 with
      | None => None
      | Some (num, den) =>
          let scale := 10 ^ Z.of_nat nf in
          let v := ceil_div ((i * scale + f) * num * 10 ^ 9) (scale * den) in
          Some (if neg then - v else v)
      end
  end.

Definition MustParse (s : string) : option Quantity := ParseQuantity s.

(** [q.Cmp(y)]: -1, 0 or 1. *)
Definition Cmp (q y : Quantity) : Z :=
  match q ?= y with Lt => -1 | Eq => 0 | Gt => 1 end.

End Resource.

(** ** [internal/config]: the configuration tree

    Each Go struct is a record in a module of its name, so that fields
    keep their names. *)

Module GRPCConfig.
Record t := mk { Port : Z; MaxMessageSize : Z }.
End GRPCConfig.

Module JobDefaultsConfig.
Record t := mk {
  TTLSecondsAfterFinished : Z;
  BackoffLimit : Z;
  ActiveDeadlineSeconds : Z }.
End JobDefaultsConfig.

Module ResourceRequests.
Record t := mk { CPU : string; Memory : string }.
End ResourceRequests.

Module ResourceLimits.
Record t := mk { CPU : string; Memory : string; EphemeralStorage : string }.
End ResourceLimits.

Module ResourceConfig.
Record t := mk { Requests : ResourceRequests.t; Limits : ResourceLimits.t }.
End ResourceConfig.

Module KubernetesConfig.
Record t := mk {
  Namespace : string;
  ServiceAccount : string;
  JobDefaults : JobDefaultsConfig.t;
  DefaultResources : ResourceConfig.t;
  MaxResources : ResourceConfig.t }.
End KubernetesConfig.

Module ImageCatalogConfig.
Record t := mk {
  Enabled : bool;
  ConfigMapName : string;
  ConfigMapNamespace : string }.
End ImageCatalogConfig.

Module ImageConfig.
Record t := mk {
  DefaultImage : string;
  DefaultImagePullSecret : string;
  DefaultImagePullPolicy : string;
  ApprovedImages : list string;
  BlockedImages : list string;
  Catalog : ImageCatalogConfig.t;
  VerifyImageAccess : bool;
  ScanImagesOnApproval : bool }.
End ImageConfig.

Module SecurityConfig.
Record t := mk {
  RequiredPermission : string;
  BlockedCommands : list string;
  MaxScriptSize : Z;
  MaxScriptLines : Z;
  DefaultTimeout : string;
  MaxTimeout : string;
  RunAsNonRoot : bool;
  RunAsUser : Z;
  FSGroup : Z;
  ReadOnlyRootFilesystem : bool;
  AllowPrivilegeEscalation : bool;
  DropAllCapabilities : bool }.
End SecurityConfig.

Module ApprovalStorageConfig.
Record t := mk {
  Type_ : string;
  ConfigMapName : string;
  ConfigMapNamespace : string }.
End ApprovalStorageConfig.

Module AutoApproveRule.
Record t := mk { UserGroup : string; ScriptPattern : string }.
End AutoApproveRule.

Module AutoApproveConfig.
Record t := mk { Enabled : bool; Rules : list AutoApproveRule.t }.
End AutoApproveConfig.

Module ApprovalConfig.
Record t := mk {
  Enabled : bool;
  Storage : ApprovalStorageConfig.t;
  ApprovalTimeout : string;
  DefaultApprovers : list string;
  AutoApprove : AutoApproveConfig.t }.
End ApprovalConfig.

Module SecretRef.
Record t := mk { Name : string; Key : string }.
End SecretRef.

Module SIEMConfig.
Record t := mk { Enabled : bool; Endpoint : string; TokenSecret : SecretRef.t }.
End SIEMConfig.

Module AuditConfig.
Record t := mk {
  Enabled : bool;
  LogFile : string;
  SIEM : SIEMConfig.t;
  LogScriptContent : bool;
  LogScriptOutput : bool;
  LogEnvironment : bool }.
End AuditConfig.

Module MetricsConfig.
Record t := mk { Enabled : bool; Port : Z; Path : string }.
End MetricsConfig.

Module PushgatewayConfig.
Record t := mk { Enabled : bool; URL : string }.
End PushgatewayConfig.

Module MonitoringConfig.
Record t := mk { Metrics : MetricsConfig.t; Pushgateway : PushgatewayConfig.t }.
End MonitoringConfig.

Module ScriptExecutorConfig.
Record t := mk {
  GRPC : GRPCConfig.t;
  Kubernetes : KubernetesConfig.t;
  Image : ImageConfig.t;
  Security : SecurityConfig.t;
  Approval : ApprovalConfig.t;
  Audit : AuditConfig.t;
  Monitoring : MonitoringConfig.t }.
End ScriptExecutorConfig.

Module Config.

Record t := mk { ScriptExecutor : ScriptExecutorConfig.t }.

(** The process environment, as [os.Getenv] reads it: the empty string
    for a variable that is not set. *)
Definition Env := string -> string.

Definition getEnvOrDefault (getenv : Env) (key defaultValue : string) : string :=
  let v := getenv key in
  if Strings.is_empty v then defaultValue else v.

Definition defaultConfig (getenv : Env) : t :=
  mk (ScriptExecutorConfig.mk
    (GRPCConfig.mk 50051 (10 * 1024 * 1024))
    (KubernetesConfig.mk
       (getEnvOrDefault getenv "KUBERNETES_NAMESPACE" "opscontrolroom-system")
       "script-executor-runner"
       (JobDefaultsConfig.mk 300 0 1800)
       (ResourceConfig.mk
          (ResourceRequests.mk "100m" "64Mi")
          (ResourceLimits.mk "500m" "256Mi" "1Gi"))
       (ResourceConfig.mk
          (ResourceRequests.mk "" "")
          (ResourceLimits.mk "4000m" "8Gi" "20Gi")))
    (ImageConfig.mk
       (getEnvOrDefault getenv "DEFAULT_IMAGE" "alpine:latest")
       (getEnvOrDefault getenv "DEFAULT_IMAGE_PULL_SECRET" "")
       "IfNotPresent"
       [] []
       (ImageCatalogConfig.mk true "script-image-catalog" "opscontrolroom-system")
       false false)
    (SecurityConfig.mk
       "executors.use.script"
       ["rm"; "dd"; "mkfs"; "fdisk"; "mkswap";
        "sudo"; "su"; "setuid";
        "reboot"; "shutdown"; "init"; "systemctl";
        "nmap"; "masscan";
        "kill"; "killall"; "pkill"]
       524288 1000 "5m" "30m"
       true 65534 65534 true false true)
    (ApprovalConfig.mk
       true
       (ApprovalStorageConfig.mk "configmap" "script-approvals" "opscontrolroom-system")
       "24h"
       ["sre-leads"]
       (AutoApproveConfig.mk false []))
    (AuditConfig.mk
       true "/var/log/ocr/script-audit.log"
       (SIEMConfig.mk false "" (SecretRef.mk "" ""))
       true true false)
    (MonitoringConfig.mk
       (MetricsConfig.mk true 9090 "/metrics")
       (PushgatewayConfig.mk false ""))).

Definition pick_str (src dst : string) : string :=
  if Strings.is_empty src then dst else src.
Definition pick_Z (src dst : Z) : Z :=
  if src =? 0 then dst else src.
Definition pick_list (src dst : list string) : list string :=
  match src with [] => dst | _ => src end.

(** [mergeConfig(dst, src)]: the fields of the file's configuration that
    the function copies over the defaults; every other field keeps the
    default. *)
Definition mergeConfig (dst src : t) : t :=
  let d := ScriptExecutor dst in
  let s := ScriptExecutor src in
  let dk := ScriptExecutorConfig.Kubernetes d in
  let sk := ScriptExecutorConfig.Kubernetes s in
  let dj := KubernetesConfig.JobDefaults dk in
  let sj := KubernetesConfig.JobDefaults sk in
  let di := ScriptExecutorConfig.Image d in
  let si := ScriptExecutorConfig.Image s in
  let dsec := ScriptExecutorConfig.Security d in
  let ssec := ScriptExecutorConfig.Security s in
  let da := ScriptExecutorConfig.Approval d in
  let sa := ScriptExecutorConfig.Approval s in
  let dau := ScriptExecutorConfig.Audit d in
  let sau := ScriptExecutorConfig.Audit s in
  let dm := ScriptExecutorConfig.Monitoring d in
  let sm := ScriptExecutorConfig.Monitoring s in
  let both :=
    negb (JobDefaultsConfig.BackoffLimit sj =? 0)
    || negb (JobDefaultsConfig.ActiveDeadlineSeconds sj =? 0) in
  mk (ScriptExecutorConfig.mk
    (GRPCConfig.mk
       (pick_Z (GRPCConfig.Port (ScriptExecutorConfig.GRPC s))
               (GRPCConfig.Port (ScriptExecutorConfig.GRPC d)))
       (pick_Z (GRPCConfig.MaxMessageSize (ScriptExecutorConfig.GRPC s))
               (GRPCConfig.MaxMessageSize (ScriptExecutorConfig.GRPC d))))
    (KubernetesConfig.mk
       (pick_str (KubernetesConfig.Namespace sk) (KubernetesConfig.Namespace dk))
       (pick_str (KubernetesConfig.ServiceAccount sk)
                 (KubernetesConfig.ServiceAccount dk))
       (JobDefaultsConfig.mk
          (pick_Z (JobDefaultsConfig.TTLSecondsAfterFinished sj)
                  (JobDefaultsConfig.TTLSecondsAfterFinished dj))
          (if both then JobDefaultsConfig.BackoffLimit sj
           else JobDefaultsConfig.BackoffLimit dj)
          (if both then JobDefaultsConfig.ActiveDeadlineSeconds sj
           else JobDefaultsConfig.ActiveDeadlineSeconds dj))
       (KubernetesConfig.DefaultResources dk)
       (KubernetesConfig.MaxResources dk))
    (ImageConfig.mk
       (pick_str (ImageConfig.DefaultImage si) (ImageConfig.DefaultImage di))
       (pick_str (ImageConfig.DefaultImagePullSecret si)
                 (ImageConfig.DefaultImagePullSecret di))
       (ImageConfig.DefaultImagePullPolicy di)
       (pick_list (ImageConfig.ApprovedImages si) (ImageConfig.ApprovedImages di))
       (pick_list (ImageConfig.BlockedImages si) (ImageConfig.BlockedImages di))
       (ImageConfig.Catalog di)
       (ImageConfig.VerifyImageAccess di)
       (ImageConfig.ScanImagesOnApproval di))
    (SecurityConfig.mk
       (SecurityConfig.RequiredPermission dsec)
       (SecurityConfig.BlockedCommands dsec)
       (pick_Z (SecurityConfig.MaxScriptSize ssec) (SecurityConfig.MaxScriptSize dsec))
       (pick_Z (SecurityConfig.MaxScriptLines ssec)
               (SecurityConfig.MaxScriptLines dsec))
       (SecurityConfig.DefaultTimeout dsec)
       (SecurityConfig.MaxTimeout dsec)
       (SecurityConfig.RunAsNonRoot dsec)
       (SecurityConfig.RunAsUser dsec)
       (SecurityConfig.FSGroup dsec)
       (SecurityConfig.ReadOnlyRootFilesystem dsec)
       (SecurityConfig.AllowPrivilegeEscalation dsec)
       (SecurityConfig.DropAllCapabilities dsec))
    (ApprovalConfig.mk
       (ApprovalConfig.Enabled da)
       (ApprovalStorageConfig.mk
          (ApprovalStorageConfig.Type_ (ApprovalConfig.Storage da))
          (pick_str (ApprovalStorageConfig.ConfigMapName (ApprovalConfig.Storage sa))
                    (ApprovalStorageConfig.ConfigMapName (ApprovalConfig.Storage da)))
          (pick_str
             (ApprovalStorageConfig.ConfigMapNamespace (ApprovalConfig.Storage sa))
             (ApprovalStorageConfig.ConfigMapNamespace (ApprovalConfig.Storage da))))
       (ApprovalConfig.ApprovalTimeout da)
       (ApprovalConfig.DefaultApprovers da)
       (ApprovalConfig.AutoApprove da))
    (AuditConfig.mk
       (AuditConfig.Enabled dau)
       (pick_str (AuditConfig.LogFile sau) (AuditConfig.LogFile dau))
       (AuditConfig.SIEM dau)
       (AuditConfig.LogScriptContent dau)
       (AuditConfig.LogScriptOutput dau)
       (AuditConfig.LogEnvironment dau))
    (MonitoringConfig.mk
       (MetricsConfig.mk
          (MetricsConfig.Enabled (MonitoringConfig.Metrics dm))
          (pick_Z (MetricsConfig.Port (MonitoringConfig.Metrics sm))
                  (MetricsConfig.Port (MonitoringConfig.Metrics dm)))
          (MetricsConfig.Path (MonitoringConfig.Metrics dm)))
       (MonitoringConfig.Pushgateway dm))).

(** [applyEnvOverrides]; [atoi] is [strconv.Atoi], [None] on an error. *)
Definition atoi (s : string) : option Z :=
  let '(neg, body) :=
    match s with
    | String "-" r => (true, r)
    | String "+" r => (false, r)
    | _ => (false, s)
    end in
  match Resource.digits body 0 0 with
  | (n, S _, EmptyString) =>
      let v := if neg then - n else n in
      if (v <? - 2 ^ 63) || (2 ^ 63 - 1 <? v) then None else Some v
  | _ => None
  end.

Definition applyEnvOverrides (getenv : Env) (cfg : t) : t :=
  let c := ScriptExecutor cfg in
  let g := ScriptExecutorConfig.GRPC c in
  let k := ScriptExecutorConfig.Kubernetes c in
  let i := ScriptExecutorConfig.Image c in
  mk (ScriptExecutorConfig.mk
    (GRPCConfig.mk
       (let port := getenv "GRPC_PORT" in
        if Strings.is_empty port then GRPCConfig.Port g
        else match atoi port with
             | Some p => p
             | None => GRPCConfig.Port g
             end)
       (GRPCConfig.MaxMessageSize g))
    (KubernetesConfig.mk
       (pick_str (getenv "KUBERNETES_NAMESPACE") (KubernetesConfig.Namespace k))
       (KubernetesConfig.ServiceAccount k)
       (KubernetesConfig.JobDefaults k)
       (KubernetesConfig.DefaultResources k)
       (KubernetesConfig.MaxResources k))
    (ImageConfig.mk
       (pick_str (getenv "DEFAULT_IMAGE") (ImageConfig.DefaultImage i))
       (ImageConfig.DefaultImagePullSecret i)
       (ImageConfig.DefaultImagePullPolicy i)
       (ImageConfig.ApprovedImages i)
       (ImageConfig.BlockedImages i)
       (ImageConfig.Catalog i)
       (ImageConfig.VerifyImageAccess i)
       (ImageConfig.ScanImagesOnApproval i))
    (ScriptExecutorConfig.Security c)
    (ScriptExecutorConfig.Approval c)
    (ScriptExecutorConfig.Audit c)
    (ScriptExecutorConfig.Monitoring c)).

(** [Load], after the file named by [CONFIG_PATH] has been read and
    parsed: [file] is the parsed file, [None] when [CONFIG_PATH] is not
    set.  Reading and parsing are the YAML library's and may fail; a
    failure ends the process before any request is served. *)
Definition Load (getenv : Env) (file : option t) : t :=
  let cfg := defaultConfig getenv in
  let cfg := match file with
             | Some fileConfig => mergeConfig cfg fileConfig
             | None => cfg
             end in
  applyEnvOverrides getenv cfg.

(** The methods [DefaultTimeout] and [MaxTimeout] of [Config]. *)
Definition DefaultTimeout (c : t) : Time.Duration :=
  match Time.ParseDuration
          (SecurityConfig.DefaultTimeout
             (ScriptExecutorConfig.Security (ScriptExecutor c))) with
  | None => 5 * Time.Minute
  | Some d => d
  end.

Definition MaxTimeout (c : t) : Time.Duration :=
  match Time.ParseDuration
          (SecurityConfig.MaxTimeout
             (ScriptExecutorConfig.Security (ScriptExecutor c))) with
  | None => 30 * Time.Minute
  | Some d => d
  end.

End Config.

(** ** Results, errors and panics

    A Go function that returns [(T, error)] yields [Ok] or [Err] with the
    text of the error ([err.Error()]); [Panic] is a run-time panic, which
    [resource.MustParse] raises and nothing in the service recovers. *)

Inductive result (A : Type) : Type :=
| Ok (a : A)
| Err (msg : string)
| Panic (msg : string).
Arguments Ok {A} a.
Arguments Err {A} msg.
Arguments Panic {A} msg.

Definition bind {A B : Type} (r : result A) (k : A -> result B) : result B :=
  match r with
  | Ok a => k a
  | Err e => Err e
  | Panic e => Panic e
  end.

Declare Scope result_scope.
Delimit Scope result_scope with result.
Notation "x <- r ;; k" := (bind r (fun x => k))
  (at level 100, r at next level, right associativity) : result_scope.

(** [fmt.Errorf("...: %w", err)]. *)
Definition wrap {A : Type} (prefix : string) (r : result A) : result A :=
  match r with
  | Err e => Err (prefix ++ ": " ++ e)
  | _ => r
  end.

(** [%q] of a string without bytes that need escaping. *)
Definition dquote : string := String (ascii_of_nat 34) EmptyString.
Definition quote (s : string) : string := dquote ++ s ++ dquote.

(** ** Ranging over a Go map

    Go leaves the order in which [range] visits a map unspecified and
    varies it from run to run.  A [RangeOrder] is one choice of order for
    every map. *)

Record RangeOrder := {
  range : forall {A : Type}, gmap string A -> list (string * A);
  range_perm : forall (A : Type) (m : gmap string A), range m ≡ₚ map_to_list m
}.

Definition ascending : RangeOrder :=
  {| range := fun A m => map_to_list m;
     range_perm := fun A m => reflexivity _ |}.

Definition descending : RangeOrder :=
  {| range := fun A m => rev (map_to_list m);
     range_perm := fun A m => symmetry (Permutation_rev (map_to_list m)) |}.

(** ** The cluster, as the service's clients see it

    ConfigMaps and Secrets are keyed by namespace and name and hold their
    [Data]; a Secret's bytes are a string.  The API server answers every
    call: a [Get] fails only when the object does not exist. *)

Module K8s.

Definition ObjectKey : Type := string * string.

Record Objects := {
  configmaps : gmap ObjectKey (gmap string string);
  secrets : gmap ObjectKey (gmap string string)
}.

Definition notFound (resource name : string) : string :=
  resource ++ " " ++ quote name ++ " not found".

Definition GetConfigMap (o : Objects) (namespace name : string)
  : result (gmap string string) :=
  match configmaps o !! (namespace, name) with
  | Some data => Ok data
  | None => Err (notFound "configmaps" name)
  end.

Definition GetSecret (o : Objects) (namespace name : string)
  : result (gmap string string) :=
  match secrets o !! (namespace, name) with
  | Some data => Ok data
  | None => Err (notFound "secrets" name)
  end.

End K8s.

(** ** [internal/script]: sources, the registry and the loader *)

Module Script.

Definition ApprovedScriptsConfigMap : string := "approved-scripts".
Definition ScriptRegistryConfigMap : string := "script-registry".

Inductive SourceType := SourceInline | SourceConfigMap | SourceSecret
                      | SourcePath | SourceRegistry.

#[global] Instance SourceType_eq_dec : EqDecision SourceType.
Proof. solve_decision. Defined.

Definition SourceType_string (t : SourceType) : string :=
  match t with
  | SourceInline => "inline"
  | SourceConfigMap => "configmap"
  | SourceSecret => "secret"
  | SourcePath => "path"
  | SourceRegistry => "registry"
  end.

Record Source := mkSource {
  Type_ : SourceType;
  Content : string;
  Path : string;
  Name : string;
  Key : string;
  Namespace : string
}.

Record RegistryEntry := mkRegistryEntry {
  ConfigMap : string;
  Secret : string;
  EntryKey : string
}.

(** [RegistryData.Scripts]. *)
Abbreviation RegistryData := (gmap string RegistryEntry).

Section WithYaml.

(** [yaml.Unmarshal] into a [RegistryData]; [None] when the text does
    not parse. *)
Variable unmarshalRegistry : string -> option RegistryData.

Definition loadFromConfigMap (o : K8s.Objects) (namespace name key : string)
  : result string :=
  (cm <- K8s.GetConfigMap o namespace name ;;
   match cm !! key with
   | Some content => Ok content
   | None => Err ("key " ++ quote key ++ " not found in configmap "
                    ++ namespace ++ "/" ++ name)
   end)%result.

Definition loadFromSecret (o : K8s.Objects) (namespace name key : string)
  : result string :=
  (secret <- K8s.GetSecret o namespace name ;;
   match secret !! key with
   | Some contentBytes => Ok contentBytes
   | None => Err ("key " ++ quote key ++ " not found in secret "
                    ++ namespace ++ "/" ++ name)
   end)%result.

(** [Registry.getEntry].  The text of a YAML error is the library's; one
    wording stands for it. *)
Definition getEntry (o : K8s.Objects) (namespace scriptID : string)
  : result RegistryEntry :=
  (cm <- wrap "get script-registry configmap"
           (K8s.GetConfigMap o namespace ScriptRegistryConfigMap) ;;
   match cm !! "registry.yaml" with
   | None => Err "registry.yaml not found in script-registry configmap"
   | Some yamlContent =>
       match unmarshalRegistry yamlContent with
       | None => Err "parse registry.yaml: yaml: unmarshal error"
       | Some data =>
           match data !! scriptID with
           | None => Err ("script not found in registry: " ++ scriptID)
           | Some entry =>
               if (Strings.is_empty (ConfigMap entry)
                   && Strings.is_empty (Secret entry))
                  || Strings.is_empty (EntryKey entry)
               then Err ("invalid registry entry for " ++ scriptID
                         ++ ": must have configmap or secret and key")
               else if negb (Strings.is_empty (ConfigMap entry))
                       && negb (Strings.is_empty (Secret entry))
               then Err ("registry entry " ++ scriptID
                         ++ " has both configmap and secret")
               else Ok entry
           end
       end
   end)%result.

(** [Registry.LoadByID]. *)
Definition LoadByID (o : K8s.Objects) (namespace scriptID : string)
  : result (string * Source) :=
  (entry <- getEntry o namespace scriptID ;;
   if negb (Strings.is_empty (ConfigMap entry)) then
     content <- loadFromConfigMap o namespace (ConfigMap entry) (EntryKey entry) ;;
     Ok (content,
         mkSource SourceRegistry content "" (ConfigMap entry) (EntryKey entry)
                  namespace)
   else if negb (Strings.is_empty (Secret entry)) then
     content <- loadFromSecret o namespace (Secret entry) (EntryKey entry) ;;
     Ok (content,
         mkSource SourceRegistry content "" (Secret entry) (EntryKey entry)
                  namespace)
   else Err ("registry entry " ++ quote scriptID
             ++ " has neither configmap nor secret"))%result.

(** [Loader.scriptPathExists]. *)
Definition scriptPathExists (o : K8s.Objects) (namespace path : string)
  : result bool :=
  if (String.length path <? 9)%nat
     || negb (Strings.eqb (Strings.take 9 path) "/scripts/")
  then Err "script_path must start with /scripts/"
  else
    let key := Strings.drop 9 path in
    if Strings.is_empty key
    then Err "script_path must include filename after /scripts/"
    else
      (cm <- K8s.GetConfigMap o namespace ApprovedScriptsConfigMap ;;
       Ok (bool_decide (is_Some (cm !! key))))%result.

(** [ref != nil && len(ref.Fields) > 0]. *)
Definition hasFields (ref : option Struct) : bool :=
  match ref with
  | Some fields => (0 <? size fields)%nat
  | None => false
  end.

Definition NoSourceProvided : string :=
  "no script source provided (inline_script, script_from_configmap, script_from_secret, script_path, or script_id)".

(** [Loader.LoadScript]; [namespace] is the loader's. *)
Definition LoadScript (o : K8s.Objects) (namespace : string)
           (params : option Struct) : result (string * Source) :=
  let inline := Params.getString params "inline_script" "" in
  if negb (Strings.is_empty inline) then
    Ok (inline, mkSource SourceInline inline "" "" "" "")
  else
  let cmRef := Params.getMap params "script_from_configmap" in
  if hasFields cmRef then
    let cmName := Params.getString cmRef "configmap_name" "" in
    let key := Params.getString cmRef "key" "" in
    if Strings.is_empty cmName || Strings.is_empty key then
      Err "script_from_configmap requires configmap_name and key"
    else
      let ns := Params.getString cmRef "namespace" namespace in
      (content <- wrap "load from configmap" (loadFromConfigMap o ns cmName key) ;;
       Ok (content, mkSource SourceConfigMap content "" cmName key ns))%result
  else
  let secretRef := Params.getMap params "script_from_secret" in
  if hasFields secretRef then
    let secretName := Params.getString secretRef "secret_name" "" in
    let key := Params.getString secretRef "key" "" in
    if Strings.is_empty secretName || Strings.is_empty key then
      Err "script_from_secret requires secret_name and key"
    else
      let ns := Params.getString secretRef "namespace" namespace in
      (content <- wrap "load from secret" (loadFromSecret o ns secretName key) ;;
       Ok (content, mkSource SourceSecret content "" secretName key ns))%result
  else
  let path := Params.getString params "script_path" "" in
  if negb (Strings.is_empty path) then
    (exists_ <- wrap "validate script path" (scriptPathExists o namespace path) ;;
     if negb exists_ then
       Err ("script not found in approved-scripts: " ++ path)
     else Ok ("", mkSource SourcePath "" path "" "" ""))%result
  else
  let scriptID := Params.getString params "script_id" "" in
  if negb (Strings.is_empty scriptID) then
    wrap "load by script_id" (LoadByID o namespace scriptID)
  else Err NoSourceProvided.

End WithYaml.

End Script.

(** ** [crypto/sha256] and [encoding/hex]

    SHA-256 as FIPS 180-4 defines it, on 32-bit words kept in [Z] with the
    wrap-around written out. *)

Module Sha256.

Definition w32 (x : Z) : Z := x mod 2 ^ 32.
Definition add32 (x y : Z) : Z := w32 (x + y).
Definition rotr (x n : Z) : Z :=
  w32 (Z.lor (Z.shiftr x n) (Z.shiftl x (32 - n))).
Definition not32 (x : Z) : Z := 2 ^ 32 - 1 - x.

Definition Ch (x y z : Z) : Z := Z.lxor (Z.land x y) (Z.land (not32 x) z).
Definition Maj (x y z : Z) : Z :=
  Z.lxor (Z.lxor (Z.land x y) (Z.land x z)) (Z.land y z).
Definition Sigma0 (x : Z) : Z := Z.lxor (Z.lxor (rotr x 2) (rotr x 13)) (rotr x 22).
Definition Sigma1 (x : Z) : Z := Z.lxor (Z.lxor (rotr x 6) (rotr x 11)) (rotr x 25).
Definition sigma0 (x : Z) : Z :=
  Z.lxor (Z.lxor (rotr x 7) (rotr x 18)) (Z.shiftr x 3).
Definition sigma1 (x : Z) : Z :=
  Z.lxor (Z.lxor (rotr x 17) (rotr x 19)) (Z.shiftr x 10).

(** The constants are derived as the standard derives them: the round
    constants are the first 32 bits of the fractional parts of the cube
    roots of the first 64 primes, the initial hash value those of the
    square roots of the first 8 primes. *)
Definition isPrime (n : nat) : bool :=
  forallb (fun d => negb (n mod d =? 0)%nat) (seq 2 (n - 2)).

Definition primes (count : nat) : list Z :=
  map Z.of_nat (firstn count (filter (fun n => isPrime n = true) (seq 2 310))).

(** The integer cube root, one bit at a time from [2 ^ bits] down. *)
Fixpoint cbrtBits (bits : nat) (n r : Z) : Z :=
  match bits with
  | O => r
  | S bits' =>
      let r' := r + 2 ^ Z.of_nat bits' in
      cbrtBits bits' n (if r' * r' * r' <=? n then r' else r)
  end.

Definition K : list Z :=
  map (fun q => w32 (cbrtBits 36 (q * 2 ^ 96) 0)) (primes 64).

Definition H0 : list Z :=
  map (fun q => w32 (Z.sqrt (q * 2 ^ 64))) (primes 8).

(** Big-endian bytes of a word. *)
Definition bytesOf (width : nat) (x : Z) : list Z :=
  map (fun i => Z.shiftr x (8 * Z.of_nat (width - 1 - i)) mod 256) (seq 0 width).

Fixpoint wordsOf (bytes : list Z) : list Z :=
  match bytes with
  | a :: b :: c :: d :: rest =>
      (((a * 256 + b) * 256 + c) * 256 + d) :: wordsOf rest
  | _ => []
  end.

Definition pad (msg : list Z) : list Z :=
  let n := Z.of_nat (List.length msg) in
  let zeros := Z.to_nat ((55 - n) mod 64) in
  msg ++ [128] ++ List.repeat 0 zeros ++ bytesOf 8 (8 * n).

(** The message schedule: [w] holds the words so far, latest first. *)
Fixpoint schedule (rounds : nat) (w : list Z) : list Z :=
  match rounds with
  | O => rev w
  | S rounds' =>
      let x :=
        add32 (add32 (sigma1 (nth 1 w 0)) (nth 6 w 0))
              (add32 (sigma0 (nth 14 w 0)) (nth 15 w 0)) in
      schedule rounds' (x :: w)
  end.

Definition round (st : list Z) (kw : Z * Z) : list Z :=
  match st with
  | [a; b; c; d; e; f; g; h] =>
      let t1 := add32 (add32 (add32 h (Sigma1 e)) (add32 (Ch e f g) (fst kw)))
                      (snd kw) in
      let t2 := add32 (Sigma0 a) (Maj a b c) in
      [add32 t1 t2; a; b; c; add32 d t1; e; f; g]
  | _ => st
  end.

Definition compress (h : list Z) (block : list Z) : list Z :=
  let w := schedule 48 (rev (wordsOf block)) in
  let st := fold_left round (combine K w) h in
  map (fun p => add32 (fst p) (snd p)) (combine h st).

Fixpoint blocks (fuel : nat) (bytes : list Z) (h : list Z) : list Z :=
  match fuel with
  | O => h
  | S fuel' =>
      match bytes with
      | [] => h
      | _ => blocks fuel' (skipn 64 bytes) (compress h (firstn 64 bytes))
      end
  end.

(** [sha256.Sum256]: the 32 bytes of the digest. *)
Definition Sum256 (data : string) : list Z :=
  let bytes :=
    pad (map (fun c => Z.of_nat (nat_of_ascii c)) (list_ascii_of_string data)) in
  flat_map (bytesOf 4) (blocks (List.length bytes) bytes H0).

Definition hexDigit (x : Z) : ascii :=
  if x <? 10 then ascii_of_nat (Z.to_nat (48 + x))
  else ascii_of_nat (Z.to_nat (87 + x)).

(** [hex.EncodeToString]. *)
Fixpoint EncodeToString (bytes : list Z) : string :=
  match bytes with
  | [] => EmptyString
  | b :: rest =>
      String (hexDigit (b / 16)) (String (hexDigit (b mod 16)) (EncodeToString rest))
  end.

End Sha256.

(** ** [internal/security]: the script validator *)

Module Security.

Record ScriptValidator := mkScriptValidator {
  blockedCommands : list string;
  allowedCommands : list string;
  maxSize : Z;
  maxLines : Z
}.

Definition NewScriptValidator (blocked allowed : list string)
           (maxSize maxLines : Z) : ScriptValidator :=
  let maxSize := if maxSize <=? 0 then 524288 else maxSize in
  let maxLines := if maxLines <=? 0 then 1000 else maxLines in
  mkScriptValidator blocked allowed maxSize maxLines.

Definition newline : ascii := ascii_of_nat 10.
Definition carriage_return : ascii := ascii_of_nat 13.

(** The tokens of a [bufio.Scanner] with the default split function
    [ScanLines] and the default buffer: the pieces between line feeds,
    without a last empty piece, each without one trailing carriage
    return.  The scanner gives up, silently here since the code does not
    look at [scanner.Err()], at the first line of 65536 bytes or more. *)
Definition MaxScanTokenSize : Z := 64 * 1024.

Fixpoint dropLastEmpty (l : list string) : list string :=
  match l with
  | [] => []
  | [EmptyString] => []
  | x :: r => x :: dropLastEmpty r
  end.

Fixpoint scannable (l : list string) : list string :=
  match l with
  | [] => []
  | x :: r =>
      if Z.of_nat (String.length x) <? MaxScanTokenSize
      then x :: scannable r else []
  end.

Definition dropCR (s : string) : string :=
  Strings.TrimSuffix s (String carriage_return EmptyString).

Definition ScanLines (s : string) : list string :=
  map dropCR (scannable (dropLastEmpty (Strings.Split s newline))).

(** The command a line contributes, if any. *)
Definition lineCommand (text : string) : option string :=
  let line := Strings.TrimSpace text in
  if Strings.is_empty line || Strings.HasPrefix line "#" then None
  else
    match Strings.Fields line with
    | [] => None
    | f0 :: rest =>
        let cmd := Strings.TrimPrefix f0 "|" in
        let cmd := Strings.TrimPrefix cmd "&&" in
        let cmd := Strings.TrimPrefix cmd "||" in
        let cmd := Strings.TrimPrefix cmd ";" in
        if Strings.eqb cmd "sudo" || Strings.eqb cmd "su" then
          match rest with
          | f1 :: _ => Some f1
          | [] => Some cmd
          end
        else Some cmd
    end.

(** The [commands] map of [extractCommands] after its loop. *)
Definition commandSet (script : string) : gmap string bool :=
  fold_left
    (fun commands text =>
       match lineCommand text with
       | Some cmd => <[cmd := true]> commands
       | None => commands
       end)
    (ScanLines script) ∅.

Definition extractCommands (ro : RangeOrder) (script : string) : list string :=
  map fst (range ro (commandSet script)).

Definition matchesCommand (cmd pattern : string) : bool :=
  if Strings.eqb cmd pattern then true
  else if Strings.HasSuffix pattern "*" then
    Strings.HasPrefix cmd (Strings.TrimSuffix pattern "*")
  else false.

Definition isBlocked (v : ScriptValidator) (cmd : string) : bool :=
  existsb (matchesCommand cmd) (blockedCommands v).

Definition isAllowed (v : ScriptValidator) (cmd : string) : bool :=
  existsb (matchesCommand cmd) (allowedCommands v).

Definition TooLarge (len max : Z) : string :=
  "script too large: " ++ Strings.itoa len ++ " bytes (max: "
    ++ Strings.itoa max ++ ")".

Definition TooLong (lines max : Z) : string :=
  "script too long: " ++ Strings.itoa lines ++ " lines (max: "
    ++ Strings.itoa max ++ ")".

Definition BlockedCommand (cmd : string) : string :=
  "blocked command detected: " ++ cmd.

Definition NotAllowed (cmd : string) : string :=
  "command not in allowlist: " ++ cmd.

(** [ScriptValidator.Validate]; [ro] is the order in which the command
    map happens to be ranged over. *)
Definition Validate (v : ScriptValidator) (ro : RangeOrder) (script : string)
  : result unit :=
  let len := Z.of_nat (String.length script) in
  if maxSize v <? len then Err (TooLarge len (maxSize v)) else
  let lines := Strings.Split script newline in
  let n := Z.of_nat (List.length lines) in
  if maxLines v <? n then Err (TooLong n (maxLines v)) else
  let commands := extractCommands ro script in
  match find (isBlocked v) commands with
  | Some cmd => Err (BlockedCommand cmd)
  | None =>
      match allowedCommands v with
      | [] => Ok tt
      | _ =>
          match find (fun cmd => negb (isAllowed v cmd)) commands with
          | Some cmd => Err (NotAllowed cmd)
          | None => Ok tt
          end
      end
  end.

End Security.

(** ** [internal/image]: the catalog, the resolver and the validator *)

Module Image.

Record CatalogEntry := mkCatalogEntry {
  EntryImage : string;
  EntryPullSecret : string;
  Description : string;
  Tools : list string;
  ApprovedBy : string;
  ApprovedAt : string
}.

Record Catalog := mkCatalog {
  catalogNamespace : string;
  catalogName : string
}.

Record ResolvedImage := mkResolvedImage {
  Image : string;
  PullSecret : string;
  PullPolicy : string
}.

Record ResolverDefaults := mkResolverDefaults {
  DefaultImage : string;
  DefaultPullSecret : string;
  DefaultPullPolicy : string
}.

Record Resolver := mkResolver {
  catalog : Catalog;
  defaults : ResolverDefaults
}.

Definition NewResolver (catalog : Catalog) (defaults : ResolverDefaults)
  : Resolver :=
  mkResolver catalog
    (if Strings.is_empty (DefaultPullPolicy defaults)
     then mkResolverDefaults (DefaultImage defaults) (DefaultPullSecret defaults)
                             "IfNotPresent"
     else defaults).

Section WithYaml.

(** [yaml.Unmarshal] into the catalog's map. *)
Variable unmarshalCatalog : string -> option (gmap string CatalogEntry).

(** [Catalog.Load]: the entries it stores.  [Resolve] is the only
    caller and reads the entries right after a load that succeeded,
    so the entries are returned rather than stored. *)
Definition Load (c : Catalog) (o : K8s.Objects)
  : result (gmap string CatalogEntry) :=
  (cm <- wrap "get image catalog configmap"
           (K8s.GetConfigMap o (catalogNamespace c) (catalogName c)) ;;
   match cm !! "catalog.yaml" with
   | None => Err ("catalog.yaml not found in configmap " ++ catalogName c)
   | Some yamlContent =>
       match unmarshalCatalog yamlContent with
       | None => Err "parse catalog.yaml: yaml: unmarshal error"
       | Some data => Ok data
       end
   end)%result.

(** [Resolver.Resolve]. *)
Definition Resolve (r : Resolver) (o : K8s.Objects)
           (image imageRef imagePullPolicy imagePullSecret : string)
  : result ResolvedImage :=
  (ip <-
     (if negb (Strings.is_empty image) then Ok (image, "")
      else if negb (Strings.is_empty imageRef) then
        entries <- wrap "load image catalog" (Load (catalog r) o) ;;
        match entries !! imageRef with
        | None => Err ("image_ref " ++ quote imageRef ++ " not found in catalog")
        | Some entry => Ok (EntryImage entry, EntryPullSecret entry)
        end
      else Ok (DefaultImage (defaults r), "")) ;;
   let pullSecret :=
     if Strings.is_empty (snd ip) then
       if Strings.is_empty imagePullSecret
       then DefaultPullSecret (defaults r) else imagePullSecret
     else snd ip in
   let pullPolicy :=
     if Strings.is_empty imagePullPolicy
     then DefaultPullPolicy (defaults r) else imagePullPolicy in
   Ok (mkResolvedImage (fst ip) pullSecret pullPolicy))%result.

End WithYaml.

Record Validator := mkValidator {
  approved : list string;
  blocked : list string
}.

Definition NewValidator (approved blocked : list string) : Validator :=
  mkValidator approved blocked.

Definition matches (image pattern : string) : bool :=
  let pattern := Strings.TrimSpace pattern in
  if Strings.is_empty pattern then false
  else if Strings.HasSuffix pattern "*" then
    Strings.HasPrefix image (Strings.TrimSuffix pattern "*")
  else Strings.eqb image pattern.

(** [Validator.Validate]. *)
Definition Validate (v : Validator) (image : string) : result unit :=
  match approved v, blocked v with
  | [], [] => Ok tt
  | _, _ =>
      match find (matches image) (blocked v) with
      | Some pattern =>
          Err ("image " ++ image ++ " is blocked (matches " ++ pattern ++ ")")
      | None =>
          match approved v with
          | [] => Ok tt
          | _ =>
              if existsb (matches image) (approved v) then Ok tt
              else Err ("image " ++ image ++ " is not in approved list")
          end
      end
  end.

End Image.

(** ** [internal/approval]: approval records, their store and the checker

    A [time.Time] is its count of nanoseconds since the Unix epoch.  Each
    operation reads the clock once: [now] is that reading. *)

Module Approval.

Definition Status : Type := string.
Definition StatusPending : Status := "pending".
Definition StatusApproved : Status := "approved".
Definition StatusDenied : Status := "denied".
Definition StatusExpired : Status := "expired".

Definition Time : Type := Z.
(** The zero [time.Time], January 1 of year 1. *)
Definition zeroTime : Time := -62135596800 * Time.Second.

Record Request := mkRequest {
  ID : string;
  ExecutionID : string;
  StepName : string;
  RunbookID : string;
  User : string;
  Script : string;
  ScriptHash : string;
  Approvers : list string;
  Status_ : Status;
  ApprovedBy : string;
  ApprovedAt : Time;
  DeniedBy : string;
  DeniedAt : Time;
  DenialReason : string;
  CreatedAt : Time;
  ExpiresAt : Time
}.

Definition withStatus (req : Request) (st : Status) : Request :=
  mkRequest (ID req) (ExecutionID req) (StepName req) (RunbookID req) (User req)
            (Script req) (ScriptHash req) (Approvers req) st
            (ApprovedBy req) (ApprovedAt req) (DeniedBy req) (DeniedAt req)
            (DenialReason req) (CreatedAt req) (ExpiresAt req).

(** The [Store] interface over a state of type [S]: every operation
    returns its result and the state it leaves. *)
Class Store (S : Type) := {
  Create : Time -> Request -> S -> result unit * S;
  Get : Time -> string -> string -> S -> result Request * S;
  Update : Time -> Request -> S -> result unit * S
}.

(** *** [ConfigMapStore]

    The state is the [Data] of the store's ConfigMap, [None] while the
    object does not exist.  The store writes each record as JSON and
    reads it back; a record is kept here as the record itself, which is
    what [json.Unmarshal] makes of what [json.Marshal] wrote. *)
Abbreviation ConfigMapData := (option (gmap string Request)).

Definition recordKey (executionID stepName : string) : string :=
  executionID ++ "-" ++ stepName.

Definition cmUpdate (name : string) (now : Time) (req : Request)
           (s : ConfigMapData) : result unit * ConfigMapData :=
  match s with
  | None => (Err (K8s.notFound "configmaps" name), s)
  | Some data =>
      (Ok tt, Some (<[recordKey (ExecutionID req) (StepName req) := req]> data))
  end.

Definition cmCreate (name : string) (now : Time) (req : Request)
           (s : ConfigMapData) : result unit * ConfigMapData :=
  let req :=
    mkRequest
      (ExecutionID req ++ "-" ++ StepName req ++ "-" ++ Strings.itoa now)
      (ExecutionID req) (StepName req) (RunbookID req) (User req)
      (Script req) (ScriptHash req) (Approvers req) StatusPending
      (ApprovedBy req) (ApprovedAt req) (DeniedBy req) (DeniedAt req)
      (DenialReason req) now (now + 24 * Time.Hour) in
  (* getOrCreate *)
  let data := match s with Some data => data | None => ∅ end in
  (Ok tt, Some (<[recordKey (ExecutionID req) (StepName req) := req]> data)).

Definition cmGet (name : string) (now : Time) (executionID stepName : string)
           (s : ConfigMapData) : result Request * ConfigMapData :=
  match s with
  | None => (Err (K8s.notFound "configmaps" name), s)
  | Some data =>
      match data !! recordKey executionID stepName with
      | None => (Err "approval request not found", s)
      | Some req =>
          if Strings.eqb (Status_ req) StatusPending && (ExpiresAt req <? now)
          then
            let req := withStatus req StatusExpired in
            (Ok req, snd (cmUpdate name now req s))
          else (Ok req, s)
      end
  end.

(** The store over the ConfigMap called [name]. *)
Definition ConfigMapStore (name : string) : Store ConfigMapData :=
  {| Create := cmCreate name; Get := cmGet name; Update := cmUpdate name |}.

(** *** The checker *)

Record Checker := mkChecker { defaultApprovers : list string }.

Definition NewChecker (defaultApprovers : list string) : Checker :=
  mkChecker defaultApprovers.

Section WithStore.

Context {S : Type} `{Store S}.

Definition CreateRequest (c : Checker) (now : Time)
           (executionID stepName runbookID user script scriptHash : string)
           (approvers : list string) (s : S) : result unit * S :=
  let approvers :=
    match approvers with [] => defaultApprovers c | _ => approvers end in
  let req :=
    mkRequest "" executionID stepName runbookID user script scriptHash
              approvers "" "" zeroTime "" zeroTime "" zeroTime zeroTime in
  Create now req s.

Definition Check (c : Checker) (now : Time)
           (executionID stepName script scriptHash : string)
           (approvers : list string) (user : string) (s : S)
  : result Status * S :=
  match Get now executionID stepName s with
  | (Ok req, s') =>
      if Strings.eqb (Status_ req) StatusApproved then (Ok StatusApproved, s')
      else if Strings.eqb (Status_ req) StatusDenied then (Ok StatusDenied, s')
      else if Strings.eqb (Status_ req) StatusExpired then (Ok StatusPending, s')
      else if Strings.eqb (Status_ req) StatusPending then (Ok StatusPending, s')
      else (Ok StatusPending, s')
  | (Err _, s') => (Ok StatusPending, s')
  | (Panic e, s') => (Panic e, s')
  end.

Definition contains (slice : list string) (s : string) : bool :=
  existsb (fun v => Strings.EqualFold v s) slice.

Definition NotPending (verb : string) (st : Status) : string :=
  "cannot " ++ verb ++ ": status is " ++ st.

Definition Unauthorized (user verb : string) : string :=
  "user " ++ user ++ " is not authorized to " ++ verb.

Definition Approve (c : Checker) (now : Time)
           (executionID stepName approver : string) (s : S)
  : result unit * S :=
  match Get now executionID stepName s with
  | (Ok req, s') =>
      if negb (Strings.eqb (Status_ req) StatusPending) then
        (Err (NotPending "approve" (Status_ req)), s')
      else if negb (contains (Approvers req) approver) then
        (Err (Unauthorized approver "approve"), s')
      else
        let req :=
          mkRequest (ID req) (ExecutionID req) (StepName req) (RunbookID req)
                    (User req) (Script req) (ScriptHash req) (Approvers req)
                    StatusApproved approver now
                    (DeniedBy req) (DeniedAt req) (DenialReason req)
                    (CreatedAt req) (ExpiresAt req) in
        Update now req s'
  | (Err e, s') => (Err e, s')
  | (Panic e, s') => (Panic e, s')
  end.

Definition Deny (c : Checker) (now : Time)
           (executionID stepName denier reason : string) (s : S)
  : result unit * S :=
  match Get now executionID stepName s with
  | (Ok req, s') =>
      if negb (Strings.eqb (Status_ req) StatusPending) then
        (Err (NotPending "deny" (Status_ req)), s')
      else if negb (contains (Approvers req) denier) then
        (Err (Unauthorized denier "deny"), s')
      else
        let req :=
          mkRequest (ID req) (ExecutionID req) (StepName req) (RunbookID req)
                    (User req) (Script req) (ScriptHash req) (Approvers req)
                    StatusDenied (ApprovedBy req) (ApprovedAt req)
                    denier now reason
                    (CreatedAt req) (ExpiresAt req) in
        Update now req s'
  | (Err e, s') => (Err e, s')
  | (Panic e, s') => (Panic e, s')
  end.

End WithStore.

End Approval.

(** ** [internal/execution]: the execution context *)

Module Corev1.

Definition ResourceCPU : string := "cpu".
Definition ResourceMemory : string := "memory".
Definition ResourceEphemeralStorage : string := "ephemeral-storage".

(** [corev1.ResourceList]. *)
Abbreviation ResourceList := (gmap string Resource.Quantity).

Record ResourceRequirements := mkResourceRequirements {
  Requests : ResourceList;
  Limits : ResourceList
}.

(** A toleration and an affinity are copied by the builder and never
    looked into. *)
Record Toleration := mkToleration {
  TolerationKey : string;
  Operator : string;
  TolerationValue : string;
  Effect : string;
  TolerationSeconds : option Z
}.

Record Affinity := mkAffinity { affinityTerms : list string }.

End Corev1.

Module Execution.

Import Corev1.

Record SecretKeyRef := mkSecretKeyRef {
  SecretName : string;
  SecretKey : string;
  SecretOptional : bool
}.

Record ConfigMapKeyRef := mkConfigMapKeyRef {
  ConfigMapName : string;
  ConfigMapKey : string;
  ConfigMapOptional : bool
}.

Record KeyToPath := mkKeyToPath {
  Key : string;
  Path : string;
  Mode : option Z
}.

Record SecretVolume := mkSecretVolume {
  SVSecretName : string;
  SVMountPath : string;
  SVOptional : bool;
  SVItems : list KeyToPath
}.

Record ConfigMapVolume := mkConfigMapVolume {
  CVConfigMapName : string;
  CVMountPath : string;
  CVOptional : bool;
  CVItems : list KeyToPath
}.

Record Context := mkContext {
  ExecutionID : string;
  RunbookID : string;
  User : string;
  StepName : string;
  Script : string;
  ScriptSource : option Script.Source;
  ScriptHash : string;
  Image : string;
  ImagePullPolicy : string;
  ImagePullSecret : string;
  Interpreter : string;
  Args : list string;
  WorkingDir : string;
  Timeout : Time.Duration;
  Stdin : string;
  Env : gmap string string;
  EnvFromSecret : gmap string SecretKeyRef;
  EnvFromConfigMap : gmap string ConfigMapKeyRef;
  SecretEnvAll : list string;
  ConfigMapEnvAll : list string;
  VolumesFromSecret : list SecretVolume;
  VolumesFromConfigMap : list ConfigMapVolume;
  NodeSelector : gmap string string;
  Tolerations : list Toleration;
  Affinity_ : option Affinity;
  PriorityClassName : string;
  Resources : ResourceRequirements;
  ServiceAccount : string;
  TTLSecondsAfterFinished : Z;
  BackoffLimit : Z;
  Labels : gmap string string;
  Annotations : gmap string string
}.

(** The inbound [executorv1.ExecutionContext]. *)
Record ExecutionContextPb := mkExecutionContextPb {
  ExecutionId : string;
  RunbookId : string;
  PbUser : string;
  PbStepName : string
}.

(** Conversion to [int32]: wrap-around modulo [2^32]. *)
Definition int32 (z : Z) : Z := (z + 2 ^ 31) mod 2 ^ 32 - 2 ^ 31.

(** The library words its errors in several ways (invalid duration,
    missing unit, unknown unit); one wording stands for them all. *)
Definition parseDuration (s : string) : result Time.Duration :=
  if Strings.is_empty s then Ok 0
  else match Time.ParseDuration s with
       | Some d => Ok d
       | None => Err ("time: invalid duration " ++ quote s)
       end.

Definition parsePullPolicy (s : string) : string :=
  if Strings.eqb s "Always" || Strings.eqb s "IfNotPresent"
     || Strings.eqb s "Never"
  then s else "IfNotPresent".

Definition mustParse (s : string) : result Resource.Quantity :=
  match Resource.MustParse s with
  | Some q => Ok q
  | None => Panic ("cannot parse " ++ quote s ++ " as a quantity")
  end.

(** [if text != "" { list[name] = resource.MustParse(text) }]. *)
Definition setParsed (text name : string) (list : ResourceList)
  : result ResourceList :=
  if Strings.is_empty text then Ok list
  else (q <- mustParse text ;; Ok (<[name := q]> list))%result.

(** The capping step of [buildResources] for one resource. *)
Definition capAt (max name : string) (limits : ResourceList)
  : result ResourceList :=
  if Strings.is_empty max then Ok limits
  else
    (maxQ <- mustParse max ;;
     match limits !! name with
     | Some lim =>
         if 0 <? Resource.Cmp lim maxQ then Ok (<[name := maxQ]> limits)
         else Ok limits
     | None => Ok limits
     end)%result.

Definition buildResources (params : option Struct) (cfg : Config.t)
  : result ResourceRequirements :=
  let k8s := ScriptExecutorConfig.Kubernetes (Config.ScriptExecutor cfg) in
  let defaultReqs := KubernetesConfig.DefaultResources k8s in
  let defaultLimits := ResourceConfig.Limits (KubernetesConfig.MaxResources k8s) in
  let dr := ResourceConfig.Requests defaultReqs in
  let dl := ResourceConfig.Limits defaultReqs in
  (* Defaults *)
  (requests <- setParsed (ResourceRequests.CPU dr) ResourceCPU ∅ ;;
   requests <- setParsed (ResourceRequests.Memory dr) ResourceMemory requests ;;
   limits <- setParsed (ResourceLimits.CPU dl) ResourceCPU ∅ ;;
   limits <- setParsed (ResourceLimits.Memory dl) ResourceMemory limits ;;
   limits <- setParsed (ResourceLimits.EphemeralStorage dl)
               ResourceEphemeralStorage limits ;;
   (* Override from params *)
   rl <-
     match Params.getMap params "resources" with
     | Some res =>
         requests <-
           match Params.getMap (Some res) "requests" with
           | Some reqs =>
               requests <- setParsed (Params.getString (Some reqs) "cpu" "")
                             ResourceCPU requests ;;
               setParsed (Params.getString (Some reqs) "memory" "")
                         ResourceMemory requests
           | None => Ok requests
           end ;;
         limits <-
           match Params.getMap (Some res) "limits" with
           | Some lims =>
               limits <- setParsed (Params.getString (Some lims) "cpu" "")
                           ResourceCPU limits ;;
               limits <- setParsed (Params.getString (Some lims) "memory" "")
                           ResourceMemory limits ;;
               setParsed (Params.getString (Some lims) "ephemeral_storage" "")
                         ResourceEphemeralStorage limits
           | None => Ok limits
           end ;;
         Ok (requests, limits)
     | None => Ok (requests, limits)
     end ;;
   (* Cap at max *)
   limits <- capAt (ResourceLimits.CPU defaultLimits) ResourceCPU (snd rl) ;;
   limits <- capAt (ResourceLimits.Memory defaultLimits) ResourceMemory limits ;;
   Ok (mkResourceRequirements (fst rl) limits))%result.

Definition sanitizeLabel (s : string) : string :=
  let s := Strings.ReplaceAll s "/" "-" in
  let s := Strings.ReplaceAll s "." "-" in
  if (63 <? String.length s)%nat then Strings.take 63 s else s.

(** The string values of a struct's fields: the loops
    [for k, v := range m.Fields { out[k] = v.GetStringValue() }]. *)
Definition stringFields (m : option Struct) : gmap string string :=
  match m with
  | Some fields => GetStringValue <$> fields
  | None => ∅
  end.

Definition keyToPaths (s : Struct) : list KeyToPath :=
  match Params.getList (Some s) "items" with
  | Some items =>
      omap (fun it =>
              match GetStructValue it with
              | Some is_ =>
                  Some (mkKeyToPath (Params.getString (Some is_) "key" "")
                                    (Params.getString (Some is_) "path" "")
                                    None)
              | None => None
              end) items
  | None => []
  end.

Definition BuildContext
           (params : option Struct) (execCtx : option ExecutionContextPb)
           (scriptContent : string) (source : option Script.Source)
           (scriptHash image imagePullPolicy imagePullSecret : string)
           (cfg : Config.t) : result Context :=
  let se := Config.ScriptExecutor cfg in
  let k8s := ScriptExecutorConfig.Kubernetes se in
  let policy := parsePullPolicy (Params.getString params "image_pull_policy" "") in
  let policy :=
    if Strings.is_empty policy
    then ImageConfig.DefaultImagePullPolicy (ScriptExecutorConfig.Image se)
    else policy in
  (* Timeout *)
  let timeoutStr :=
    Params.getString params "timeout"
      (SecurityConfig.DefaultTimeout (ScriptExecutorConfig.Security se)) in
  match parseDuration timeoutStr with
  | Err e => Err ("invalid timeout " ++ quote timeoutStr ++ ": " ++ e)
  | Panic e => Panic e
  | Ok dur =>
      let timeout := if dur =? 0 then Config.DefaultTimeout cfg else dur in
      let envFromSecret :=
        match Params.getMap params "env_from_secret" with
        | Some envSec =>
            omap (fun v =>
                    match GetStructValue v with
                    | Some s =>
                        Some (mkSecretKeyRef
                                (Params.getString (Some s) "secret_name" "")
                                (Params.getString (Some s) "key" "")
                                (Params.getBool (Some s) "optional"))
                    | None => None
                    end) envSec
        | None => ∅
        end in
      let envFromConfigMap :=
        match Params.getMap params "env_from_configmap" with
        | Some envCM =>
            omap (fun v =>
                    match GetStructValue v with
                    | Some s =>
                        Some (mkConfigMapKeyRef
                                (Params.getString (Some s) "configmap_name" "")
                                (Params.getString (Some s) "key" "")
                                (Params.getBool (Some s) "optional"))
                    | None => None
                    end) envCM
        | None => ∅
        end in
      let volumesFromSecret :=
        match Params.getList params "volumes_from_secret" with
        | Some volList =>
            omap (fun v =>
                    match GetStructValue v with
                    | Some s =>
                        Some (mkSecretVolume
                                (Params.getString (Some s) "secret_name" "")
                                (Params.getString (Some s) "mount_path" "")
                                (Params.getBool (Some s) "optional")
                                (keyToPaths s))
                    | None => None
                    end) volList
        | None => []
        end in
      let volumesFromConfigMap :=
        match Params.getList params "volumes_from_configmap" with
        | Some volList =>
            omap (fun v =>
                    match GetStructValue v with
                    | Some s =>
                        Some (mkConfigMapVolume
                                (Params.getString (Some s) "configmap_name" "")
                                (Params.getString (Some s) "mount_path" "")
                                (Params.getBool (Some s) "optional")
                                (keyToPaths s))
                    | None => None
                    end) volList
        | None => []
        end in
      (* Resources *)
      match buildResources params cfg with
      | Err e => Err e
      | Panic e => Panic e
      | Ok resources =>
          (* TTL, backoff *)
          let ttl := Params.getInt params "ttl_seconds_after_finished" in
          let ttlSeconds :=
            if 0 <? ttl then int32 ttl
            else int32 (JobDefaultsConfig.TTLSecondsAfterFinished
                          (KubernetesConfig.JobDefaults k8s)) in
          let bl := Params.getInt params "backoff_limit" in
          let backoff :=
            if 0 <=? bl then (if 3 <? int32 bl then 3 else int32 bl)
            else int32 (JobDefaultsConfig.BackoffLimit
                          (KubernetesConfig.JobDefaults k8s)) in
          Ok (mkContext
                (match execCtx with Some e => ExecutionId e | None => "" end)
                (match execCtx with Some e => RunbookId e | None => "" end)
                (match execCtx with Some e => PbUser e | None => "" end)
                ""
                scriptContent source scriptHash
                image policy imagePullSecret
                (Params.getString params "interpreter" "/bin/bash")
                (default [] (Params.getStringSlice params "args"))
                (Params.getString params "working_dir" "/workspace")
                timeout
                (Params.getString params "stdin" "")
                (stringFields (Params.getMap params "env"))
                envFromSecret envFromConfigMap
                (default [] (Params.getStringSlice params "secret_env_all"))
                (default [] (Params.getStringSlice params "configmap_env_all"))
                volumesFromSecret volumesFromConfigMap
                (stringFields (Params.getMap params "node_selector"))
                [] None
                (Params.getString params "priority_class_name" "")
                resources
                (KubernetesConfig.ServiceAccount k8s)
                ttlSeconds backoff
                (stringFields (Params.getMap params "labels"))
                (stringFields (Params.getMap params "annotations")))
      end
  end.

End Execution.

(** ** The workload manifest: the fields of [batchv1.Job] the builder fills *)

Module Manifest.

Import Corev1.

Record SecurityContext := mkSecurityContext {
  AllowPrivilegeEscalation : option bool;
  ReadOnlyRootFilesystem : option bool;
  RunAsNonRoot : option bool;
  RunAsUser : option Z;
  CapabilitiesDrop : list string
}.

Record PodSecurityContext := mkPodSecurityContext {
  PodRunAsNonRoot : option bool;
  PodRunAsUser : option Z;
  FSGroup : option Z;
  SeccompProfileType : string
}.

Inductive EnvVarSource :=
| FromSecretKey (name key : string) (optional : option bool)
| FromConfigMapKey (name key : string) (optional : option bool).

Record EnvVar := mkEnvVar {
  EnvName : string;
  EnvValue : string;
  ValueFrom : option EnvVarSource
}.

Inductive EnvFromSource :=
| SecretRef (name : string)
| ConfigMapRef (name : string).

Record KeyToPath := mkKeyToPath {
  Key : string;
  Path : string;
  Mode : option Z
}.

Inductive VolumeSource :=
| EmptyDir (sizeLimit : Resource.Quantity)
| ConfigMapVolumeSource (name : string) (optional : option bool)
                        (items : list KeyToPath)
| SecretVolumeSource (secretName : string) (optional : option bool)
                     (items : list KeyToPath).

Record Volume := mkVolume {
  VolumeName : string;
  Source : VolumeSource
}.

Record VolumeMount := mkVolumeMount {
  MountName : string;
  MountPath : string;
  ReadOnly : bool
}.

Record Container := mkContainer {
  ContainerName : string;
  ContainerImage : string;
  ImagePullPolicy : string;
  WorkingDir : string;
  Env : list EnvVar;
  EnvFrom : list EnvFromSource;
  ContainerSecurityContext : option SecurityContext;
  Resources : ResourceRequirements;
  VolumeMounts : list VolumeMount;
  Stdin : bool;
  StdinOnce : bool;
  Command : list string;
  Args : list string
}.

Record PodSpec := mkPodSpec {
  RestartPolicy : string;
  ServiceAccountName : string;
  PodSecurity : option PodSecurityContext;
  NodeSelector : gmap string string;
  Tolerations : list Toleration;
  Affinity_ : option Affinity;
  PriorityClassName : string;
  Containers : list Container;
  Volumes : list Volume;
  ImagePullSecrets : list string
}.

Record PodTemplateSpec := mkPodTemplateSpec {
  TemplateLabels : gmap string string;
  TemplateAnnotations : gmap string string;
  TemplateSpec : PodSpec
}.

Record JobSpec := mkJobSpec {
  BackoffLimit : option Z;
  TTLSecondsAfterFinished : option Z;
  ActiveDeadlineSeconds : option Z;
  Template : PodTemplateSpec
}.

Record Job := mkJob {
  Name : string;
  Namespace : string;
  Labels : gmap string string;
  Annotations : gmap string string;
  Spec : JobSpec
}.

End Manifest.

(** ** [JobBuilder] *)

Module JobBuilder.

Import Corev1 Manifest.

Record t := mk { config : Config.t }.

Definition NewJobBuilder (cfg : Config.t) : t := mk cfg.

Definition security (b : t) : SecurityConfig.t :=
  ScriptExecutorConfig.Security (Config.ScriptExecutor (config b)).

Definition isPath (ctx : Execution.Context) : bool :=
  match Execution.ScriptSource ctx with
  | Some src => bool_decide (Script.Type_ src = Script.SourcePath)
  | None => false
  end.

Definition buildEnvVars (ro : RangeOrder) (ctx : Execution.Context)
  : list EnvVar :=
  map (fun kv => mkEnvVar (fst kv) (snd kv) None)
      (range ro (Execution.Env ctx))
  ++ omap (fun kv =>
             let ref := snd kv in
             if Strings.is_empty (Execution.SecretName ref)
                || Strings.is_empty (Execution.SecretKey ref)
             then None
             else Some (mkEnvVar (fst kv) ""
                          (Some (FromSecretKey (Execution.SecretName ref)
                                   (Execution.SecretKey ref)
                                   (Some (Execution.SecretOptional ref))))))
          (range ro (Execution.EnvFromSecret ctx))
  ++ omap (fun kv =>
             let ref := snd kv in
             if Strings.is_empty (Execution.ConfigMapName ref)
                || Strings.is_empty (Execution.ConfigMapKey ref)
             then None
             else Some (mkEnvVar (fst kv) ""
                          (Some (FromConfigMapKey (Execution.ConfigMapName ref)
                                   (Execution.ConfigMapKey ref)
                                   (Some (Execution.ConfigMapOptional ref))))))
          (range ro (Execution.EnvFromConfigMap ctx)).

Definition buildEnvFrom (ctx : Execution.Context) : list EnvFromSource :=
  map SecretRef
      (filter (fun name => name ≠ "") (Execution.SecretEnvAll ctx))
  ++ map ConfigMapRef
      (filter (fun name => name ≠ "") (Execution.ConfigMapEnvAll ctx)).

Definition items (l : list Execution.KeyToPath) : list KeyToPath :=
  map (fun it => mkKeyToPath (Execution.Key it) (Execution.Path it)
                             (Execution.Mode it)) l.

(** [fmt.Sprintf("%s-%d", prefix, i)] along a list. *)
Definition indexed {A B : Type} (f : nat -> A -> B) (l : list A) : list B :=
  imap f l.

Definition volumeName (prefix : string) (i : nat) : string :=
  prefix ++ "-" ++ Strings.itoa (Z.of_nat i).

(** The size limit of the workspace: the ephemeral-storage limit, or
    what ["1Gi"] parses to.  The code prints the limit with [String] and
    parses the text again, which gives the limit back. *)
Definition ephemeralLimit (ctx : Execution.Context) : Resource.Quantity :=
  match Limits (Execution.Resources ctx) !! ResourceEphemeralStorage with
  | Some q => q
  | None => default 0 (Resource.MustParse "1Gi")
  end.

Definition buildVolumes (ctx : Execution.Context) : list Volume :=
  [ mkVolume "workspace" (EmptyDir (ephemeralLimit ctx));
    mkVolume "tmp" (EmptyDir (default 0 (Resource.MustParse "100Mi"))) ]
  ++ (if isPath ctx
      then [mkVolume "scripts"
              (ConfigMapVolumeSource Script.ApprovedScriptsConfigMap None [])]
      else [])
  ++ indexed (fun i v =>
                mkVolume (volumeName "secret" i)
                  (SecretVolumeSource (Execution.SVSecretName v)
                     (Some (Execution.SVOptional v))
                     (items (Execution.SVItems v))))
             (Execution.VolumesFromSecret ctx)
  ++ indexed (fun i v =>
                mkVolume (volumeName "configmap" i)
                  (ConfigMapVolumeSource (Execution.CVConfigMapName v)
                     (Some (Execution.CVOptional v))
                     (items (Execution.CVItems v))))
             (Execution.VolumesFromConfigMap ctx).

Definition buildVolumeMounts (ctx : Execution.Context) : list VolumeMount :=
  [ mkVolumeMount "workspace" "/workspace" false;
    mkVolumeMount "tmp" "/tmp" false ]
  ++ (if isPath ctx then [mkVolumeMount "scripts" "/scripts" true] else [])
  ++ indexed (fun i v =>
                mkVolumeMount (volumeName "secret" i) (Execution.SVMountPath v) true)
             (Execution.VolumesFromSecret ctx)
  ++ indexed (fun i v =>
                mkVolumeMount (volumeName "configmap" i)
                              (Execution.CVMountPath v) true)
             (Execution.VolumesFromConfigMap ctx).

Definition buildContainer (b : t) (ro : RangeOrder) (ctx : Execution.Context)
  : Container :=
  let secCfg := security b in
  mkContainer
    "script"
    (Execution.Image ctx)
    (Execution.ImagePullPolicy ctx)
    (Execution.WorkingDir ctx)
    (buildEnvVars ro ctx)
    (buildEnvFrom ctx)
    (Some (mkSecurityContext
             (Some false)
             (Some (SecurityConfig.ReadOnlyRootFilesystem secCfg))
             (Some (SecurityConfig.RunAsNonRoot secCfg))
             (Some (SecurityConfig.RunAsUser secCfg))
             ["ALL"]))
    (Execution.Resources ctx)
    (buildVolumeMounts ctx)
    (negb (Strings.is_empty (Execution.Stdin ctx)))
    (negb (Strings.is_empty (Execution.Stdin ctx)))
    (match Execution.ScriptSource ctx with
     | Some src =>
         if bool_decide (Script.Type_ src = Script.SourcePath)
         then [Execution.Interpreter ctx; Script.Path src]
         else [Execution.Interpreter ctx; "-c"; Execution.Script ctx]
     | None => [Execution.Interpreter ctx; "-c"; Execution.Script ctx]
     end)
    (Execution.Args ctx).

(** [for k, v := range extra { base[k] = v }]. *)
Definition mergeOver (extra base : gmap string string) : gmap string string :=
  extra ∪ base.

(** [JobBuilder.Build].  [unixNow] is the reading [metav1.Now().Unix()]
    of the clock, which the builder takes only when the execution id is
    empty; [ro] is the order in which the environment maps happen to be
    ranged over.  The error the Go function can return is always nil. *)
Definition Build (b : t) (unixNow : Z) (ro : RangeOrder)
           (ctx : Execution.Context) : Job :=
  let jobName := "script-exec-" ++ Execution.ExecutionID ctx in
  let jobName :=
    if Strings.eqb jobName "script-exec-"
    then "script-exec-" ++ Strings.itoa unixNow else jobName in
  let secCfg := security b in
  let k8sCfg := ScriptExecutorConfig.Kubernetes (Config.ScriptExecutor (config b)) in
  mkJob
    jobName
    (KubernetesConfig.Namespace k8sCfg)
    (mergeOver (Execution.Labels ctx)
       (<["executor" := "script"]>
          (<["execution-id" := Execution.ExecutionID ctx]>
             (<["runbook-id" := Execution.RunbookID ctx]>
                (<["user" := Execution.sanitizeLabel (Execution.User ctx)]>
                   (<["managed-by" := "opscontrolroom"]> ∅))))))
    (mergeOver (Execution.Annotations ctx)
       (<["script-hash" := Execution.ScriptHash ctx]>
          (<["execution-id" := Execution.ExecutionID ctx]>
             (<["runbook-id" := Execution.RunbookID ctx]>
                (<["user" := Execution.User ctx]>
                   (<["image" := Execution.Image ctx]>
                      (<["created-by" := "script-executor"]> ∅)))))))
    (mkJobSpec
       (Some (Execution.BackoffLimit ctx))
       (Some (Execution.TTLSecondsAfterFinished ctx))
       (Some (Time.Seconds (Execution.Timeout ctx)))
       (mkPodTemplateSpec
          (<["executor" := "script"]>
             (<["execution-id" := Execution.ExecutionID ctx]> ∅))
          (Execution.Annotations ctx)
          (mkPodSpec
             "Never"
             (Execution.ServiceAccount ctx)
             (Some (mkPodSecurityContext
                      (Some (SecurityConfig.RunAsNonRoot secCfg))
                      (Some (SecurityConfig.RunAsUser secCfg))
                      (Some (SecurityConfig.FSGroup secCfg))
                      "RuntimeDefault"))
             (Execution.NodeSelector ctx)
             (Execution.Tolerations ctx)
             (Execution.Affinity_ ctx)
             (Execution.PriorityClassName ctx)
             [buildContainer b ro ctx]
             (buildVolumes ctx)
             (if Strings.is_empty (Execution.ImagePullSecret ctx) then []
              else [Execution.ImagePullSecret ctx])))).

End JobBuilder.

(** ** The manager: [Execute] *)

Module Manager.

Import Execution.

(** [Monitor]'s [Result]. *)
Record Result := mkResult {
  ExitCode : Z;
  Stdout : string;
  Stderr : string;
  Duration : Time.Duration;
  JobName : string;
  PodName : string;
  Succeeded : bool
}.

Inductive ResponseStatus := STATUS_SUCCEEDED | STATUS_FAILED | STATUS_PENDING.

Record ExecuteRequest := mkExecuteRequest {
  StepType : string;
  Parameters : option Struct;
  ReqContext : option ExecutionContextPb;
  ReqTimeout : option Time.Duration
}.

Record ExecuteResponse := mkExecuteResponse {
  Status : ResponseStatus;
  Output : option Struct;
  Error : string;
  ResponseDuration : Time.Duration
}.

(** One line of the audit log. *)
Record AuditRecord := mkAuditRecord {
  AuditExecutionID : string;
  AuditUser : string;
  AuditRunbookID : string;
  AuditScriptHash : string;
  AuditSource : string;
  AuditRef : string;
  AuditSucceeded : bool;
  AuditDuration : Time.Duration;
  AuditExitCode : Z
}.

(** The calls [Execute] makes on the approval store, the cluster's job
    API, the monitor and the audit log, in the order it makes them. *)
Inductive Call :=
| ApprovalGet (executionID stepName : string)
| ApprovalCreate (executionID stepName : string)
| JobCreate (name : string)
| MonitorWait (name : string)
| AuditWrite (executionID : string).

(** What is outside the service and changes under it: the objects of
    the cluster, the approval store's ConfigMap, the jobs of the
    executor's namespace, the audit log, and the calls made so far. *)
Record World := mkWorld {
  objects : K8s.Objects;
  approvals : Approval.ConfigMapData;
  jobs : gmap string Manifest.Job;
  audit : list AuditRecord;
  calls : list Call
}.

(** What the service cannot decide: the YAML library, the order of map
    iteration, the clock, and how the workload ends ([Monitor.Wait]
    watches the cluster until the job is over or the deadline passes). *)
Record Platform := mkPlatform {
  unmarshalRegistry : string -> option Script.RegistryData;
  unmarshalCatalog : string -> option (gmap string Image.CatalogEntry);
  order : RangeOrder;
  unixNano : Z;
  elapsed : Time.Duration;
  wait : Manifest.Job -> Time.Duration -> result Result
}.

Record t := mk {
  config : Config.t;
  loaderNamespace : string;
  resolver : Image.Resolver;
  validator : Image.Validator;
  scriptVal : Security.ScriptValidator;
  approval : option Approval.Checker;
  jobBuilder : JobBuilder.t;
  auditLog : bool
}.

(** [NewManagerWithClient]; [auditOpened] tells whether the audit log
    file could be opened. *)
Definition NewManagerWithClient (cfg : Config.t) (auditOpened : bool) : t :=
  let se := Config.ScriptExecutor cfg in
  let namespace := KubernetesConfig.Namespace (ScriptExecutorConfig.Kubernetes se) in
  let img := ScriptExecutorConfig.Image se in
  let sec := ScriptExecutorConfig.Security se in
  mk cfg
     namespace
     (Image.NewResolver
        (Image.mkCatalog namespace
           (ImageCatalogConfig.ConfigMapName (ImageConfig.Catalog img)))
        (Image.mkResolverDefaults
           (ImageConfig.DefaultImage img)
           (ImageConfig.DefaultImagePullSecret img)
           (ImageConfig.DefaultImagePullPolicy img)))
     (Image.NewValidator (ImageConfig.ApprovedImages img)
                         (ImageConfig.BlockedImages img))
     (Security.NewScriptValidator (SecurityConfig.BlockedCommands sec) []
        (SecurityConfig.MaxScriptSize sec) (SecurityConfig.MaxScriptLines sec))
     (if ApprovalConfig.Enabled (ScriptExecutorConfig.Approval se)
      then Some (Approval.NewChecker
                   (ApprovalConfig.DefaultApprovers
                      (ScriptExecutorConfig.Approval se)))
      else None)
     (JobBuilder.NewJobBuilder cfg)
     (AuditConfig.Enabled (ScriptExecutorConfig.Audit se) && auditOpened).

(** [NewManager]: as above, after an empty namespace has been replaced
    by ["default"].  Building the cluster client is not modelled; when
    it fails the process ends before any request is served. *)
Definition NewManager (cfg : Config.t) (auditOpened : bool) : t :=
  let se := Config.ScriptExecutor cfg in
  let k := ScriptExecutorConfig.Kubernetes se in
  let cfg :=
    if Strings.is_empty (KubernetesConfig.Namespace k) then
      Config.mk
        (ScriptExecutorConfig.mk
           (ScriptExecutorConfig.GRPC se)
           (KubernetesConfig.mk "default"
              (KubernetesConfig.ServiceAccount k)
              (KubernetesConfig.JobDefaults k)
              (KubernetesConfig.DefaultResources k)
              (KubernetesConfig.MaxResources k))
           (ScriptExecutorConfig.Image se)
           (ScriptExecutorConfig.Security se)
           (ScriptExecutorConfig.Approval se)
           (ScriptExecutorConfig.Audit se)
           (ScriptExecutorConfig.Monitoring se))
    else cfg in
  NewManagerWithClient cfg auditOpened.

(** The approval store of a manager: the ConfigMap the configuration
    names. *)
Definition store (m : t) : Approval.Store Approval.ConfigMapData :=
  Approval.ConfigMapStore
    (ApprovalStorageConfig.ConfigMapName
       (ApprovalConfig.Storage
          (ScriptExecutorConfig.Approval (Config.ScriptExecutor (config m))))).

Definition called (c : Call) (w : World) : World :=
  mkWorld (objects w) (approvals w) (jobs w) (audit w) (calls w ++ [c]).

Definition withApprovals (a : Approval.ConfigMapData) (w : World) : World :=
  mkWorld (objects w) a (jobs w) (audit w) (calls w).

(** [Jobs(namespace).Create]. *)
Definition createJob (job : Manifest.Job) (w : World)
  : result Manifest.Job * World :=
  let w := called (JobCreate (Manifest.Name job)) w in
  match jobs w !! Manifest.Name job with
  | Some _ =>
      (Err ("jobs.batch " ++ quote (Manifest.Name job) ++ " already exists"), w)
  | None =>
      (Ok job,
       mkWorld (objects w) (approvals w) (<[Manifest.Name job := job]> (jobs w))
               (audit w) (calls w))
  end.

(** [Logger.LogExecution]. *)
Definition LogExecution (executionID user runbookID scriptHash : string)
           (source : Script.Source) (succeeded : bool)
           (duration : Time.Duration) (exitCode : Z) (w : World) : World :=
  let w := called (AuditWrite executionID) w in
  mkWorld (objects w) (approvals w) (jobs w)
          (audit w ++
             [mkAuditRecord executionID user runbookID scriptHash
                (Script.SourceType_string (Script.Type_ source))
                (if Strings.is_empty (Script.Name source) then ""
                 else Script.Name source ++ "/" ++ Script.Key source)
                succeeded duration exitCode])
          (calls w).

(** [buildOutput]; the strings are taken to be valid UTF-8, so that
    [structpb.NewStruct] accepts them. *)
Definition buildOutput (ctx : Context) (result : Result) : Struct :=
  <["exit_code" := VNumber (inject_Z (ExitCode result))]>
    (<["stdout" := VString (Stdout result)]>
       (<["stderr" := VString (Stderr result)]>
          (<["duration_seconds" := VNumber (Qmake (Duration result) 1000000000)]>
             (<["script_hash" := VString (ScriptHash ctx)]>
                (<["job_name" := VString (JobName result)]>
                   (<["pod_name" := VString (PodName result)]> ∅)))))).

Definition errorResponse (p : Platform) (err : string) : ExecuteResponse :=
  mkExecuteResponse STATUS_FAILED None err (elapsed p).

(** Step 3 of [Execute]: the script hash. *)
Definition scriptHashOf (scriptContent : string) : string :=
  if negb (Strings.is_empty scriptContent)
  then Sha256.EncodeToString (Sha256.Sum256 scriptContent)
  else "".

(** [execContext.ExecutionID = executionID] and the two assignments
    that follow it. *)
Definition withIdentity (executionID runbookID user : string) (c : Context)
  : Context :=
  mkContext executionID runbookID user (StepName c)
    (Script c) (ScriptSource c) (ScriptHash c)
    (Execution.Image c) (ImagePullPolicy c) (ImagePullSecret c)
    (Interpreter c) (Args c) (WorkingDir c) (Timeout c) (Stdin c)
    (Env c) (EnvFromSecret c) (EnvFromConfigMap c)
    (SecretEnvAll c) (ConfigMapEnvAll c)
    (VolumesFromSecret c) (VolumesFromConfigMap c)
    (NodeSelector c) (Tolerations c) (Affinity_ c) (PriorityClassName c)
    (Resources c) (ServiceAccount c)
    (TTLSecondsAfterFinished c) (BackoffLimit c)
    (Labels c) (Annotations c).

(** Steps 1 to 5 of [Execute]: load and validate the script, hash it,
    resolve and validate the image.  An error is the text of the failed
    response. *)
Definition prepare (m : t) (p : Platform) (w : World) (params : option Struct)
  : result (string * Script.Source * string * Image.ResolvedImage) :=
  ((* 1. Load script *)
   loaded <- Script.LoadScript (unmarshalRegistry p) (objects w)
               (loaderNamespace m) params ;;
   let scriptContent := fst loaded in
   let source := snd loaded in
   (* 2. Validate script *)
   _ <- wrap "script validation"
          (if negb (bool_decide (Script.Type_ source = Script.SourcePath))
              && negb (Strings.is_empty scriptContent)
           then Security.Validate (scriptVal m) (order p) scriptContent
           else Ok tt) ;;
   (* 3. Script hash *)
   let scriptHash := scriptHashOf scriptContent in
   (* 4. Resolve image *)
   resolved <- wrap "resolve image"
                 (Image.Resolve (unmarshalCatalog p) (resolver m) (objects w)
                    (Params.getString params "image" "")
                    (Params.getString params "image_ref" "")
                    (Params.getString params "image_pull_policy" "")
                    (Params.getString params "image_pull_secret" "")) ;;
   (* 5. Validate image *)
   _ <- wrap "image validation"
          (Image.Validate (validator m) (Image.Image resolved)) ;;
   Ok (scriptContent, source, scriptHash, resolved))%result.

(** Steps 7 to 11 of [Execute]: build the context and the job, create
    the job, wait, audit, answer. *)
Definition run (m : t) (p : Platform) (w : World) (req : ExecuteRequest)
           (params : option Struct) (execCtx : ExecutionContextPb)
           (executionID user runbookID scriptContent : string)
           (source : Script.Source) (scriptHash : string)
           (resolved : Image.ResolvedImage)
  : result ExecuteResponse * World :=
  match BuildContext params (Some execCtx) scriptContent (Some source) scriptHash
          (Image.Image resolved) (Image.PullPolicy resolved)
          (Image.PullSecret resolved) (config m) with
  | Panic e => (Panic e, w)
  | Err e => (Ok (errorResponse p e), w)
  | Ok c =>
      let execContext := withIdentity executionID runbookID user c in
      let job :=
        JobBuilder.Build (jobBuilder m) (unixNano p / 1000000000) (order p)
                         execContext in
      match createJob job w with
      | (Err e, w) => (Ok (errorResponse p ("create job: " ++ e)), w)
      | (Panic e, w) => (Panic e, w)
      | (Ok created, w) =>
          let timeout :=
            match ReqTimeout req with
            | Some d => if 0 <? d then d else Timeout execContext
            | None => Timeout execContext
            end in
          let w := called (MonitorWait (Manifest.Name created)) w in
          match wait p created (timeout + 30 * Time.Second) with
          | Err e => (Ok (errorResponse p ("wait for job: " ++ e)), w)
          | Panic e => (Panic e, w)
          | Ok result =>
              let w :=
                if auditLog m
                then LogExecution executionID user runbookID scriptHash source
                       (Succeeded result) (Duration result) (ExitCode result) w
                else w in
              let output := buildOutput execContext result in
              (Ok (if Succeeded result
                   then mkExecuteResponse STATUS_SUCCEEDED (Some output) ""
                          (Duration result)
                   else mkExecuteResponse STATUS_FAILED (Some output)
                          ("exit code " ++ Strings.itoa (ExitCode result))
                          (Duration result)),
               w)
          end
      end
  end.

(** Step 6 of [Execute]: the approval gate.  [None] lets the request
    through; [Some] is the response that ends it. *)
Definition gate (m : t) (p : Platform) (w : World) (params : option Struct)
           (executionID user runbookID scriptContent scriptHash : string)
  : option (result ExecuteResponse) * World :=
  let approvalRequired := Params.getBool params "approval_required" in
  match approval m with
  | Some checker =>
      if approvalRequired then
        let approvers :=
          match default [] (Params.getStringSlice params "approvers") with
          | [] => ApprovalConfig.DefaultApprovers
                    (ScriptExecutorConfig.Approval (Config.ScriptExecutor (config m)))
          | l => l
          end in
        let stepName := Params.getString params "step_name" "default" in
        let w := called (ApprovalGet executionID stepName) w in
        match @Approval.Check _ (store m) checker (unixNano p) executionID stepName
                scriptContent scriptHash approvers user (approvals w) with
        | (Err e, a) => (Some (Ok (errorResponse p e)), withApprovals a w)
        | (Panic e, a) => (Some (Panic e), withApprovals a w)
        | (Ok status, a) =>
            let w := withApprovals a w in
            if Strings.eqb status Approval.StatusPending then
              let w := called (ApprovalCreate executionID stepName) w in
              match @Approval.CreateRequest _ (store m) checker (unixNano p)
                      executionID stepName runbookID user scriptContent
                      scriptHash approvers (approvals w) with
              | (Err e, a) => (Some (Ok (errorResponse p e)), withApprovals a w)
              | (Panic e, a) => (Some (Panic e), withApprovals a w)
              | (Ok _, a) =>
                  (Some (Ok (mkExecuteResponse STATUS_PENDING None
                               "Awaiting approval" (elapsed p))),
                   withApprovals a w)
              end
            else if Strings.eqb status Approval.StatusDenied then
              (Some (Ok (errorResponse p "execution was denied")), w)
            else (None, w)
        end
      else (None, w)
  | None => (None, w)
  end.

(** The execution id [Execute] works with: the inbound one, or one made
    from the clock. *)
Definition executionIDOf (p : Platform) (execCtx : ExecutionContextPb) : string :=
  if Strings.is_empty (ExecutionId execCtx)
  then "exec-" ++ Strings.itoa (unixNano p) else ExecutionId execCtx.

(** [Manager.Execute]. *)
Definition Execute (m : t) (p : Platform) (w : World) (req : ExecuteRequest)
  : result ExecuteResponse * World :=
  let params := Some (default ∅ (Parameters req)) in
  let execCtx := default (mkExecutionContextPb "" "" "" "") (ReqContext req) in
  let executionID := executionIDOf p execCtx in
  let user := PbUser execCtx in
  let runbookID := RunbookId execCtx in
  match prepare m p w params with
  | Err e => (Ok (errorResponse p e), w)
  | Panic e => (Panic e, w)
  | Ok (scriptContent, source, scriptHash, resolved) =>
      (* 6. Check approval *)
      match gate m p w params executionID user runbookID
              scriptContent scriptHash with
      | (Some response, w) => (response, w)
      | (None, w) =>
          run m p w req params execCtx executionID user runbookID
              scriptContent source scriptHash resolved
      end
  end.

End Manager.

(** ** The monitor's reading of a finished job

    [isJobComplete], [isJobFailed] and [collectResult] of the monitor.
    What [collectResult] asks the cluster for is given to it: the outcome
    of listing the job's pods, the reading of the clock, and the outcome of
    streaming the log of a pod ([None] when the stream cannot be opened). *)

Module Monitor.

Record JobCondition := mkJobCondition {
  ConditionType : string;
  ConditionStatus : string
}.

(** [batchv1.JobStatus]. *)
Record JobStatus := mkJobStatus {
  Conditions : list JobCondition;
  StatusSucceeded : Z;
  StatusFailed : Z
}.

Record Terminated := mkTerminated {
  ExitCode : Z;
  FinishedAt : Z
}.

Record ContainerStatus := mkContainerStatus {
  StateTerminated : option Terminated
}.

Record Pod := mkPod {
  PodName : string;
  StartTime : option Z;
  ContainerStatuses : list ContainerStatus
}.

Definition hasCondition (type : string) (st : JobStatus) : bool :=
  existsb (fun c => Strings.eqb (ConditionType c) type
                    && Strings.eqb (ConditionStatus c) "True")
          (Conditions st).

Definition isJobComplete (st : JobStatus) : bool :=
  hasCondition "Complete" st || (0 <? StatusSucceeded st).

Definition isJobFailed (st : JobStatus) : bool :=
  hasCondition "Failed" st || (0 <? StatusFailed st).

(** The loop [for _, cs := range ... { if ... FinishedAt.After(endTime)
    { endTime = FinishedAt } }]. *)
Definition endTime (now : Z) (statuses : list ContainerStatus) : Z :=
  fold_left
    (fun endTime cs =>
       match StateTerminated cs with
       | Some t => if endTime <? FinishedAt t then FinishedAt t else endTime
       | None => endTime
       end)
    statuses now.

(** The exit code of the first container that has terminated. *)
Fixpoint firstExitCode (statuses : list ContainerStatus) : Z :=
  match statuses with
  | [] => 0
  | cs :: rest =>
      match StateTerminated cs with
      | Some t => ExitCode t
      | None => firstExitCode rest
      end
  end.

Definition collectResult (jobName : string) (st : JobStatus)
           (pods : result (list Pod)) (now : Z)
           (logs : string -> option string) : Manager.Result :=
  let succeeded := 0 <? StatusSucceeded st in
  match pods with
  | Ok (pod :: _) =>
      Manager.mkResult
        (firstExitCode (ContainerStatuses pod))
        (match logs (PodName pod) with
         | Some buf => buf
         | None => ""
         end)
        ""
        (match StartTime pod with
         | Some start => endTime now (ContainerStatuses pod) - start
         | None => 0
         end)
        jobName (PodName pod) succeeded
  | _ => Manager.mkResult 0 "" "" 0 jobName "" succeeded
  end.

End Monitor.

(** ** The HTTP surface for approvers

    [ApprovalHandler.Approve] and [ApprovalHandler.Deny].  A request is
    the two path values, the [X-User] header (empty when absent) and, for
    a denial, the reason decoded from the body; the answer is the status
    code and the body written, or the panic of the store. *)

Module Api.

Record Response := mkResponse {
  Code : Z;
  Body : string
}.

Definition StatusOK : Z := 200.
Definition StatusBadRequest : Z := 400.
Definition StatusServiceUnavailable : Z := 503.

(** [http.Error]: the message and a line feed. *)
Definition httpError (msg : string) (code : Z) : Response :=
  mkResponse code (msg ++ String (ascii_of_nat 10) EmptyString).

(** [json.NewEncoder(w).Encode(map[string]string{"status": s})]. *)
Definition statusBody (s : string) : string :=
  "{" ++ quote "status" ++ ":" ++ quote s ++ "}" ++ String (ascii_of_nat 10) EmptyString.

Definition userOf (header : string) : string :=
  if Strings.is_empty header then "anonymous" else header.

Section WithStore.

Context {S : Type} `{Approval.Store S}.

Definition Approve (checker : option Approval.Checker) (now : Approval.Time)
           (executionID stepName xUser : string) (s : S)
  : result Response * S :=
  match checker with
  | None => (Ok (httpError "approval not enabled" StatusServiceUnavailable), s)
  | Some c =>
      if Strings.is_empty executionID || Strings.is_empty stepName then
        (Ok (httpError "missing execution_id or step_name" StatusBadRequest), s)
      else
        match Approval.Approve c now executionID stepName (userOf xUser) s with
        | (Ok _, s') => (Ok (mkResponse StatusOK (statusBody "approved")), s')
        | (Err e, s') => (Ok (httpError e StatusBadRequest), s')
        | (Panic e, s') => (Panic e, s')
        end
  end.

Definition Deny (checker : option Approval.Checker) (now : Approval.Time)
           (executionID stepName xUser reason : string) (s : S)
  : result Response * S :=
  match checker with
  | None => (Ok (httpError "approval not enabled" StatusServiceUnavailable), s)
  | Some c =>
      if Strings.is_empty executionID || Strings.is_empty stepName then
        (Ok (httpError "missing execution_id or step_name" StatusBadRequest), s)
      else
        match Approval.Deny c now executionID stepName (userOf xUser) reason s with
        | (Ok _, s') => (Ok (mkResponse StatusOK (statusBody "denied")), s')
        | (Err e, s') => (Ok (httpError e StatusBadRequest), s')
        | (Panic e, s') => (Panic e, s')
        end
  end.

End WithStore.

End Api.

(** ** Concrete configurations, requests and worlds

    The inputs at which the properties below are exercised. *)

Module Samples.

Import Execution.

Definition noEnv : Config.Env := fun _ => "".

(** The configuration [Load] returns with no file and an empty
    environment. *)
Definition shipped : Config.t := Config.Load noEnv None.

Definition withSecurity (sec : SecurityConfig.t) (cfg : Config.t) : Config.t :=
  let se := Config.ScriptExecutor cfg in
  Config.mk
    (ScriptExecutorConfig.mk
       (ScriptExecutorConfig.GRPC se) (ScriptExecutorConfig.Kubernetes se)
       (ScriptExecutorConfig.Image se) sec
       (ScriptExecutorConfig.Approval se) (ScriptExecutorConfig.Audit se)
       (ScriptExecutorConfig.Monitoring se)).

Definition withImage (img : ImageConfig.t) (cfg : Config.t) : Config.t :=
  let se := Config.ScriptExecutor cfg in
  Config.mk
    (ScriptExecutorConfig.mk
       (ScriptExecutorConfig.GRPC se) (ScriptExecutorConfig.Kubernetes se)
       img (ScriptExecutorConfig.Security se)
       (ScriptExecutorConfig.Approval se) (ScriptExecutorConfig.Audit se)
       (ScriptExecutorConfig.Monitoring se)).

Definition withApproval (a : ApprovalConfig.t) (cfg : Config.t) : Config.t :=
  let se := Config.ScriptExecutor cfg in
  Config.mk
    (ScriptExecutorConfig.mk
       (ScriptExecutorConfig.GRPC se) (ScriptExecutorConfig.Kubernetes se)
       (ScriptExecutorConfig.Image se) (ScriptExecutorConfig.Security se)
       a (ScriptExecutorConfig.Audit se)
       (ScriptExecutorConfig.Monitoring se)).

(** A configuration whose security section turns the root file system
    writable and lets the container run as root. *)
Definition permissive : Config.t :=
  let sec := ScriptExecutorConfig.Security (Config.ScriptExecutor shipped) in
  withSecurity
    (SecurityConfig.mk
       (SecurityConfig.RequiredPermission sec) (SecurityConfig.BlockedCommands sec)
       (SecurityConfig.MaxScriptSize sec) (SecurityConfig.MaxScriptLines sec)
       (SecurityConfig.DefaultTimeout sec) (SecurityConfig.MaxTimeout sec)
       false (SecurityConfig.RunAsUser sec) (SecurityConfig.FSGroup sec)
       false (SecurityConfig.AllowPrivilegeEscalation sec)
       (SecurityConfig.DropAllCapabilities sec))
    shipped.

(** A configuration whose default pull policy is [Always]. *)
Definition alwaysPull : Config.t :=
  let img := ScriptExecutorConfig.Image (Config.ScriptExecutor shipped) in
  withImage
    (ImageConfig.mk
       (ImageConfig.DefaultImage img) (ImageConfig.DefaultImagePullSecret img)
       "Always"
       (ImageConfig.ApprovedImages img) (ImageConfig.BlockedImages img)
       (ImageConfig.Catalog img) (ImageConfig.VerifyImageAccess img)
       (ImageConfig.ScanImagesOnApproval img))
    shipped.

(** The shipped configuration with the approval subsystem turned off. *)
Definition noApproval : Config.t :=
  let a := ScriptExecutorConfig.Approval (Config.ScriptExecutor shipped) in
  withApproval
    (ApprovalConfig.mk false (ApprovalConfig.Storage a)
       (ApprovalConfig.ApprovalTimeout a) (ApprovalConfig.DefaultApprovers a)
       (ApprovalConfig.AutoApprove a))
    shipped.

Definition bag (fields : list (string * Value)) : option Struct :=
  Some (list_to_map fields).

Definition struct (fields : list (string * Value)) : Value :=
  VStruct (list_to_map fields).

(** [resources.limits.ephemeral_storage = "50Gi"]. *)
Definition bigStorage : option Struct :=
  bag [("inline_script", VString "df -h");
       ("resources",
        struct [("limits", struct [("ephemeral_storage", VString "50Gi")])])].

(** [resources.limits] above the maxima for all three resources. *)
Definition bigEverything : option Struct :=
  bag [("resources",
        struct [("limits",
                 struct [("cpu", VString "8000m");
                         ("memory", VString "16Gi");
                         ("ephemeral_storage", VString "50Gi")])])].

Definition twoHours : option Struct :=
  bag [("inline_script", VString "sleep 7000"); ("timeout", VString "2h")].

Definition plain : option Struct :=
  bag [("inline_script", VString "echo hello")].

Definition inbound : ExecutionContextPb :=
  mkExecutionContextPb "e1" "rb-7" "bob" "".

Definition inlineSource (content : string) : Script.Source :=
  Script.mkSource Script.SourceInline content "" "" "" "".

(** A context as [BuildContext] makes it, with an empty execution id. *)
Definition anonymous : Context :=
  mkContext "" "rb-7" "bob" "" "echo hello" (Some (inlineSource "echo hello"))
    "" "alpine:3" "IfNotPresent" "" "/bin/bash" [] "/workspace"
    (5 * Time.Minute) "" ∅ ∅ ∅ [] [] [] [] ∅ [] None ""
    (Corev1.mkResourceRequirements ∅ ∅) "script-executor-runner" 300 0 ∅ ∅.

(** The same with an execution id and two environment variables. *)
Definition named : Context :=
  mkContext "e1" "rb-7" "bob" "" "echo hello" (Some (inlineSource "echo hello"))
    "" "alpine:3" "IfNotPresent" "" "/bin/bash" [] "/workspace"
    (5 * Time.Minute) ""
    (<["A" := "1"]> (<["B" := "2"]> ∅)) ∅ ∅ [] [] [] [] ∅ [] None ""
    (Corev1.mkResourceRequirements ∅ ∅) "script-executor-runner" 300 0 ∅ ∅.

Definition lf : string := String Security.newline EmptyString.

(** A validator with a line cap of two that blocks [rm]. *)
Definition twoLines : Security.ScriptValidator :=
  Security.NewScriptValidator ["rm"] [] 0 2.

Definition removal : string := "rm -rf /data" ++ lf ++ "echo done".
Definition harmless : string := "echo one" ++ lf ++ "echo two".
Definition threeLines : string := "echo one" ++ lf ++ "echo two" ++ lf ++ "echo three".

(** The record that scenario 4 leaves in the store: pending, created
    at time 1000, with alice as the only approver. *)
Definition awaiting : Approval.Request :=
  Approval.mkRequest "e1-deploy-1000" "e1" "deploy" "rb-7" "bob"
    "echo hello" "" ["alice"] Approval.StatusPending
    "" Approval.zeroTime "" Approval.zeroTime ""
    1000 (1000 + 24 * Time.Hour).

Definition approvalStore : Approval.ConfigMapData :=
  Some {[Approval.recordKey "e1" "deploy" := awaiting]}.

Definition checker : Approval.Checker := Approval.NewChecker ["sre-leads"].

(** One hour and twenty-five hours after the record was created. *)
Definition inTime : Approval.Time := 1000 + Time.Hour.
Definition tooLate : Approval.Time := 1000 + 25 * Time.Hour.

(** A platform whose workloads end well after a second and a half. *)
Definition platform : Manager.Platform :=
  Manager.mkPlatform (fun _ => None) (fun _ => None) ascending
    1700000000000000000 5000000
    (fun job _ =>
       Ok (Manager.mkResult 0 "hello" "" 1500000000 (Manifest.Name job)
             "script-exec-e1-x7k2p" true)).

(** A cluster with one ConfigMap, [tools], whose key [empty.sh] holds
    the empty string and whose key [hello.sh] holds a script. *)
Definition cluster : K8s.Objects :=
  K8s.Build_Objects
    {[("opscontrolroom-system", "tools") :=
        <["empty.sh" := ""]> (<["hello.sh" := "echo hello"]> ∅)]}
    ∅.

Definition world : Manager.World := Manager.mkWorld cluster None ∅ [] [].

Definition request (params : option Struct) : Manager.ExecuteRequest :=
  Manager.mkExecuteRequest "script.run" params (Some inbound) None.

(** [approval_required = true], with alice as approver. *)
Definition gated : option Struct :=
  bag [("inline_script", VString "echo hello");
       ("approval_required", VBool true);
       ("approvers", VList [VString "alice"])].

(** The script is the empty value of a ConfigMap key. *)
Definition emptyScript : option Struct :=
  bag [("script_from_configmap",
        struct [("configmap_name", VString "tools");
                ("key", VString "empty.sh")])].

Definition helloScript : option Struct :=
  bag [("script_from_configmap",
        struct [("configmap_name", VString "tools");
                ("key", VString "hello.sh")])].

End Samples.

(** ** The vocabulary of the properties *)

Module Claims.

Import Manifest.

Definition containersOf (job : Job) : list Container :=
  Containers (TemplateSpec (Template (Spec job))).

(** The security context the specification states for the container. *)
Definition hardened (c : Container) : Prop :=
  exists sc,
    ContainerSecurityContext c = Some sc
    /\ AllowPrivilegeEscalation sc = Some false
    /\ ReadOnlyRootFilesystem sc = Some true
    /\ RunAsNonRoot sc = Some true
    /\ CapabilitiesDrop sc = ["ALL"].

Definition setEnv (env : list EnvVar) (c : Container) : Container :=
  mkContainer (ContainerName c) (ContainerImage c) (ImagePullPolicy c)
    (WorkingDir c) env (EnvFrom c) (ContainerSecurityContext c) (Resources c)
    (VolumeMounts c) (Stdin c) (StdinOnce c) (Command c) (Args c).

Definition setContainers (cs : list Container) (job : Job) : Job :=
  let spec := Spec job in
  let tpl := Template spec in
  let pod := TemplateSpec tpl in
  mkJob (Name job) (Namespace job) (Labels job) (Annotations job)
    (mkJobSpec (BackoffLimit spec) (TTLSecondsAfterFinished spec)
       (ActiveDeadlineSeconds spec)
       (mkPodTemplateSpec (TemplateLabels tpl) (TemplateAnnotations tpl)
          (mkPodSpec (RestartPolicy pod) (ServiceAccountName pod)
             (PodSecurity pod) (NodeSelector pod) (Tolerations pod)
             (Affinity_ pod) (PriorityClassName pod) cs (Volumes pod)
             (ImagePullSecrets pod)))).

(** Two containers that differ at most in the order of their
    environment entries. *)
Definition sameContainer (c1 c2 : Container) : Prop :=
  Env c1 ≡ₚ Env c2 /\ setEnv [] c1 = setEnv [] c2.

(** Two manifests that differ at most in the order of the environment
    entries of their containers. *)
Definition sameManifest (j1 j2 : Job) : Prop :=
  Forall2 sameContainer (containersOf j1) (containersOf j2)
  /\ setContainers [] j1 = setContainers [] j2.

(** The number of lines the validator counts: the pieces
    [strings.Split(script, "\n")] returns, one more than the number of
    line feeds. *)
Definition lineCount (script : string) : Z :=
  Z.of_nat (List.length (Strings.Split script Security.newline)).

(** No extracted command is blocked, and each is allowed when there is
    an allow-list. *)
Definition commandsPass (v : Security.ScriptValidator) (script : string) : Prop :=
  forall cmd,
    is_Some (Security.commandSet script !! cmd) ->
    Security.isBlocked v cmd = false
    /\ (Security.allowedCommands v = [] \/ Security.isAllowed v cmd = true).

(** The five source fields, in the order [LoadScript] tries them. *)
Definition sourceKeys : list string :=
  ["inline_script"; "script_from_configmap"; "script_from_secret";
   "script_path"; "script_id"].

(** A source field is provided when the guard [LoadScript] puts on it
    holds: a string field holds a non-empty string, a sub-bag has at
    least one field. *)
Definition provided (params : Struct) (key : string) : bool :=
  if Strings.eqb key "script_from_configmap"
     || Strings.eqb key "script_from_secret"
  then Script.hasFields (Params.getMap (Some params) key)
  else negb (Strings.is_empty (Params.getString (Some params) key "")).

(** The kind of source each field resolves to. *)
Definition sourceTypeOf (key : string) : Script.SourceType :=
  if Strings.eqb key "inline_script" then Script.SourceInline
  else if Strings.eqb key "script_from_configmap" then Script.SourceConfigMap
  else if Strings.eqb key "script_from_secret" then Script.SourceSecret
  else if Strings.eqb key "script_path" then Script.SourcePath
  else Script.SourceRegistry.

(** A record whose expiry time is behind the clock. *)
Definition overdue (now : Approval.Time) (req : Approval.Request) : bool :=
  Approval.ExpiresAt req <? now.

Definition isApprovalCall (c : Manager.Call) : bool :=
  match c with
  | Manager.ApprovalGet _ _ | Manager.ApprovalCreate _ _ => true
  | _ => false
  end.

(** The parameter bag and the identity [Execute] works with. *)
Definition paramsOf (req : Manager.ExecuteRequest) : option Struct :=
  Some (default ∅ (Manager.Parameters req)).

Definition inboundOf (req : Manager.ExecuteRequest)
  : Execution.ExecutionContextPb :=
  default (Execution.mkExecutionContextPb "" "" "" "") (Manager.ReqContext req).

(** The request with the [approval_required] parameter taken out. *)
Definition withoutApproval (req : Manager.ExecuteRequest) : Manager.ExecuteRequest :=
  Manager.mkExecuteRequest (Manager.StepType req)
    (Some (delete "approval_required" (default ∅ (Manager.Parameters req))))
    (Manager.ReqContext req) (Manager.ReqTimeout req).

End Claims.

(** ** More concrete inputs *)

Module Cases.

Definition ns : string := "opscontrolroom-system".

Definition registryText : string :=
  "scripts: {cleanup: {configmap: tools, key: hello.sh}}".

(** A YAML reader that knows one document. *)
Definition readRegistry (text : string) : option Script.RegistryData :=
  if Strings.eqb text registryText
  then Some {["cleanup" := Script.mkRegistryEntry "tools" "" "hello.sh"]}
  else None.

(** A cluster with the approved bundle, the registry and one ConfigMap of
    scripts. *)
Definition bundle : K8s.Objects :=
  K8s.Build_Objects
    (<[(ns, Script.ApprovedScriptsConfigMap) := {["deploy.sh" := "echo deploy"]}]>
       (<[(ns, Script.ScriptRegistryConfigMap) := {["registry.yaml" := registryText]}]>
          {[(ns, "tools") := {["hello.sh" := "echo hello"]}]}))
    ∅.

Definition byPath : Struct := {["script_path" := VString "/scripts/deploy.sh"]}.

(** One line of 65536 bytes, the first length the scanner cannot hold. *)
Definition padding : string :=
  string_of_list_ascii (repeat "a"%char (Z.to_nat Security.MaxScanTokenSize)).

(** A request for the step [deploy] that asks for approval. *)
Definition gatedDeploy : option Struct :=
  Samples.bag [("inline_script", VString "echo hello");
               ("approval_required", VBool true);
               ("step_name", VString "deploy")].

(** The world of the samples, with the record of step [deploy] of
    execution [e1] in the given status. *)
Definition settled (st : Approval.Status) : Manager.World :=
  Manager.mkWorld Samples.cluster
    (Some {[Approval.recordKey "e1" "deploy"
            := Approval.withStatus Samples.awaiting st]})
    ∅ [] [].

End Cases.

(** * Properties *)

(** ** Generic facts about results *)

Lemma bind_Ok {A B : Type} (r : result A) (k : A -> result B) (b : B) :
  bind r k = Ok b -> exists a, r = Ok a /\ k a = Ok b.
Proof. destruct r as [a| |]; simpl; intros E; [eauto | discriminate..]. Qed.

Ltac invert_binds :=
  repeat match goal with
         | H : bind _ _ = Ok _ |- _ =>
             let a := fresh "x" in
             let E := fresh "E" in
             apply bind_Ok in H; destruct H as (a & E & H)
         end.

Lemma is_empty_true (s : string) : Strings.is_empty s = true <-> s = "".
Proof. destruct s; simpl; split; congruence. Qed.

Lemma is_empty_false (s : string) : Strings.is_empty s = false <-> s <> "".
Proof. destruct s; simpl; split; congruence. Qed.

Lemma Strings_eqb_eq (a b : string) : Strings.eqb a b = true <-> a = b.
Proof. unfold Strings.eqb. apply bool_decide_eq_true. Qed.

Lemma Strings_eqb_neq (a b : string) : Strings.eqb a b = false <-> a <> b.
Proof. unfold Strings.eqb. apply bool_decide_eq_false. Qed.

(** ** Resource limits (C1) *)

Section Resources.

Import Corev1 Execution.

Lemma Cmp_pos (q y : Resource.Quantity) : 0 < Resource.Cmp q y <-> y < q.
Proof.
  unfold Resource.Cmp. destruct (Z.compare_spec q y); split; lia.
Qed.

(** After the capping step, the limit of the capped resource, when there
    is one, is at most the maximum. *)
Lemma capAt_le (max name : string) (limits limits' : ResourceList)
      (maxQ lim : Resource.Quantity) :
  capAt max name limits = Ok limits' ->
  max <> "" ->
  Resource.MustParse max = Some maxQ ->
  limits' !! name = Some lim ->
  lim <= maxQ.
Proof.
  unfold capAt, mustParse. intros H Hne HP Hl.
  apply is_empty_false in Hne. rewrite Hne, HP in H. simpl in H.
  destruct (limits !! name) as [q|] eqn:Hq.
  - destruct (0 <? Resource.Cmp q maxQ) eqn:Hc; inversion H; subst.
    + rewrite lookup_insert_eq in Hl. inversion Hl. lia.
    + rewrite Hq in Hl. inversion Hl; subst.
      apply Z.ltb_ge in Hc.
      destruct (Z.le_gt_cases lim maxQ) as [|Hgt]; [assumption|].
      apply Cmp_pos in Hgt. lia.
  - inversion H; subst. congruence.
Qed.

(** The capping step leaves the other resources alone. *)
Lemma capAt_other (max name other : string) (limits limits' : ResourceList) :
  capAt max name limits = Ok limits' ->
  other <> name ->
  limits' !! other = limits !! other.
Proof.
  unfold capAt. intros H Hne.
  destruct (Strings.is_empty max); [inversion H; reflexivity|].
  apply bind_Ok in H. destruct H as (maxQ & _ & H).
  destruct (limits !! name) as [q|]; [|inversion H; reflexivity].
  destruct (0 <? Resource.Cmp q maxQ); inversion H; subst; [|reflexivity].
  apply lookup_insert_ne. congruence.
Qed.

(** What [buildResources] does guarantee: its CPU and memory limits are
    at most the configured maxima. *)
Lemma buildResources_caps_cpu_memory
      (params : option Struct) (cfg : Config.t) (r : ResourceRequirements) :
  buildResources params cfg = Ok r ->
  let max := ResourceConfig.Limits
               (KubernetesConfig.MaxResources
                  (ScriptExecutorConfig.Kubernetes (Config.ScriptExecutor cfg))) in
  (forall maxQ lim,
      ResourceLimits.CPU max <> "" ->
      Resource.MustParse (ResourceLimits.CPU max) = Some maxQ ->
      Limits r !! ResourceCPU = Some lim -> lim <= maxQ)
  /\ (forall maxQ lim,
      ResourceLimits.Memory max <> "" ->
      Resource.MustParse (ResourceLimits.Memory max) = Some maxQ ->
      Limits r !! ResourceMemory = Some lim -> lim <= maxQ).
Proof.
  intros H max. unfold buildResources in H. invert_binds.
  inversion H; subst r; clear H; simpl. subst max.
  split; intros maxQ lim Hne HP Hl; cbn [Limits] in Hl.
  - rewrite (capAt_other _ _ ResourceCPU _ _ E6) in Hl by discriminate.
    exact (capAt_le _ _ _ _ _ _ E5 Hne HP Hl).
  - exact (capAt_le _ _ _ _ _ _ E6 Hne HP Hl).
Qed.

End Resources.

(** C1, at the failing input.  The shipped configuration declares a
    maximum of 20Gi of ephemeral storage; a request that asks for 50Gi
    keeps its 50Gi limit, above the maximum: [buildResources] caps the CPU
    and the memory limit and has no such step for ephemeral storage.  At
    the same time the CPU and memory limits of a request above the maxima
    come out equal to the maxima. *)
Theorem C1_ephemeral_storage_not_capped :
  let max := ResourceConfig.Limits
               (KubernetesConfig.MaxResources
                  (ScriptExecutorConfig.Kubernetes
                     (Config.ScriptExecutor Samples.shipped))) in
  exists r lim maxQ,
    Execution.buildResources Samples.bigStorage Samples.shipped = Ok r
    /\ Corev1.Limits r !! Corev1.ResourceEphemeralStorage = Some lim
    /\ Resource.MustParse (ResourceLimits.EphemeralStorage max) = Some maxQ
    /\ Resource.MustParse "50Gi" = Some lim
    /\ maxQ < lim
    /\ exists r',
        Execution.buildResources Samples.bigEverything Samples.shipped = Ok r'
        /\ Corev1.Limits r' !! Corev1.ResourceCPU = Resource.MustParse "4000m"
        /\ Corev1.Limits r' !! Corev1.ResourceMemory = Resource.MustParse "8Gi"
        /\ Corev1.Limits r' !! Corev1.ResourceEphemeralStorage
           = Resource.MustParse "50Gi".
Proof.
  simpl.
  eexists _, _, _. split; [vm_compute; reflexivity|].
  split; [vm_compute; reflexivity|].
  split; [vm_compute; reflexivity|].
  split; [vm_compute; reflexivity|].
  split; [vm_compute; reflexivity|].
  eexists. split; [vm_compute; reflexivity|].
  repeat split; vm_compute; reflexivity.
Qed.

(** ** The execution context: timeout and pull policy (C5, C6) *)

Section ContextFacts.

Import Execution.

Lemma getString_default (m : option Struct) (key def : string) :
  Params.getString m key "" = "" -> Params.getString m key def = def.
Proof.
  unfold Params.getString. destruct m as [fields|]; [|reflexivity].
  destruct (fields !! key) as [f|]; [|reflexivity].
  destruct (GetStringValue f); simpl; [reflexivity | discriminate].
Qed.

Lemma getString_supplied (m : option Struct) (key def : string) :
  Params.getString m key "" <> "" ->
  Params.getString m key def = Params.getString m key "".
Proof.
  unfold Params.getString. destruct m as [fields|];
    [|intros Hx; destruct Hx; reflexivity].
  destruct (fields !! key) as [f|]; [|intros Hx; destruct Hx; reflexivity].
  destruct (GetStringValue f); simpl; intros Hx;
    [destruct Hx; reflexivity | reflexivity].
Qed.

(** What [BuildContext] makes of the fields the claims are about. *)
Lemma BuildContext_Ok
      (params : option Struct) (execCtx : option ExecutionContextPb)
      (scriptContent : string) (source : option Script.Source)
      (scriptHash image imagePullPolicy imagePullSecret : string)
      (cfg : Config.t) (ctx : Context) :
  BuildContext params execCtx scriptContent source scriptHash image
               imagePullPolicy imagePullSecret cfg = Ok ctx ->
  exists dur resources,
    parseDuration
      (Params.getString params "timeout"
         (SecurityConfig.DefaultTimeout
            (ScriptExecutorConfig.Security (Config.ScriptExecutor cfg)))) = Ok dur
    /\ buildResources params cfg = Ok resources
    /\ Timeout ctx = (if dur =? 0 then Config.DefaultTimeout cfg else dur)
    /\ Resources ctx = resources
    /\ Script ctx = scriptContent
    /\ ScriptHash ctx = scriptHash
    /\ ScriptSource ctx = source
    /\ ImagePullPolicy ctx =
         (let policy :=
            parsePullPolicy (Params.getString params "image_pull_policy" "") in
          if Strings.is_empty policy
          then ImageConfig.DefaultImagePullPolicy
                 (ScriptExecutorConfig.Image (Config.ScriptExecutor cfg))
          else policy).
Proof.
  unfold BuildContext. intros H.
  destruct (parseDuration _) as [dur| |]; [|discriminate..].
  destruct (buildResources params cfg) as [resources| |]; [|discriminate..].
  inversion H; subst; clear H. exists dur, resources. simpl.
  repeat split; reflexivity.
Qed.

Lemma parsePullPolicy_nonempty (s : string) :
  Strings.is_empty (parsePullPolicy s) = false.
Proof.
  unfold parsePullPolicy.
  destruct (Strings.eqb s "Always") eqn:E1;
    [apply Strings_eqb_eq in E1; subst; reflexivity|].
  destruct (Strings.eqb s "IfNotPresent") eqn:E2;
    [apply Strings_eqb_eq in E2; subst; reflexivity|].
  destruct (Strings.eqb s "Never") eqn:E3;
    [apply Strings_eqb_eq in E3; subst; reflexivity|].
  reflexivity.
Qed.

(** The pull policy of the context never comes from the configuration:
    the branch that would read the configured default is taken only for
    an empty policy, and [parsePullPolicy] never returns one. *)
Lemma BuildContext_pull_policy
      (params : option Struct) (execCtx : option ExecutionContextPb)
      (scriptContent : string) (source : option Script.Source)
      (scriptHash image imagePullPolicy imagePullSecret : string)
      (cfg : Config.t) (ctx : Context) :
  BuildContext params execCtx scriptContent source scriptHash image
               imagePullPolicy imagePullSecret cfg = Ok ctx ->
  ImagePullPolicy ctx =
    parsePullPolicy (Params.getString params "image_pull_policy" "").
Proof.
  intros H. apply BuildContext_Ok in H.
  destruct H as (dur & res & _ & _ & _ & _ & _ & _ & _ & Hp).
  rewrite Hp. cbv zeta. rewrite parsePullPolicy_nonempty. reflexivity.
Qed.

(** Every configuration [Load] returns keeps the default and the
    maximal timeout of [defaultConfig]: the file cannot change them. *)
Lemma Load_timeouts (getenv : Config.Env) (file : option Config.t) :
  let sec := ScriptExecutorConfig.Security
               (Config.ScriptExecutor (Config.Load getenv file)) in
  SecurityConfig.DefaultTimeout sec = "5m"
  /\ SecurityConfig.MaxTimeout sec = "30m".
Proof. destruct file; split; reflexivity. Qed.

(** The first half of C5: with no [timeout] parameter, the timeout of
    the context is five minutes, under every configuration [Load]
    returns. *)
Lemma BuildContext_default_timeout
      (getenv : Config.Env) (file : option Config.t)
      (params : option Struct) (execCtx : option ExecutionContextPb)
      (scriptContent : string) (source : option Script.Source)
      (scriptHash image imagePullPolicy imagePullSecret : string)
      (ctx : Context) :
  Params.getString params "timeout" "" = "" ->
  BuildContext params execCtx scriptContent source scriptHash image
               imagePullPolicy imagePullSecret (Config.Load getenv file) = Ok ctx ->
  Timeout ctx = 5 * Time.Minute.
Proof.
  intros Hno H. apply BuildContext_Ok in H.
  destruct H as (dur & res & Hd & _ & Ht & _).
  destruct (Load_timeouts getenv file) as [Hdef _]. cbv zeta in Hdef.
  rewrite (getString_default _ _ _ Hno), Hdef in Hd.
  vm_compute in Hd. inversion Hd; subst dur.
  rewrite Ht. unfold Config.DefaultTimeout. rewrite Hdef. reflexivity.
Qed.

(** The second half fails: a timeout that parses to a non-zero duration
    is taken as it is, whatever the configured maximum. *)
Lemma BuildContext_timeout_as_supplied
      (params : option Struct) (execCtx : option ExecutionContextPb)
      (scriptContent : string) (source : option Script.Source)
      (scriptHash image imagePullPolicy imagePullSecret : string)
      (cfg : Config.t) (ctx : Context) (d : Time.Duration) :
  Params.getString params "timeout" "" <> "" ->
  Time.ParseDuration (Params.getString params "timeout" "") = Some d ->
  d <> 0 ->
  BuildContext params execCtx scriptContent source scriptHash image
               imagePullPolicy imagePullSecret cfg = Ok ctx ->
  Timeout ctx = d.
Proof.
  intros Hs Hp Hd H. apply BuildContext_Ok in H.
  destruct H as (dur & res & Hdur & _ & Ht & _).
  rewrite (getString_supplied _ _ _ Hs) in Hdur.
  unfold parseDuration in Hdur.
  apply is_empty_false in Hs. rewrite Hs, Hp in Hdur.
  inversion Hdur; subst dur. rewrite Ht.
  apply Z.eqb_neq in Hd. rewrite Hd. reflexivity.
Qed.

End ContextFacts.

(** C5, at the failing input.  Under the shipped configuration, whose
    maximal timeout is 30 minutes, a request with [timeout = "2h"] gets a
    context with a timeout of two hours and a workload whose active
    deadline is 7200 seconds: [BuildContext] never reads the maximum. *)
Theorem C5_timeout_not_capped :
  exists ctx,
    Execution.BuildContext Samples.twoHours (Some Samples.inbound)
      "sleep 7000" (Some (Samples.inlineSource "sleep 7000")) ""
      "alpine:3" "IfNotPresent" "" Samples.shipped = Ok ctx
    /\ Config.MaxTimeout Samples.shipped = 30 * Time.Minute
    /\ Execution.Timeout ctx = 2 * Time.Hour
    /\ Manifest.ActiveDeadlineSeconds
         (Manifest.Spec
            (JobBuilder.Build (JobBuilder.NewJobBuilder Samples.shipped) 0
               ascending ctx)) = Some 7200
    /\ 30 * Time.Minute < Execution.Timeout ctx.
Proof.
  eexists. split; [vm_compute; reflexivity|].
  repeat split; vm_compute; reflexivity.
Qed.

(** C6, at the failing input.  Under a configuration whose default pull
    policy is [Always], a request without [image_pull_policy] gets a
    workload whose pull policy is [IfNotPresent], not the configured
    default. *)
Theorem C6_default_pull_policy_ignored :
  exists ctx container,
    ImageConfig.DefaultImagePullPolicy
      (ScriptExecutorConfig.Image (Config.ScriptExecutor Samples.alwaysPull))
    = "Always"
    /\ Params.getString Samples.plain "image_pull_policy" "" = ""
    /\ Execution.BuildContext Samples.plain (Some Samples.inbound)
         "echo hello" (Some (Samples.inlineSource "echo hello")) ""
         "alpine:3" "Always" "" Samples.alwaysPull = Ok ctx
    /\ Execution.ImagePullPolicy ctx = "IfNotPresent"
    /\ Manifest.Containers
         (Manifest.TemplateSpec
            (Manifest.Template
               (Manifest.Spec
                  (JobBuilder.Build (JobBuilder.NewJobBuilder Samples.alwaysPull) 0
                     ascending ctx)))) = [container]
    /\ Manifest.ImagePullPolicy container = "IfNotPresent".
Proof.
  eexists _, _. split; [reflexivity|]. split; [vm_compute; reflexivity|].
  split; [vm_compute; reflexivity|].
  split; [vm_compute; reflexivity|].
  split; vm_compute; reflexivity.
Qed.

(** ** The workload builder (C2, C10) *)

Section BuilderFacts.

Import Manifest Claims.

Lemma Load_security_flags (getenv : Config.Env) (file : option Config.t) :
  let sec := ScriptExecutorConfig.Security
               (Config.ScriptExecutor (Config.Load getenv file)) in
  SecurityConfig.ReadOnlyRootFilesystem sec = true
  /\ SecurityConfig.RunAsNonRoot sec = true.
Proof. destruct file; split; reflexivity. Qed.

Lemma jobName_fixed (id : string) (unixNow : Z) :
  id <> "" ->
  (if Strings.eqb ("script-exec-" ++ id) "script-exec-"
   then "script-exec-" ++ Strings.itoa unixNow
   else "script-exec-" ++ id) = "script-exec-" ++ id.
Proof.
  intros Hne.
  destruct (Strings.eqb ("script-exec-" ++ id) "script-exec-") eqn:E;
    [|reflexivity].
  apply Strings_eqb_eq in E. simpl in E.
  repeat (injection E as E). contradiction.
Qed.

(** The environment entries depend on the order of map iteration only
    up to a permutation. *)
Lemma buildEnvVars_perm (ro1 ro2 : RangeOrder) (ctx : Execution.Context) :
  JobBuilder.buildEnvVars ro1 ctx ≡ₚ JobBuilder.buildEnvVars ro2 ctx.
Proof.
  assert (Hr : forall (A : Type) (m : gmap string A),
             range ro1 m ≡ₚ range ro2 m).
  { intros A m. rewrite !range_perm. reflexivity. }
  unfold JobBuilder.buildEnvVars.
  repeat apply Permutation_app.
  - apply Permutation_map, Hr.
  - apply omap_Permutation, Hr.
  - apply omap_Permutation, Hr.
Qed.

(** The clock is read for the job name only, and only when the
    execution id is empty. *)
Lemma Build_clock (b : JobBuilder.t) (now1 now2 : Z) (ro : RangeOrder)
      (ctx : Execution.Context) :
  Execution.ExecutionID ctx <> "" ->
  JobBuilder.Build b now1 ro ctx = JobBuilder.Build b now2 ro ctx.
Proof.
  intros Hid. unfold JobBuilder.Build.
  rewrite !(jobName_fixed _ _ Hid). reflexivity.
Qed.

End BuilderFacts.

(** C2, counterexample.  A builder whose configuration has
    [read_only_root_filesystem] and [run_as_non_root] off builds a
    container whose security context has them off. *)
Lemma C2_counterexample :
  ~ (forall c,
        c ∈ Claims.containersOf
              (JobBuilder.Build (JobBuilder.NewJobBuilder Samples.permissive) 0
                 ascending Samples.named) ->
        Claims.hardened c).
Proof.
  intros H.
  destruct (H _ (list_elem_of_here _ _)) as (sc & Hsc & _ & Hro & _).
  simpl in Hsc. inversion Hsc; subst sc. discriminate Hro.
Qed.

(** C2, amended.  Whatever the execution context, the clock and the order
    of map iteration, [Build] makes exactly one container; its security
    context disallows privilege escalation and drops [ALL] capabilities,
    and takes [read_only_root_filesystem] and [run_as_non_root] from the
    security section of the builder's configuration.  Both are on in every
    configuration [Load] returns, so that there the container has the
    security context the specification states. *)
Theorem C2_security_context
        (b : JobBuilder.t) (unixNow : Z) (ro : RangeOrder)
        (ctx : Execution.Context) :
  exists c sc,
    Claims.containersOf (JobBuilder.Build b unixNow ro ctx) = [c]
    /\ Manifest.ContainerSecurityContext c = Some sc
    /\ Manifest.AllowPrivilegeEscalation sc = Some false
    /\ Manifest.CapabilitiesDrop sc = ["ALL"]
    /\ Manifest.ReadOnlyRootFilesystem sc
       = Some (SecurityConfig.ReadOnlyRootFilesystem (JobBuilder.security b))
    /\ Manifest.RunAsNonRoot sc
       = Some (SecurityConfig.RunAsNonRoot (JobBuilder.security b))
    /\ forall getenv file,
        b = JobBuilder.NewJobBuilder (Config.Load getenv file) ->
        Claims.hardened c.
Proof.
  eexists _, _. split; [reflexivity|]. split; [reflexivity|].
  repeat (split; [reflexivity|]).
  intros getenv file ->.
  destruct (Load_security_flags getenv file) as [Hro Hnr].
  cbv zeta in Hro, Hnr.
  eexists. split; [reflexivity|].
  cbn [Manifest.AllowPrivilegeEscalation Manifest.ReadOnlyRootFilesystem
       Manifest.RunAsNonRoot Manifest.CapabilitiesDrop].
  unfold JobBuilder.security, JobBuilder.NewJobBuilder.
  cbn [JobBuilder.config]. rewrite Hro, Hnr. repeat split; reflexivity.
Qed.

(** C10, counterexample.  On a context whose execution id is empty the
    job is named after the clock: two builds one second apart differ. *)
Lemma C10_counterexample :
  JobBuilder.Build (JobBuilder.NewJobBuilder Samples.shipped) 1700000000
                   ascending Samples.anonymous
  <> JobBuilder.Build (JobBuilder.NewJobBuilder Samples.shipped) 1700000001
                      ascending Samples.anonymous.
Proof.
  intros H. apply (f_equal Manifest.Name) in H. vm_compute in H. discriminate H.
Qed.

(** C10, amended.  On a context whose execution id is not empty, as every
    context [Execute] builds has, two builds give the same manifest
    whatever the clock reads, and, whatever the order of map iteration,
    manifests that differ at most in the order of the environment entries
    of the container. *)
Theorem C10_build_deterministic
        (b : JobBuilder.t) (now1 now2 : Z) (ro1 ro2 : RangeOrder)
        (ctx : Execution.Context) :
  Execution.ExecutionID ctx <> "" ->
  JobBuilder.Build b now1 ro1 ctx = JobBuilder.Build b now2 ro1 ctx
  /\ Claims.sameManifest (JobBuilder.Build b now1 ro1 ctx)
                         (JobBuilder.Build b now2 ro2 ctx).
Proof.
  intros Hid. split; [apply Build_clock, Hid|].
  rewrite (Build_clock b now1 now2 ro1 ctx Hid).
  split.
  - simpl. constructor; [|constructor].
    split; [apply buildEnvVars_perm | reflexivity].
  - reflexivity.
Qed.

Lemma C10_build_deterministic_witness :
  Execution.ExecutionID Samples.named <> ""
  /\ Claims.sameManifest
       (JobBuilder.Build (JobBuilder.NewJobBuilder Samples.shipped) 1700000000
                         ascending Samples.named)
       (JobBuilder.Build (JobBuilder.NewJobBuilder Samples.shipped) 1700000001
                         descending Samples.named).
Proof.
  split; [discriminate|].
  apply (C10_build_deterministic _ _ _ _ _ Samples.named). discriminate.
Defined.

(** The order of the environment entries does follow the order of map
    iteration: the two orders give different lists. *)
Example env_follows_range_order :
  JobBuilder.buildEnvVars ascending Samples.named
  <> JobBuilder.buildEnvVars descending Samples.named.
Proof. vm_compute. discriminate. Qed.

(** ** The script validator at the line cap (C7) *)

Section ValidatorFacts.

Import Security Claims.

Lemma find_None_iff {A : Type} (f : A -> bool) (l : list A) :
  find f l = None <-> forall x, x ∈ l -> f x = false.
Proof.
  induction l as [|a l IH]; simpl.
  - split; [intros _ x Hx; inversion Hx | reflexivity].
  - destruct (f a) eqn:Fa.
    + split; [discriminate|]. intros H.
      rewrite (H a (list_elem_of_here _ _)) in Fa. discriminate.
    + rewrite IH. split.
      * intros H x Hx. inversion Hx; subst; auto.
      * intros H x Hx. apply H. now constructor.
Qed.

(** The commands ranged over are the keys of the command map, whatever
    the order. *)
Lemma elem_of_extractCommands (ro : RangeOrder) (script cmd : string) :
  cmd ∈ extractCommands ro script <-> is_Some (commandSet script !! cmd).
Proof.
  unfold extractCommands.
  rewrite list_elem_of_In, in_map_iff. split.
  - intros ([k b] & <- & Hin). apply list_elem_of_In in Hin.
    rewrite range_perm in Hin. apply elem_of_map_to_list in Hin.
    simpl. eauto.
  - intros [b Hb]. exists (cmd, b). split; [reflexivity|].
    apply list_elem_of_In. rewrite range_perm.
    now apply elem_of_map_to_list.
Qed.

(** Past the size and the line gates, the outcome is decided by the
    commands alone. *)
Lemma Validate_within_caps (v : ScriptValidator) (ro : RangeOrder)
      (script : string) :
  Z.of_nat (String.length script) <= maxSize v ->
  lineCount script <= maxLines v ->
  (Validate v ro script = Ok tt <-> commandsPass v script).
Proof.
  intros Hsize Hlines. unfold Validate, lineCount in *.
  apply Z.ltb_ge in Hsize. rewrite Hsize.
  apply Z.ltb_ge in Hlines. rewrite Hlines.
  unfold commandsPass.
  destruct (find (isBlocked v) (extractCommands ro script)) as [bad|] eqn:Fb.
  - split; [discriminate|]. intros H.
    apply find_some in Fb. destruct Fb as [Hin Hb].
    apply list_elem_of_In, elem_of_extractCommands in Hin.
    destruct (H bad Hin) as [Hnb _]. congruence.
  - rewrite find_None_iff in Fb.
    destruct (allowedCommands v) as [|a0 al] eqn:Ha.
    + split; [|reflexivity]. intros _ cmd Hc. split; [|now left].
      apply Fb, elem_of_extractCommands, Hc.
    + destruct (find (fun cmd => negb (isAllowed v cmd))
                     (extractCommands ro script)) as [bad|] eqn:Fa.
      * split; [discriminate|]. intros H.
        apply find_some in Fa. destruct Fa as [Hin Hb].
        apply list_elem_of_In, elem_of_extractCommands in Hin.
        destruct (H bad Hin) as [_ [Hempty|Hal]]; [discriminate|].
        rewrite Hal in Hb. discriminate.
      * rewrite find_None_iff in Fa. split; [|reflexivity].
        intros _ cmd Hc. split.
        -- apply Fb, elem_of_extractCommands, Hc.
        -- right. apply elem_of_extractCommands with (ro := ro) in Hc.
           specialize (Fa cmd Hc). now apply negb_false_iff in Fa.
Qed.

End ValidatorFacts.

(** C7, counterexample.  With a line cap of two and [rm] blocked, a script
    of exactly two lines within the size cap is rejected: its first line
    runs [rm]. *)
Lemma C7_counterexample :
  Z.of_nat (String.length Samples.removal) <= Security.maxSize Samples.twoLines
  /\ Claims.lineCount Samples.removal = Security.maxLines Samples.twoLines
  /\ Security.Validate Samples.twoLines ascending Samples.removal
     = Err (Security.BlockedCommand "rm").
Proof. repeat split; vm_compute; try reflexivity; discriminate. Qed.

(** C7, amended.  For every script within the size cap: when it has
    exactly as many lines as the cap, it is accepted if and only if its
    commands pass the blocked and the allowed lists (so the line cap
    rejects nothing here); when it has one line more than the cap, it is
    rejected as too long.  Lines are counted as the validator counts
    them, one more than the number of line feeds. *)
Theorem C7_line_cap (v : Security.ScriptValidator) (ro : RangeOrder)
        (script : string) :
  Z.of_nat (String.length script) <= Security.maxSize v ->
  (Claims.lineCount script = Security.maxLines v ->
   (Security.Validate v ro script = Ok tt <-> Claims.commandsPass v script))
  /\ (Claims.lineCount script = Security.maxLines v + 1 ->
      Security.Validate v ro script
      = Err (Security.TooLong (Security.maxLines v + 1) (Security.maxLines v))).
Proof.
  intros Hsize. split.
  - intros Hl. apply Validate_within_caps; [assumption | lia].
  - intros Hl. unfold Security.Validate.
    apply Z.ltb_ge in Hsize. rewrite Hsize.
    unfold Claims.lineCount in Hl. rewrite Hl.
    assert (Hlt : (Security.maxLines v <? Security.maxLines v + 1) = true)
      by (apply Z.ltb_lt; lia).
    rewrite Hlt. reflexivity.
Qed.

Lemma C7_line_cap_witness :
  Z.of_nat (String.length Samples.harmless) <= Security.maxSize Samples.twoLines
  /\ Claims.lineCount Samples.harmless = Security.maxLines Samples.twoLines
  /\ Security.Validate Samples.twoLines ascending Samples.harmless = Ok tt
  /\ Z.of_nat (String.length Samples.threeLines)
     <= Security.maxSize Samples.twoLines
  /\ Claims.lineCount Samples.threeLines = Security.maxLines Samples.twoLines + 1
  /\ Security.Validate Samples.twoLines ascending Samples.threeLines
     = Err (Security.TooLong 3 2).
Proof.
  assert (S1 : Z.of_nat (String.length Samples.harmless)
               <= Security.maxSize Samples.twoLines) by (vm_compute; discriminate).
  assert (S2 : Z.of_nat (String.length Samples.threeLines)
               <= Security.maxSize Samples.twoLines) by (vm_compute; discriminate).
  assert (L1 : Claims.lineCount Samples.harmless
               = Security.maxLines Samples.twoLines) by (vm_compute; reflexivity).
  assert (L2 : Claims.lineCount Samples.threeLines
               = Security.maxLines Samples.twoLines + 1)
    by (vm_compute; reflexivity).
  split; [exact S1|]. split; [exact L1|]. split.
  - vm_compute. reflexivity.
  - split; [exact S2|]. split; [exact L2|].
    exact (proj2 (C7_line_cap Samples.twoLines ascending Samples.threeLines S2) L2).
Defined.

(** ** The script loader's priority order (C8) *)

Section LoaderFacts.

Import Script Claims.

Variable unmarshalRegistry : string -> option RegistryData.

Lemma wrap_Ok {A : Type} (prefix : string) (r : result A) (a : A) :
  wrap prefix r = Ok a -> r = Ok a.
Proof. destruct r; simpl; congruence. Qed.

Lemma getString_singleton (k k' d : string) (v : Value) :
  Params.getString (Some {[k := v]}) k' d =
    if decide (k = k')
    then (if Strings.is_empty (GetStringValue v) then d else GetStringValue v)
    else d.
Proof.
  unfold Params.getString. rewrite lookup_singleton.
  destruct (decide (k = k')); reflexivity.
Qed.

Lemma getString_singleton_self (k d : string) (v : Value) :
  Strings.is_empty (GetStringValue v) = false ->
  Params.getString (Some {[k := v]}) k d = GetStringValue v.
Proof.
  intros H. rewrite getString_singleton, decide_True by reflexivity.
  rewrite H. reflexivity.
Qed.

Lemma getString_singleton_other (k k' d : string) (v : Value) :
  k <> k' -> Params.getString (Some {[k := v]}) k' d = d.
Proof.
  intros H. rewrite getString_singleton, decide_False by exact H. reflexivity.
Qed.

Lemma getMap_singleton_self (k : string) (v : Value) :
  Params.getMap (Some {[k := v]}) k = GetStructValue v.
Proof. unfold Params.getMap. rewrite lookup_singleton_eq. reflexivity. Qed.

Lemma getMap_singleton_other (k k' : string) (v : Value) :
  k <> k' -> Params.getMap (Some {[k := v]}) k' = None.
Proof.
  intros H. unfold Params.getMap. rewrite lookup_singleton_ne by exact H.
  reflexivity.
Qed.

Lemma getMap_singleton (k k' : string) (v : Value) :
  Params.getMap (Some {[k := v]}) k' =
    if decide (k = k') then GetStructValue v else None.
Proof.
  unfold Params.getMap. rewrite lookup_singleton.
  destruct (decide (k = k')); reflexivity.
Qed.

Lemma getString_found (params : Struct) (k : string) :
  Params.getString (Some params) k "" <> "" ->
  exists v, params !! k = Some v
            /\ forall d, Params.getString (Some params) k d = GetStringValue v
            /\ Strings.is_empty (GetStringValue v) = false.
Proof.
  unfold Params.getString. destruct (params !! k) as [v|];
    [|intros H; destruct H; reflexivity].
  destruct (Strings.is_empty (GetStringValue v)) eqn:E;
    [intros H; destruct H; reflexivity|].
  intros _. exists v. split; [reflexivity|]. intros d. rewrite E. auto.
Qed.

Lemma getMap_found (params : Struct) (k : string) :
  hasFields (Params.getMap (Some params) k) = true ->
  exists v, params !! k = Some v
            /\ Params.getMap (Some params) k = GetStructValue v.
Proof.
  unfold Params.getMap. destruct (params !! k) as [v|]; [eauto|discriminate].
Qed.

Lemma LoadByID_type (o : K8s.Objects) (namespace scriptID content : string)
      (src : Source) :
  LoadByID unmarshalRegistry o namespace scriptID = Ok (content, src) ->
  Type_ src = SourceRegistry.
Proof.
  unfold LoadByID. intros H. apply bind_Ok in H. destruct H as (entry & _ & H).
  destruct (negb (Strings.is_empty (ConfigMap entry))).
  - apply bind_Ok in H. destruct H as (c & _ & H). inversion H. reflexivity.
  - destruct (negb (Strings.is_empty (Secret entry))); [|discriminate].
    apply bind_Ok in H. destruct H as (c & _ & H). inversion H. reflexivity.
Qed.

(** Only the path branch returns a path source, and it returns no
    content. *)
Lemma LoadScript_path_content (o : K8s.Objects) (namespace : string)
      (params : option Struct) (content : string) (src : Source) :
  LoadScript unmarshalRegistry o namespace params = Ok (content, src) ->
  Type_ src = SourcePath -> content = "".
Proof.
  unfold LoadScript. intros H Ht.
  destruct (negb (Strings.is_empty (Params.getString params "inline_script" ""))).
  { inversion H; subst. discriminate Ht. }
  destruct (hasFields (Params.getMap params "script_from_configmap")).
  { destruct (_ || _); [discriminate|].
    apply bind_Ok in H. destruct H as (c & _ & H).
    inversion H; subst. discriminate Ht. }
  destruct (hasFields (Params.getMap params "script_from_secret")).
  { destruct (_ || _); [discriminate|].
    apply bind_Ok in H. destruct H as (c & _ & H).
    inversion H; subst. discriminate Ht. }
  destruct (negb (Strings.is_empty (Params.getString params "script_path" ""))).
  { apply bind_Ok in H. destruct H as (e & _ & H).
    destruct (negb e); [discriminate|]. inversion H. reflexivity. }
  destruct (negb (Strings.is_empty (Params.getString params "script_id" "")));
    [|discriminate].
  apply wrap_Ok, LoadByID_type in H. congruence.
Qed.

End LoaderFacts.

(** C8.  [LoadScript] tries the five source fields in the fixed order
    inline_script, script_from_configmap, script_from_secret, script_path,
    script_id.  When at least one is provided, the outcome is the outcome
    of the request that carries the first provided field alone, and a
    script that loads has the source kind of that field; when none is
    provided, the loader fails with NoSourceProvided. *)
Theorem C8_source_priority
        (unmarshalRegistry : string -> option Script.RegistryData)
        (o : K8s.Objects) (namespace : string) (params : Struct) :
  match find (Claims.provided params) Claims.sourceKeys with
  | Some key =>
      exists v,
        params !! key = Some v
        /\ Script.LoadScript unmarshalRegistry o namespace (Some params)
           = Script.LoadScript unmarshalRegistry o namespace (Some {[key := v]})
        /\ forall content src,
            Script.LoadScript unmarshalRegistry o namespace (Some params)
            = Ok (content, src) ->
            Script.Type_ src = Claims.sourceTypeOf key
  | None =>
      Script.LoadScript unmarshalRegistry o namespace (Some params)
      = Err Script.NoSourceProvided
  end.
Proof.
  unfold Claims.sourceKeys, find, Claims.provided.
  cbn [Strings.eqb bool_decide decide_rel orb].
  change (Strings.eqb "inline_script" "script_from_configmap") with false.
  change (Strings.eqb "inline_script" "script_from_secret") with false.
  change (Strings.eqb "script_from_configmap" "script_from_configmap") with true.
  change (Strings.eqb "script_from_secret" "script_from_configmap") with false.
  change (Strings.eqb "script_from_secret" "script_from_secret") with true.
  change (Strings.eqb "script_path" "script_from_configmap") with false.
  change (Strings.eqb "script_path" "script_from_secret") with false.
  change (Strings.eqb "script_id" "script_from_configmap") with false.
  change (Strings.eqb "script_id" "script_from_secret") with false.
  cbn [orb].
  unfold Script.LoadScript.
  destruct (negb (Strings.is_empty
                    (Params.getString (Some params) "inline_script" ""))) eqn:E1.
  { apply negb_true_iff, is_empty_false, getString_found in E1.
    destruct E1 as (v & Hv & Hg). exists v. split; [exact Hv|].
    destruct (Hg "") as [Hs Hne].
    rewrite (getString_singleton_self _ _ _ Hne), Hs, Hne. cbn [negb].
    split; [reflexivity|].
    intros content src H. inversion H. reflexivity. }
  destruct (Script.hasFields
              (Params.getMap (Some params) "script_from_configmap")) eqn:E2.
  { destruct (getMap_found _ _ E2) as (v & Hv & Hm). exists v.
    split; [exact Hv|].
    rewrite getString_singleton_other by discriminate.
    rewrite getMap_singleton_self.
    rewrite <- Hm, E2. cbn [negb Strings.is_empty]. split; [reflexivity|].
    intros content src H.
    destruct (_ || _); [discriminate|].
    apply bind_Ok in H. destruct H as (c & _ & H). inversion H. reflexivity. }
  destruct (Script.hasFields
              (Params.getMap (Some params) "script_from_secret")) eqn:E3.
  { destruct (getMap_found _ _ E3) as (v & Hv & Hm). exists v.
    split; [exact Hv|].
    rewrite getString_singleton_other by discriminate.
    rewrite getMap_singleton_other by discriminate.
    rewrite getMap_singleton_self.
    rewrite <- Hm, E3. cbn [negb Strings.is_empty Script.hasFields].
    split; [reflexivity|].
    intros content src H.
    destruct (_ || _); [discriminate|].
    apply bind_Ok in H. destruct H as (c & _ & H). inversion H. reflexivity. }
  destruct (negb (Strings.is_empty
                    (Params.getString (Some params) "script_path" ""))) eqn:E4.
  { apply negb_true_iff, is_empty_false, getString_found in E4.
    destruct E4 as (v & Hv & Hg). exists v. split; [exact Hv|].
    destruct (Hg "") as [Hs Hne].
    rewrite getString_singleton_other by discriminate.
    rewrite !getMap_singleton_other by discriminate.
    rewrite (getString_singleton_self _ _ _ Hne), Hs, Hne.
    cbn [negb Strings.is_empty Script.hasFields].
    split; [reflexivity|].
    intros content src H.
    apply bind_Ok in H. destruct H as (e & _ & H).
    destruct (negb e); [discriminate|]. inversion H. reflexivity. }
  destruct (negb (Strings.is_empty
                    (Params.getString (Some params) "script_id" ""))) eqn:E5.
  { apply negb_true_iff, is_empty_false, getString_found in E5.
    destruct E5 as (v & Hv & Hg). exists v. split; [exact Hv|].
    destruct (Hg "") as [Hs Hne].
    rewrite !(getString_singleton_other "script_id" "inline_script") by discriminate.
    rewrite !(getString_singleton_other "script_id" "script_path") by discriminate.
    rewrite !getMap_singleton_other by discriminate.
    rewrite (getString_singleton_self _ _ _ Hne), Hs, Hne.
    cbn [negb Strings.is_empty Script.hasFields].
    split; [reflexivity|].
    intros content src H.
    apply wrap_Ok, LoadByID_type in H. exact H. }
  reflexivity.
Qed.

(** ** Approving a record (C4) *)

Section ApprovalFacts.

Import Approval Claims.

Lemma cmGet_found (name : string) (now : Time) (e st : string)
      (data : gmap string Request) (req : Request) :
  data !! recordKey e st = Some req ->
  cmGet name now e st (Some data) =
    if Strings.eqb (Status_ req) StatusPending && overdue now req
    then (Ok (withStatus req StatusExpired),
          Some (<[recordKey (ExecutionID req) (StepName req)
                  := withStatus req StatusExpired]> data))
    else (Ok req, Some data).
Proof.
  intros H. unfold cmGet, overdue. rewrite H.
  destruct (Strings.eqb (Status_ req) StatusPending && (ExpiresAt req <? now));
    reflexivity.
Qed.

End ApprovalFacts.

(** C4, counterexample.  Alice, who is authorized, approves the pending
    record twenty-five hours after it was created.  The lookup finds the
    record overdue and rewrites it to [expired] in the store;
    [Approve] then fails with NotPending, and the stored record is no
    longer the one that was there. *)
Lemma C4_counterexample :
  let r := @Approval.Approve _ (Approval.ConfigMapStore "script-approvals")
             Samples.checker Samples.tooLate "e1" "deploy" "alice"
             Samples.approvalStore in
  fst r = Err (Approval.NotPending "approve" Approval.StatusExpired)
  /\ Samples.approvalStore ≫= (.!! Approval.recordKey "e1" "deploy")
     = Some Samples.awaiting
  /\ snd r ≫= (.!! Approval.recordKey "e1" "deploy")
     = Some (Approval.withStatus Samples.awaiting Approval.StatusExpired)
  /\ snd r <> Samples.approvalStore.
Proof.
  cbv zeta. split; [vm_compute; reflexivity|].
  split; [vm_compute; reflexivity|].
  assert (H : snd (@Approval.Approve _ (Approval.ConfigMapStore "script-approvals")
                     Samples.checker Samples.tooLate "e1" "deploy" "alice"
                     Samples.approvalStore)
                ≫= (.!! Approval.recordKey "e1" "deploy")
              = Some (Approval.withStatus Samples.awaiting Approval.StatusExpired))
    by (vm_compute; reflexivity).
  split; [exact H|].
  intros E. rewrite E in H. vm_compute in H. discriminate H.
Qed.

(** C4, amended.  On a stored record, [Approve] succeeds only when the
    record is pending, not overdue, and the approver is a case-insensitive
    member of its approver list.  On a record that is not pending it
    fails with NotPending and leaves the store as it was; on a pending
    record in time and an approver who is not a member it fails with
    Unauthorized and leaves the store as it was, so the record remains
    pending.  The one failure that changes the store is the overdue
    pending record, which the lookup rewrites to [expired] before
    [Approve] fails with NotPending. *)
Theorem C4_approve
        (name : string) (c : Approval.Checker) (now : Approval.Time)
        (executionID stepName approver : string)
        (data : gmap string Approval.Request) (req : Approval.Request) :
  data !! Approval.recordKey executionID stepName = Some req ->
  let r := @Approval.Approve _ (Approval.ConfigMapStore name) c now
             executionID stepName approver (Some data) in
  (fst r = Ok tt ->
   Approval.Status_ req = Approval.StatusPending
   /\ Claims.overdue now req = false
   /\ Approval.contains (Approval.Approvers req) approver = true)
  /\ (Approval.Status_ req <> Approval.StatusPending ->
      r = (Err (Approval.NotPending "approve" (Approval.Status_ req)), Some data))
  /\ (Approval.Status_ req = Approval.StatusPending ->
      Claims.overdue now req = false ->
      Approval.contains (Approval.Approvers req) approver = false ->
      r = (Err (Approval.Unauthorized approver "approve"), Some data))
  /\ (Approval.Status_ req = Approval.StatusPending ->
      Claims.overdue now req = true ->
      r = (Err (Approval.NotPending "approve" Approval.StatusExpired),
           Some (<[Approval.recordKey (Approval.ExecutionID req)
                     (Approval.StepName req)
                   := Approval.withStatus req Approval.StatusExpired]> data)))
  /\ (fst r <> Ok tt ->
      snd r = Some data
      \/ (Approval.Status_ req = Approval.StatusPending
          /\ Claims.overdue now req = true)).
Proof.
  intros Hreq r. subst r. unfold Approval.Approve.
  cbn [Approval.Get Approval.Update Approval.ConfigMapStore].
  rewrite (cmGet_found name now _ _ _ _ Hreq).
  destruct (Strings.eqb (Approval.Status_ req) Approval.StatusPending) eqn:Es.
  - apply Strings_eqb_eq in Es.
    destruct (Claims.overdue now req) eqn:Eo; cbn [andb].
    + (* overdue: the lookup rewrites the record *)
      cbn [Approval.Status_ Approval.withStatus negb].
      change (Strings.eqb Approval.StatusExpired Approval.StatusPending) with false.
      cbn [negb fst snd].
      split; [discriminate|]. split; [congruence|].
      split; [discriminate|]. split; [reflexivity|].
      intros _. right. split; [exact Es | reflexivity].
    + assert (Ep : Strings.eqb (Approval.Status_ req) Approval.StatusPending = true)
        by (apply Strings_eqb_eq; exact Es).
      rewrite Ep. cbn [negb].
      destruct (Approval.contains (Approval.Approvers req) approver) eqn:Ec;
        cbn [negb fst snd].
      * split; [intros _; auto|]. split; [congruence|].
        split; [discriminate|]. split; [discriminate|].
        intros H. exfalso. apply H. reflexivity.
      * split; [discriminate|]. split; [congruence|].
        split; [reflexivity|]. split; [discriminate|].
        intros _. left. reflexivity.
  - cbn [andb]. rewrite Es. cbn [negb fst snd].
    apply Strings_eqb_neq in Es.
    split; [discriminate|]. split; [reflexivity|].
    split; [congruence|]. split; [congruence|].
    intros _. left. reflexivity.
Qed.

(** Scenario 6 of the specification: mallory is not an approver; the
    attempt fails with Unauthorized and the store is untouched. *)
Lemma C4_approve_witness :
  Samples.approvalStore
  = Some {[Approval.recordKey "e1" "deploy" := Samples.awaiting]}
  /\ @Approval.Approve _ (Approval.ConfigMapStore "script-approvals")
       Samples.checker Samples.inTime "e1" "deploy" "mallory"
       Samples.approvalStore
     = (Err (Approval.Unauthorized "mallory" "approve"), Samples.approvalStore).
Proof.
  split; [reflexivity|].
  refine (proj1 (proj2 (proj2
            (C4_approve "script-approvals" Samples.checker Samples.inTime
               "e1" "deploy" "mallory" _ Samples.awaiting _))) _ _ _).
  - apply lookup_singleton_eq.
  - reflexivity.
  - vm_compute. reflexivity.
  - vm_compute. reflexivity.
Defined.

(** Alice, in time, succeeds, and the record is approved by her; a second
    approval fails with NotPending. *)
Example approve_twice :
  let store := Approval.ConfigMapStore "script-approvals" in
  let r1 := @Approval.Approve _ store Samples.checker Samples.inTime
              "e1" "deploy" "Alice" Samples.approvalStore in
  let r2 := @Approval.Approve _ store Samples.checker Samples.inTime
              "e1" "deploy" "alice" (snd r1) in
  fst r1 = Ok tt
  /\ (Approval.Status_ <$> (snd r1 ≫= (.!! Approval.recordKey "e1" "deploy")))
     = Some Approval.StatusApproved
  /\ r2 = (Err (Approval.NotPending "approve" Approval.StatusApproved), snd r1).
Proof. cbv zeta. repeat split; vm_compute; reflexivity. Qed.

(** ** [Execute]: the approval gate when approval is disabled (C3) and the
    content hash (C9) *)

Section ExecuteFacts.

Import Manager Claims.

Lemma NewManager_disabled (cfg : Config.t) (auditOpened : bool) :
  ApprovalConfig.Enabled
    (ScriptExecutorConfig.Approval (Config.ScriptExecutor cfg)) = false ->
  approval (NewManager cfg auditOpened) = None.
Proof.
  intros H. unfold NewManager.
  destruct (Strings.is_empty _); unfold NewManagerWithClient;
    cbn [approval Config.ScriptExecutor ScriptExecutorConfig.Approval];
    rewrite H; reflexivity.
Qed.

(** Without a checker the gate touches nothing and lets every request
    through. *)
Lemma gate_disabled (m : t) (p : Platform) (w : World) (params : option Struct)
      (executionID user runbookID scriptContent scriptHash : string) :
  approval m = None ->
  gate m p w params executionID user runbookID scriptContent scriptHash
  = (None, w).
Proof. intros H. unfold gate. rewrite H. reflexivity. Qed.

Lemma executionIDOf_nonempty (p : Platform)
      (execCtx : Execution.ExecutionContextPb) :
  executionIDOf p execCtx <> "".
Proof.
  unfold executionIDOf.
  destruct (Strings.is_empty (Execution.ExecutionId execCtx)) eqn:E.
  - discriminate.
  - apply is_empty_false in E. exact E.
Qed.

(** What steps 7 to 11 do to the world: they never touch the approval
    store and make no call on it. *)
Lemma run_world (m : t) (p : Platform) (w : World) (req : ExecuteRequest)
      (params : option Struct) (execCtx : Execution.ExecutionContextPb)
      (executionID user runbookID scriptContent : string)
      (source : Script.Source) (scriptHash : string)
      (resolved : Image.ResolvedImage) :
  let w' := snd (run m p w req params execCtx executionID user runbookID
                     scriptContent source scriptHash resolved) in
  approvals w' = approvals w
  /\ exists new, calls w' = (calls w ++ new)%list
                 /\ Forall (fun c => isApprovalCall c = false) new.
Proof.
  unfold run.
  destruct (Execution.BuildContext _ _ _ _ _ _ _ _ _) as [c|e|e];
    cbn [snd];
    try (split; [reflexivity|]; exists []; rewrite app_nil_r; split;
         [reflexivity | constructor]).
  unfold createJob. cbn [called jobs calls approvals objects audit].
  destruct (jobs w !! _) as [old|]; cbn [snd].
  { split; [reflexivity|]. eexists. split; [reflexivity|].
    repeat constructor. }
  destruct (wait p _ _) as [res|e|e]; cbn [snd called calls approvals].
  2-3: (split; [reflexivity|]; eexists; split;
        [rewrite <- app_assoc; reflexivity | repeat constructor]).
  destruct (auditLog m); cbn [LogExecution called calls approvals];
    (split; [reflexivity|]; eexists; split;
     [rewrite <- ?app_assoc; reflexivity | repeat constructor]).
Qed.

(** When the context builds, the first thing steps 7 to 11 do to the
    outside is to submit the job named after the execution id. *)
Lemma run_submits (m : t) (p : Platform) (w : World) (req : ExecuteRequest)
      (params : option Struct) (execCtx : Execution.ExecutionContextPb)
      (executionID user runbookID scriptContent : string)
      (source : Script.Source) (scriptHash : string)
      (resolved : Image.ResolvedImage) (c : Execution.Context) :
  executionID <> "" ->
  Execution.BuildContext params (Some execCtx) scriptContent (Some source)
    scriptHash (Image.Image resolved) (Image.PullPolicy resolved)
    (Image.PullSecret resolved) (config m) = Ok c ->
  exists rest,
    calls (snd (run m p w req params execCtx executionID user runbookID
                    scriptContent source scriptHash resolved))
    = (calls w ++ JobCreate ("script-exec-" ++ executionID)%string :: rest)%list.
Proof.
  intros Hid Hc. unfold run. rewrite Hc.
  unfold createJob, JobBuilder.Build.
  cbn [Manifest.Name withIdentity Execution.ExecutionID].
  rewrite (jobName_fixed _ _ Hid).
  cbn [called jobs calls approvals objects audit].
  destruct (jobs w !! _) as [old|]; cbn [snd calls].
  { eexists. reflexivity. }
  destruct (wait p _ _) as [res|e|e]; cbn [snd called calls].
  2-3: (eexists; rewrite <- app_assoc; reflexivity).
  destruct (auditLog m); cbn [LogExecution called calls];
    eexists; rewrite <- ?app_assoc; reflexivity.
Qed.

(** A response that carries an output comes from steps 7 to 11, and the
    hash in the output is the one step 3 computed. *)
Lemma run_output (m : t) (p : Platform) (w w' : World) (req : ExecuteRequest)
      (params : option Struct) (execCtx : Execution.ExecutionContextPb)
      (executionID user runbookID scriptContent : string)
      (source : Script.Source) (scriptHash : string)
      (resolved : Image.ResolvedImage) (resp : ExecuteResponse) (out : Struct) :
  run m p w req params execCtx executionID user runbookID
      scriptContent source scriptHash resolved = (Ok resp, w') ->
  Output resp = Some out ->
  out !! "script_hash" = Some (VString scriptHash).
Proof.
  unfold run. intros H Ho.
  destruct (Execution.BuildContext _ _ _ _ _ _ _ _ _) as [c|e|e] eqn:Ec;
    [| inversion H; subst; discriminate Ho | discriminate H].
  apply BuildContext_Ok in Ec.
  destruct Ec as (dur & res & _ & _ & _ & _ & _ & Hh & _).
  destruct (createJob _ w) as [[created|e|e] w1];
    [| inversion H; subst; discriminate Ho | discriminate H].
  destruct (wait p _ _) as [r|e|e];
    [| inversion H; subst; discriminate Ho | discriminate H].
  assert (Hout : out = buildOutput (withIdentity executionID runbookID user c) r).
  { destruct (Succeeded r); inversion H; subst; cbn [Output] in Ho;
      inversion Ho; reflexivity. }
  subst out. unfold buildOutput.
  cbn [withIdentity Execution.ScriptHash]. rewrite Hh.
  rewrite !lookup_insert_ne by discriminate.
  apply lookup_insert_eq.
Qed.

End ExecuteFacts.

(** *** The parameters [Execute] reads

    Every reader looks one key up; taking another key out of the bag
    changes nothing for it. *)

Section Deleted.

Import Manager Claims.

Variable flag : string.
Variable fields : Struct.

Lemma getString_delete (key d : string) :
  flag <> key ->
  Params.getString (Some (delete flag fields)) key d
  = Params.getString (Some fields) key d.
Proof.
  intros H. unfold Params.getString.
  rewrite lookup_delete_ne by exact H. reflexivity.
Qed.

Lemma getMap_delete (key : string) :
  flag <> key ->
  Params.getMap (Some (delete flag fields)) key = Params.getMap (Some fields) key.
Proof.
  intros H. unfold Params.getMap.
  rewrite lookup_delete_ne by exact H. reflexivity.
Qed.

Lemma getList_delete (key : string) :
  flag <> key ->
  Params.getList (Some (delete flag fields)) key = Params.getList (Some fields) key.
Proof.
  intros H. unfold Params.getList.
  rewrite lookup_delete_ne by exact H. reflexivity.
Qed.

Lemma getStringSlice_delete (key : string) :
  flag <> key ->
  Params.getStringSlice (Some (delete flag fields)) key
  = Params.getStringSlice (Some fields) key.
Proof.
  intros H. unfold Params.getStringSlice.
  rewrite getList_delete by exact H. reflexivity.
Qed.

Lemma getBool_delete (key : string) :
  flag <> key ->
  Params.getBool (Some (delete flag fields)) key = Params.getBool (Some fields) key.
Proof.
  intros H. unfold Params.getBool.
  rewrite lookup_delete_ne by exact H. reflexivity.
Qed.

Lemma getInt_delete (key : string) :
  flag <> key ->
  Params.getInt (Some (delete flag fields)) key = Params.getInt (Some fields) key.
Proof.
  intros H. unfold Params.getInt.
  rewrite lookup_delete_ne by exact H. reflexivity.
Qed.

End Deleted.

Ltac forget_flag :=
  repeat first
    [ rewrite getString_delete by discriminate
    | rewrite getMap_delete by discriminate
    | rewrite getList_delete by discriminate
    | rewrite getStringSlice_delete by discriminate
    | rewrite getBool_delete by discriminate
    | rewrite getInt_delete by discriminate ].

Section Unread.

Import Manager Claims.

Variable fields : Struct.

Lemma LoadScript_unread (unm : string -> option Script.RegistryData)
      (o : K8s.Objects) (ns : string) :
  Script.LoadScript unm o ns (Some (delete "approval_required" fields))
  = Script.LoadScript unm o ns (Some fields).
Proof. unfold Script.LoadScript. forget_flag. reflexivity. Qed.

Lemma buildResources_unread (cfg : Config.t) :
  Execution.buildResources (Some (delete "approval_required" fields)) cfg
  = Execution.buildResources (Some fields) cfg.
Proof. unfold Execution.buildResources. forget_flag. reflexivity. Qed.

Lemma BuildContext_unread (execCtx : option Execution.ExecutionContextPb)
      (content : string) (source : option Script.Source)
      (hash image policy secret : string) (cfg : Config.t) :
  Execution.BuildContext (Some (delete "approval_required" fields)) execCtx
    content source hash image policy secret cfg
  = Execution.BuildContext (Some fields) execCtx
      content source hash image policy secret cfg.
Proof.
  unfold Execution.BuildContext. rewrite buildResources_unread.
  forget_flag. reflexivity.
Qed.

Lemma prepare_unread (m : t) (p : Platform) (w : World) :
  prepare m p w (Some (delete "approval_required" fields))
  = prepare m p w (Some fields).
Proof.
  unfold prepare. rewrite LoadScript_unread. forget_flag.
  reflexivity.
Qed.

(** Without a checker, [Execute] never reads [approval_required]: the
    request answers as the request without the flag does. *)
Lemma Execute_flag_unread (m : t) (p : Platform) (w : World)
      (req : ExecuteRequest) :
  Parameters req = Some fields ->
  approval m = None ->
  Execute m p w (withoutApproval req) = Execute m p w req.
Proof.
  intros Hf Hnone. unfold Execute, withoutApproval.
  cbn [Parameters ReqContext ReqTimeout]. rewrite Hf. cbn [default from_option id].
  rewrite prepare_unread.
  destruct (prepare m p w (Some fields))
    as [[[[content source] hash] resolved]|e|e]; try reflexivity.
  rewrite !(gate_disabled m p w _ _ _ _ _ _ Hnone).
  unfold run. cbn [ReqTimeout]. rewrite BuildContext_unread. reflexivity.
Qed.

End Unread.

(** C3.  A manager made from a configuration whose approval subsystem is
    disabled has no checker.  For every request with
    [approval_required = true], [Execute] then leaves the approval store
    as it found it and makes no call on it, neither a lookup nor the
    creation of a record; it answers and acts exactly as it does on the
    same request without the flag; once the script and the image have
    passed steps 1 to 5 it goes on at once with steps 7 to 11, building
    the context and the job; and when the context builds, the first call
    it makes on the outside is the submission of the job named after the
    execution id. *)
Theorem C3_approval_disabled
        (cfg : Config.t) (auditOpened : bool) (p : Manager.Platform)
        (w : Manager.World) (req : Manager.ExecuteRequest) :
  ApprovalConfig.Enabled
    (ScriptExecutorConfig.Approval (Config.ScriptExecutor cfg)) = false ->
  Params.getBool (Claims.paramsOf req) "approval_required" = true ->
  let m := Manager.NewManager cfg auditOpened in
  let params := Claims.paramsOf req in
  let execCtx := Claims.inboundOf req in
  let executionID := Manager.executionIDOf p execCtx in
  let outcome := Manager.Execute m p w req in
  Manager.approval m = None
  /\ Manager.approvals (snd outcome) = Manager.approvals w
  /\ (exists new,
        Manager.calls (snd outcome) = (Manager.calls w ++ new)%list
        /\ Forall (fun c => Claims.isApprovalCall c = false) new)
  /\ outcome = Manager.Execute m p w (Claims.withoutApproval req)
  /\ (forall content source hash resolved,
        Manager.prepare m p w params = Ok (content, source, hash, resolved) ->
        outcome
        = Manager.run m p w req params execCtx executionID
            (Execution.PbUser execCtx) (Execution.RunbookId execCtx)
            content source hash resolved
        /\ forall c,
            Execution.BuildContext params (Some execCtx) content (Some source)
              hash (Image.Image resolved) (Image.PullPolicy resolved)
              (Image.PullSecret resolved) (Manager.config m) = Ok c ->
            exists rest,
              Manager.calls (snd outcome)
              = (Manager.calls w
                   ++ Manager.JobCreate ("script-exec-" ++ executionID)%string
                        :: rest)%list).
Proof.
  intros Hoff _ m params execCtx executionID outcome.
  pose proof (NewManager_disabled cfg auditOpened Hoff) as Hnone.
  fold m in Hnone.
  assert (Hexec : forall content source hash resolved,
             Manager.prepare m p w params = Ok (content, source, hash, resolved) ->
             outcome
             = Manager.run m p w req params execCtx executionID
                 (Execution.PbUser execCtx) (Execution.RunbookId execCtx)
                 content source hash resolved).
  { intros content source hash resolved Hp. subst outcome.
    unfold Manager.Execute. fold params execCtx executionID.
    unfold Claims.paramsOf in params. fold params.
    rewrite Hp. rewrite (gate_disabled m p w _ _ _ _ _ _ Hnone). reflexivity. }
  assert (Hflag : outcome = Manager.Execute m p w (Claims.withoutApproval req)).
  { subst outcome. symmetry.
    destruct (Manager.Parameters req) as [fields|] eqn:Hf.
    - exact (Execute_flag_unread fields m p w req Hf Hnone).
    - unfold Manager.Execute, Claims.withoutApproval.
      cbn [Manager.Parameters Manager.ReqContext Manager.ReqTimeout].
      rewrite Hf. cbn [default from_option id]. rewrite delete_empty.
      reflexivity. }
  split; [exact Hnone|].
  destruct (Manager.prepare m p w params) as [[[[content source] hash] resolved]|e|e]
    eqn:Hp.
  - pose proof (Hexec _ _ _ _ eq_refl) as Hrun.
    destruct (run_world m p w req params execCtx executionID
                (Execution.PbUser execCtx) (Execution.RunbookId execCtx)
                content source hash resolved) as [Ha Hc].
    split; [rewrite Hrun; exact Ha|]. split; [rewrite Hrun; exact Hc|].
    split; [exact Hflag|].
    intros content' source' hash' resolved' E. inversion E; subst.
    split; [exact Hrun|].
    intros c Hb. rewrite Hrun.
    eapply run_submits; [apply executionIDOf_nonempty | exact Hb].
  - assert (Ho : outcome = (Ok (Manager.errorResponse p e), w)).
    { subst outcome. unfold Manager.Execute. fold params execCtx executionID.
      unfold Claims.paramsOf in params, Hp. fold params. rewrite Hp. reflexivity. }
    split; [rewrite Ho; reflexivity|].
    split; [rewrite Ho; exists []; rewrite app_nil_r; split;
            [reflexivity | constructor]|].
    split; [exact Hflag|].
    intros ? ? ? ? E. discriminate E.
  - assert (Ho : outcome = (Panic e, w)).
    { subst outcome. unfold Manager.Execute. fold params execCtx executionID.
      unfold Claims.paramsOf in params, Hp. fold params. rewrite Hp. reflexivity. }
    split; [rewrite Ho; reflexivity|].
    split; [rewrite Ho; exists []; rewrite app_nil_r; split;
            [reflexivity | constructor]|].
    split; [exact Hflag|].
    intros ? ? ? ? E. discriminate E.
Qed.

Lemma C3_approval_disabled_witness :
  ApprovalConfig.Enabled
    (ScriptExecutorConfig.Approval (Config.ScriptExecutor Samples.noApproval))
  = false
  /\ Params.getBool (Claims.paramsOf (Samples.request Samples.gated))
       "approval_required" = true
  /\ Manager.approvals
       (snd (Manager.Execute (Manager.NewManager Samples.noApproval true)
               Samples.platform Samples.world (Samples.request Samples.gated)))
     = Manager.approvals Samples.world.
Proof.
  assert (H1 : ApprovalConfig.Enabled
                 (ScriptExecutorConfig.Approval
                    (Config.ScriptExecutor Samples.noApproval)) = false)
    by reflexivity.
  assert (H2 : Params.getBool (Claims.paramsOf (Samples.request Samples.gated))
                 "approval_required" = true)
    by (vm_compute; reflexivity).
  split; [exact H1|]. split; [exact H2|].
  exact (proj1 (proj2 (C3_approval_disabled Samples.noApproval true
                         Samples.platform Samples.world
                         (Samples.request Samples.gated) H1 H2))).
Defined.

(** The same request under the two configurations: with approval
    disabled the job is submitted, waited for and audited; with approval
    enabled the store is looked up, a record is created and the answer is
    [PENDING]. *)
Example gated_request_disabled :
  Manager.calls
    (snd (Manager.Execute (Manager.NewManager Samples.noApproval true)
            Samples.platform Samples.world (Samples.request Samples.gated)))
  = [Manager.JobCreate "script-exec-e1"; Manager.MonitorWait "script-exec-e1";
     Manager.AuditWrite "e1"].
Proof. vm_compute. reflexivity. Qed.

Example gated_request_enabled :
  let outcome :=
    Manager.Execute (Manager.NewManager Samples.shipped true)
      Samples.platform Samples.world (Samples.request Samples.gated) in
  (Manager.Status <$> match fst outcome with Ok r => Some r | _ => None end)
  = Some Manager.STATUS_PENDING
  /\ Manager.calls (snd outcome)
     = [Manager.ApprovalGet "e1" "default"; Manager.ApprovalCreate "e1" "default"]
  /\ Manager.jobs (snd outcome) = ∅.
Proof. cbv zeta. repeat split; vm_compute; reflexivity. Qed.

Section HashFacts.

Import Manager Claims.

Lemma prepare_Ok (m : t) (p : Platform) (w : World) (params : option Struct)
      (content : string) (source : Script.Source) (hash : string)
      (resolved : Image.ResolvedImage) :
  prepare m p w params = Ok (content, source, hash, resolved) ->
  Script.LoadScript (unmarshalRegistry p) (objects w) (loaderNamespace m) params
  = Ok (content, source)
  /\ hash = scriptHashOf content.
Proof.
  unfold prepare. intros H. invert_binds.
  inversion H; subst; clear H.
  match goal with
  | E : Script.LoadScript _ _ _ _ = Ok ?x |- _ => destruct x; auto
  end.
Qed.

(** The responses of the approval gate carry no output. *)
Lemma gate_no_output (m : t) (p : Platform) (w w' : World)
      (params : option Struct)
      (executionID user runbookID scriptContent scriptHash : string)
      (resp : ExecuteResponse) :
  gate m p w params executionID user runbookID scriptContent scriptHash
  = (Some (Ok resp), w') ->
  Output resp = None.
Proof.
  unfold gate. intros H.
  destruct (approval m) as [checker|]; [|discriminate H].
  destruct (Params.getBool params "approval_required"); [|discriminate H].
  destruct (Approval.Check _ _ _ _ _ _ _ _ _) as [[status|e|e] a];
    [| inversion H; reflexivity | discriminate H].
  destruct (Strings.eqb status Approval.StatusPending).
  - destruct (Approval.CreateRequest _ _ _ _ _ _ _ _ _ _) as [[u|e|e] a'];
      [inversion H; reflexivity | inversion H; reflexivity | discriminate H].
  - destruct (Strings.eqb status Approval.StatusDenied);
      [inversion H; reflexivity | discriminate H].
Qed.

End HashFacts.

(** C9, counterexample.  The script is the value of a ConfigMap key, and
    that value is empty.  The loader returns the empty content with a
    ConfigMap source; the workload runs and the response carries the empty
    string as hash, whereas the SHA-256 digest of no bytes is
    [e3b0c442...b855]. *)
Lemma C9_counterexample :
  let m := Manager.NewManager Samples.shipped true in
  let req := Samples.request Samples.emptyScript in
  exists resp out source,
    fst (Manager.Execute m Samples.platform Samples.world req) = Ok resp
    /\ Manager.Output resp = Some out
    /\ Script.LoadScript (Manager.unmarshalRegistry Samples.platform)
         (Manager.objects Samples.world) (Manager.loaderNamespace m)
         (Claims.paramsOf req) = Ok ("", source)
    /\ Script.Type_ source = Script.SourceConfigMap
    /\ out !! "script_hash" = Some (VString "")
    /\ Sha256.EncodeToString (Sha256.Sum256 "")
       = "e3b0c44298fc1c149afbf4c8996fb92427ae41e4649b934ca495991b7852b855".
Proof.
  cbv zeta. eexists _, _, _.
  split; [vm_compute; reflexivity|].
  split; [reflexivity|].
  split; [vm_compute; reflexivity|].
  split; [reflexivity|].
  split; vm_compute; reflexivity.
Qed.

(** C9, amended.  Whenever [Execute] answers with an output, the script
    loaded, and the hash in the output is the hex-encoded SHA-256 digest
    of the content the loader returned when that content is not empty, and
    the empty string when it is empty; the content of a path source is
    always empty, so its hash is the empty string. *)
Theorem C9_content_hash
        (m : Manager.t) (p : Manager.Platform) (w w' : Manager.World)
        (req : Manager.ExecuteRequest) (resp : Manager.ExecuteResponse)
        (out : Struct) :
  Manager.Execute m p w req = (Ok resp, w') ->
  Manager.Output resp = Some out ->
  exists content source,
    Script.LoadScript (Manager.unmarshalRegistry p) (Manager.objects w)
      (Manager.loaderNamespace m) (Claims.paramsOf req) = Ok (content, source)
    /\ out !! "script_hash"
       = Some (VString (if Strings.is_empty content then ""
                        else Sha256.EncodeToString (Sha256.Sum256 content)))
    /\ (Script.Type_ source = Script.SourcePath ->
        out !! "script_hash" = Some (VString "")).
Proof.
  unfold Manager.Execute, Claims.paramsOf. intros H Ho.
  destruct (Manager.prepare m p w _)
    as [[[[content source] hash] resolved]|e|e] eqn:Hp;
    [| inversion H; subst; discriminate Ho | discriminate H].
  destruct (prepare_Ok _ _ _ _ _ _ _ _ Hp) as [Hl Hh].
  destruct (Manager.gate _ _ _ _ _ _ _ _ _) as [[response|] w1] eqn:Hg.
  - inversion H; subst response w1.
    rewrite (gate_no_output _ _ _ _ _ _ _ _ _ _ _ Hg) in Ho. discriminate Ho.
  - pose proof (run_output _ _ _ _ _ _ _ _ _ _ _ _ _ _ _ _ H Ho) as Hout.
    exists content, source. split; [exact Hl|].
    assert (Hhash : hash = if Strings.is_empty content then ""
                           else Sha256.EncodeToString (Sha256.Sum256 content)).
    { rewrite Hh. unfold Manager.scriptHashOf.
      destruct (Strings.is_empty content); reflexivity. }
    split; [rewrite Hout, Hhash; reflexivity|].
    intros Hpath. rewrite Hout, Hhash.
    rewrite (LoadScript_path_content _ _ _ _ _ _ Hl Hpath). reflexivity.
Qed.

Lemma C9_content_hash_witness :
  exists resp w' out,
    Manager.Execute (Manager.NewManager Samples.shipped true) Samples.platform
      Samples.world (Samples.request Samples.helloScript) = (Ok resp, w')
    /\ Manager.Output resp = Some out
    /\ exists content source,
        Script.LoadScript (Manager.unmarshalRegistry Samples.platform)
          (Manager.objects Samples.world)
          (Manager.loaderNamespace (Manager.NewManager Samples.shipped true))
          (Claims.paramsOf (Samples.request Samples.helloScript))
        = Ok (content, source)
        /\ out !! "script_hash"
           = Some (VString (if Strings.is_empty content then ""
                            else Sha256.EncodeToString (Sha256.Sum256 content)))
        /\ (Script.Type_ source = Script.SourcePath ->
            out !! "script_hash" = Some (VString "")).
Proof.
  eexists _, _, _.
  split; [vm_compute; reflexivity|].
  split; [reflexivity|].
  eapply C9_content_hash; [vm_compute; reflexivity | reflexivity].
Defined.

(** The hash in the response of a script loaded from a ConfigMap is the
    digest of its bytes. *)
Example hello_hash :
  match fst (Manager.Execute (Manager.NewManager Samples.shipped true)
               Samples.platform Samples.world
               (Samples.request Samples.helloScript)) with
  | Ok resp => Manager.Output resp ≫= (.!! "script_hash")
  | _ => None
  end
  = Some (VString (Sha256.EncodeToString (Sha256.Sum256 "echo hello"))).
Proof. vm_compute. reflexivity. Qed.

(** * Further properties of the code *)

(** ** Configuration loading *)

(** X1.  Whatever the environment and the configuration file, the
    configuration [Load] returns has approval and auditing enabled, the
    resource defaults and maxima, the default pull policy, the blocked
    commands and the default approvers of [defaultConfig]: [mergeConfig]
    copies none of them from the file, and no environment variable reaches
    them. *)
Theorem Load_keeps_defaults (getenv : Config.Env) (file : option Config.t) :
  let loaded := Config.ScriptExecutor (Config.Load getenv file) in
  let builtin := Config.ScriptExecutor (Config.defaultConfig Samples.noEnv) in
  ApprovalConfig.Enabled (ScriptExecutorConfig.Approval loaded) = true
  /\ AuditConfig.Enabled (ScriptExecutorConfig.Audit loaded) = true
  /\ ApprovalConfig.DefaultApprovers (ScriptExecutorConfig.Approval loaded)
     = ["sre-leads"]
  /\ KubernetesConfig.MaxResources (ScriptExecutorConfig.Kubernetes loaded)
     = KubernetesConfig.MaxResources (ScriptExecutorConfig.Kubernetes builtin)
  /\ KubernetesConfig.DefaultResources (ScriptExecutorConfig.Kubernetes loaded)
     = KubernetesConfig.DefaultResources (ScriptExecutorConfig.Kubernetes builtin)
  /\ ImageConfig.DefaultImagePullPolicy (ScriptExecutorConfig.Image loaded)
     = "IfNotPresent"
  /\ SecurityConfig.BlockedCommands (ScriptExecutorConfig.Security loaded)
     = SecurityConfig.BlockedCommands (ScriptExecutorConfig.Security builtin)
  /\ SecurityConfig.RunAsUser (ScriptExecutorConfig.Security loaded) = 65534.
Proof. destruct file; repeat split; reflexivity. Qed.

(** X2.  The namespace and the default image of the loaded configuration
    come from the environment variable when it is set, else from the file
    when the file sets them, else from the built-in default. *)
Theorem Load_precedence (getenv : Config.Env) (file : option Config.t) :
  let loaded := Config.ScriptExecutor (Config.Load getenv file) in
  let pick (env : string) (fromFile : option string) (builtin : string) :=
    if Strings.is_empty env then
      match fromFile with
      | Some v => if Strings.is_empty v then builtin else v
      | None => builtin
      end
    else env in
  KubernetesConfig.Namespace (ScriptExecutorConfig.Kubernetes loaded)
  = pick (getenv "KUBERNETES_NAMESPACE")
         (KubernetesConfig.Namespace
            ∘ ScriptExecutorConfig.Kubernetes ∘ Config.ScriptExecutor <$> file)
         "opscontrolroom-system"
  /\ ImageConfig.DefaultImage (ScriptExecutorConfig.Image loaded)
     = pick (getenv "DEFAULT_IMAGE")
            (ImageConfig.DefaultImage
               ∘ ScriptExecutorConfig.Image ∘ Config.ScriptExecutor <$> file)
            "alpine:latest".
Proof.
  unfold Config.Load, Config.applyEnvOverrides, Config.mergeConfig,
    Config.defaultConfig, Config.getEnvOrDefault, Config.pick_str.
  destruct file as [f|]; cbn -[Strings.is_empty];
    destruct (Strings.is_empty (getenv "KUBERNETES_NAMESPACE"));
    destruct (Strings.is_empty (getenv "DEFAULT_IMAGE"));
    try (split; reflexivity);
    try (destruct (Strings.is_empty _); split; reflexivity);
    split;
    repeat match goal with
           | |- context [Strings.is_empty ?x] =>
               destruct (Strings.is_empty x)
           end; reflexivity.
Qed.

(** ** Label sanitizing *)

Section Sanitize.

Import Execution.

Lemma length_ReplaceAll (s : string) (old new : ascii) :
  String.length (Strings.ReplaceAll s old new) = String.length s.
Proof. induction s; simpl; congruence. Qed.

Lemma length_take (n : nat) (s : string) :
  String.length (Strings.take n s) = Nat.min n (String.length s).
Proof.
  revert s. induction n; intros [|c s]; simpl; try reflexivity.
  now rewrite IHn.
Qed.

Lemma ReplaceAll_absent (s : string) (old new : ascii) :
  old <> new -> ~ In old (list_ascii_of_string (Strings.ReplaceAll s old new)).
Proof.
  intros Hne. induction s as [|c s IH]; simpl; [tauto|].
  intros [H|H]; [|exact (IH H)].
  destruct (Ascii.eqb c old) eqn:E.
  - congruence.
  - apply Ascii.eqb_neq in E. congruence.
Qed.

Lemma ReplaceAll_keeps_absent (s : string) (old new c : ascii) :
  c <> new -> ~ In c (list_ascii_of_string s) ->
  ~ In c (list_ascii_of_string (Strings.ReplaceAll s old new)).
Proof.
  intros Hne. induction s as [|d s IH]; simpl; [tauto|].
  intros Hs [H|H].
  - destruct (Ascii.eqb d old); [congruence|]. apply Hs. now left.
  - apply IH; [|exact H]. intros Hin. apply Hs. now right.
Qed.

Lemma take_keeps_absent (n : nat) (s : string) (c : ascii) :
  ~ In c (list_ascii_of_string s) ->
  ~ In c (list_ascii_of_string (Strings.take n s)).
Proof.
  revert s. induction n; intros [|d s]; simpl; try tauto.
  intros Hs [H|H]; [apply Hs; now left|].
  apply (IHn s); [|exact H]. intros Hin. apply Hs. now right.
Qed.

Lemma ReplaceAll_id (s : string) (old new : ascii) :
  ~ In old (list_ascii_of_string s) -> Strings.ReplaceAll s old new = s.
Proof.
  induction s as [|c s IH]; simpl; [reflexivity|].
  intros Hs. destruct (Ascii.eqb c old) eqn:E.
  - apply Ascii.eqb_eq in E. exfalso. apply Hs. left. exact E.
  - f_equal. apply IH. intros Hin. apply Hs. now right.
Qed.

End Sanitize.

(** X3.  A sanitized label is at most 63 bytes long and holds neither a
    slash nor a dot; a value that already is so is left as it is. *)
Theorem sanitizeLabel_spec (s : string) :
  (String.length (Execution.sanitizeLabel s) <= 63)%nat
  /\ ~ In "/"%char (list_ascii_of_string (Execution.sanitizeLabel s))
  /\ ~ In "."%char (list_ascii_of_string (Execution.sanitizeLabel s))
  /\ ((String.length s <= 63)%nat ->
      ~ In "/"%char (list_ascii_of_string s) ->
      ~ In "."%char (list_ascii_of_string s) ->
      Execution.sanitizeLabel s = s).
Proof.
  unfold Execution.sanitizeLabel.
  set (t := Strings.ReplaceAll (Strings.ReplaceAll s "/" "-") "." "-").
  assert (Hlen : String.length t = String.length s)
    by (unfold t; now rewrite !length_ReplaceAll).
  assert (Hslash : ~ In "/"%char (list_ascii_of_string t)).
  { unfold t. apply ReplaceAll_keeps_absent; [discriminate|].
    apply ReplaceAll_absent. discriminate. }
  assert (Hdot : ~ In "."%char (list_ascii_of_string t)).
  { unfold t. apply ReplaceAll_absent. discriminate. }
  destruct (63 <? String.length t)%nat eqn:E.
  - split; [rewrite length_take; lia|].
    split; [now apply take_keeps_absent|].
    split; [now apply take_keeps_absent|].
    intros Hs. apply Nat.ltb_lt in E. lia.
  - apply Nat.ltb_ge in E. split; [exact E|].
    split; [exact Hslash|]. split; [exact Hdot|].
    intros _ H1 H2. unfold t. rewrite (ReplaceAll_id s) by exact H1.
    now apply ReplaceAll_id.
Qed.

(** ** The script loader: paths and the registry *)

Section LoaderMore.

Import Script Claims.

Variable unmarshalRegistry : string -> option RegistryData.

Lemma HasPrefix_take (s p : string) :
  Strings.HasPrefix s p = Strings.eqb (Strings.take (String.length p) s) p.
Proof.
  revert s. induction p as [|c p IH]; intros s; simpl.
  - destruct s; symmetry; apply Strings_eqb_eq; reflexivity.
  - destruct s as [|d s]; simpl.
    + symmetry. apply Strings_eqb_neq. discriminate.
    + rewrite IH. destruct (Ascii.eqb d c) eqn:E; simpl.
      * apply Ascii.eqb_eq in E. subst d.
        destruct (Strings.eqb (Strings.take (String.length p) s) p) eqn:E2;
          symmetry.
        -- apply Strings_eqb_eq in E2. apply Strings_eqb_eq. congruence.
        -- apply Strings_eqb_neq in E2. apply Strings_eqb_neq. congruence.
      * apply Ascii.eqb_neq in E. symmetry. apply Strings_eqb_neq. congruence.
Qed.

(** The guard of [scriptPathExists] is the test for the prefix. *)
Lemma path_guard (path : string) :
  ((String.length path <? 9)%nat
   || negb (Strings.eqb (Strings.take 9 path) "/scripts/"))
  = negb (Strings.HasPrefix path "/scripts/").
Proof.
  rewrite HasPrefix_take.
  change (String.length "/scripts/") with 9%nat.
  destruct (String.length path <? 9)%nat eqn:E; [|reflexivity].
  apply Nat.ltb_lt in E. cbn [orb]. symmetry. apply negb_true_iff.
  apply Strings_eqb_neq. intros H.
  apply (f_equal String.length) in H. rewrite length_take in H.
  change (String.length "/scripts/") with 9%nat in H. lia.
Qed.

Lemma first_provided_path (params : Struct) :
  find (provided params) sourceKeys = Some "script_path" ->
  Strings.is_empty (Params.getString (Some params) "inline_script" "") = true
  /\ hasFields (Params.getMap (Some params) "script_from_configmap") = false
  /\ hasFields (Params.getMap (Some params) "script_from_secret") = false
  /\ Strings.is_empty (Params.getString (Some params) "script_path" "") = false.
Proof.
  unfold sourceKeys, find.
  destruct (provided params "inline_script") eqn:E1; [discriminate|].
  destruct (provided params "script_from_configmap") eqn:E2; [discriminate|].
  destruct (provided params "script_from_secret") eqn:E3; [discriminate|].
  destruct (provided params "script_path") eqn:E4;
    [|destruct (provided params "script_id"); discriminate].
  intros _. unfold provided in *.
  change (Strings.eqb "inline_script" "script_from_configmap") with false in E1.
  change (Strings.eqb "inline_script" "script_from_secret") with false in E1.
  change (Strings.eqb "script_from_configmap" "script_from_configmap")
    with true in E2.
  change (Strings.eqb "script_from_secret" "script_from_configmap")
    with false in E3.
  change (Strings.eqb "script_from_secret" "script_from_secret") with true in E3.
  change (Strings.eqb "script_path" "script_from_configmap") with false in E4.
  change (Strings.eqb "script_path" "script_from_secret") with false in E4.
  cbn [orb] in *.
  apply negb_false_iff in E1. apply negb_true_iff in E4. auto.
Qed.

End LoaderMore.

(** X4.  When [script_path] is the source of a request: a path that does
    not begin with [/scripts/] is rejected with the same error whatever the
    cluster holds, also when a file of that name is in the approved
    bundle; and the script loads exactly when the path begins with
    [/scripts/], names a file, and that file name is a key of the
    [approved-scripts] ConfigMap of the loader's namespace.  What loads is
    the path, with no content. *)
Theorem LoadScript_path
        (unmarshalRegistry : string -> option Script.RegistryData)
        (o : K8s.Objects) (namespace : string) (params : Struct) :
  find (Claims.provided params) Claims.sourceKeys = Some "script_path" ->
  let path := Params.getString (Some params) "script_path" "" in
  let outcome := Script.LoadScript unmarshalRegistry o namespace (Some params) in
  (Strings.HasPrefix path "/scripts/" = false ->
   outcome = Err "validate script path: script_path must start with /scripts/")
  /\ (forall r,
        outcome = Ok r <->
        (Strings.HasPrefix path "/scripts/" = true
         /\ Strings.drop 9 path <> ""
         /\ (exists cm,
                K8s.configmaps o !! (namespace, Script.ApprovedScriptsConfigMap)
                = Some cm
                /\ is_Some (cm !! Strings.drop 9 path))
         /\ r = ("", Script.mkSource Script.SourcePath "" path "" "" ""))).
Proof.
  intros Hfirst path outcome.
  destruct (first_provided_path params Hfirst) as (H1 & H2 & H3 & H4).
  assert (Hout : outcome =
                 (exists_ <- wrap "validate script path"
                               (Script.scriptPathExists o namespace path) ;;
                  if negb exists_
                  then Err ("script not found in approved-scripts: " ++ path)
                  else Ok ("", Script.mkSource Script.SourcePath "" path "" "" ""))
                 %result).
  { subst outcome. unfold Script.LoadScript. fold path.
    rewrite H1, H2, H3. subst path. rewrite H4. reflexivity. }
  rewrite Hout. unfold Script.scriptPathExists. rewrite path_guard.
  split.
  - intros Hp. rewrite Hp. reflexivity.
  - intros r. destruct (Strings.HasPrefix path "/scripts/"); cbn [negb].
    2: { split; [discriminate|]. intros (Hf & _). discriminate Hf. }
    destruct (Strings.is_empty (Strings.drop 9 path)) eqn:Ek.
    { apply is_empty_true in Ek. split; [discriminate|].
      intros (_ & Hne & _). contradiction. }
    apply is_empty_false in Ek.
    unfold K8s.GetConfigMap.
    destruct (K8s.configmaps o !! (namespace, Script.ApprovedScriptsConfigMap))
      as [cm|] eqn:Ecm.
    2: { split; [discriminate|]. intros (_ & _ & (cm & Hc & _) & _).
         discriminate Hc. }
    cbn [bind wrap].
    destruct (bool_decide (is_Some (cm !! Strings.drop 9 path))) eqn:Eb;
      cbn [negb].
    + apply bool_decide_eq_true in Eb. split.
      * intros H. inversion H. repeat split; eauto.
      * intros (_ & _ & _ & ->). reflexivity.
    + apply bool_decide_eq_false in Eb. split; [discriminate|].
      intros (_ & _ & (cm' & Hc & Hs) & _). inversion Hc; subst. contradiction.
Qed.

Lemma LoadScript_path_witness :
  find (Claims.provided Cases.byPath) Claims.sourceKeys = Some "script_path"
  /\ Script.LoadScript Cases.readRegistry Cases.bundle Cases.ns (Some Cases.byPath)
     = Ok ("", Script.mkSource Script.SourcePath "" "/scripts/deploy.sh" "" "" "").
Proof.
  assert (H : find (Claims.provided Cases.byPath) Claims.sourceKeys
              = Some "script_path") by (vm_compute; reflexivity).
  split; [exact H|].
  apply (proj2 (LoadScript_path Cases.readRegistry Cases.bundle Cases.ns
                  Cases.byPath H)).
  split; [vm_compute; reflexivity|].
  split; [vm_compute; discriminate|].
  split; [|vm_compute; reflexivity].
  exists {["deploy.sh" := "echo deploy"]}.
  split; [vm_compute; reflexivity|]. vm_compute. eauto.
Defined.

(** X5.  An entry the registry hands out names a key and exactly one of a
    ConfigMap and a Secret.  A script loaded through it is read in the
    loader's own namespace, from the object and the key the entry names,
    and its source is of kind registry. *)
Theorem registry_entry
        (unmarshalRegistry : string -> option Script.RegistryData)
        (o : K8s.Objects) (namespace scriptID : string)
        (entry : Script.RegistryEntry) :
  Script.getEntry unmarshalRegistry o namespace scriptID = Ok entry ->
  Script.EntryKey entry <> ""
  /\ ((Script.ConfigMap entry <> "" /\ Script.Secret entry = "")
      \/ (Script.ConfigMap entry = "" /\ Script.Secret entry <> ""))
  /\ forall content src,
      Script.LoadByID unmarshalRegistry o namespace scriptID = Ok (content, src) ->
      src = Script.mkSource Script.SourceRegistry content ""
              (if Strings.is_empty (Script.ConfigMap entry)
               then Script.Secret entry else Script.ConfigMap entry)
              (Script.EntryKey entry) namespace
      /\ (if Strings.is_empty (Script.ConfigMap entry)
          then K8s.secrets o !! (namespace, Script.Secret entry)
          else K8s.configmaps o !! (namespace, Script.ConfigMap entry))
           ≫= (.!! Script.EntryKey entry) = Some content.
Proof.
  intros He.
  assert (Hshape : Script.EntryKey entry <> ""
                   /\ ((Script.ConfigMap entry <> "" /\ Script.Secret entry = "")
                       \/ (Script.ConfigMap entry = ""
                           /\ Script.Secret entry <> ""))).
  { unfold Script.getEntry in He. apply bind_Ok in He.
    destruct He as (cm & _ & He).
    destruct (cm !! "registry.yaml") as [yaml|]; [|discriminate].
    destruct (unmarshalRegistry yaml) as [data|]; [|discriminate].
    destruct (data !! scriptID) as [e|]; [|discriminate].
    destruct (Strings.is_empty (Script.ConfigMap e)) eqn:Ec;
      destruct (Strings.is_empty (Script.Secret e)) eqn:Es;
      destruct (Strings.is_empty (Script.EntryKey e)) eqn:Ek;
      cbn [andb orb negb] in He; try discriminate;
      inversion He; subst e;
      repeat match goal with
             | H : Strings.is_empty _ = true |- _ =>
                 apply (proj1 (is_empty_true _)) in H
             | H : Strings.is_empty _ = false |- _ =>
                 apply (proj1 (is_empty_false _)) in H
             end;
      (split; [assumption|]);
      first [left; split; assumption | right; split; assumption]. }
  split; [exact (proj1 Hshape)|]. split; [exact (proj2 Hshape)|].
  intros content src H. unfold Script.LoadByID in H. rewrite He in H.
  cbn [bind] in H.
  destruct (Strings.is_empty (Script.ConfigMap entry)) eqn:Ec; cbn [negb] in H.
  - destruct (Strings.is_empty (Script.Secret entry)) eqn:Es; cbn [negb] in H;
      [discriminate|].
    apply bind_Ok in H. destruct H as (c & Hl & H). inversion H; subst.
    split; [reflexivity|].
    unfold Script.loadFromSecret, K8s.GetSecret in Hl.
    destruct (K8s.secrets o !! (namespace, Script.Secret entry)) as [data|];
      [|discriminate].
    cbn [bind] in Hl. cbn [mbind option_bind].
    destruct (data !! Script.EntryKey entry); inversion Hl. reflexivity.
  - apply bind_Ok in H. destruct H as (c & Hl & H). inversion H; subst.
    split; [reflexivity|].
    unfold Script.loadFromConfigMap, K8s.GetConfigMap in Hl.
    destruct (K8s.configmaps o !! (namespace, Script.ConfigMap entry)) as [data|];
      [|discriminate].
    cbn [bind] in Hl. cbn [mbind option_bind].
    destruct (data !! Script.EntryKey entry); inversion Hl. reflexivity.
Qed.

Lemma registry_entry_witness :
  Script.getEntry Cases.readRegistry Cases.bundle Cases.ns "cleanup"
  = Ok (Script.mkRegistryEntry "tools" "" "hello.sh")
  /\ Script.EntryKey (Script.mkRegistryEntry "tools" "" "hello.sh") <> "".
Proof.
  assert (H : Script.getEntry Cases.readRegistry Cases.bundle Cases.ns "cleanup"
              = Ok (Script.mkRegistryEntry "tools" "" "hello.sh"))
    by (vm_compute; reflexivity).
  split; [exact H|].
  exact (proj1 (registry_entry Cases.readRegistry Cases.bundle Cases.ns
                  "cleanup" _ H)).
Defined.

(** ** The script validator: what it reports, wildcards, and what the
    scanner leaves unread *)

Section BlockedFacts.

Import Security.

Lemma Validate_blocked (v : ScriptValidator) (ro : RangeOrder)
      (script bad : string) :
  Z.of_nat (String.length script) <= maxSize v ->
  Claims.lineCount script <= maxLines v ->
  is_Some (commandSet script !! bad) ->
  isBlocked v bad = true ->
  exists cmd,
    Validate v ro script = Err (BlockedCommand cmd)
    /\ is_Some (commandSet script !! cmd)
    /\ isBlocked v cmd = true.
Proof.
  intros Hsize Hlines Hin Hbad.
  unfold Validate, Claims.lineCount in *.
  apply Z.ltb_ge in Hsize. rewrite Hsize.
  apply Z.ltb_ge in Hlines. rewrite Hlines.
  destruct (find (isBlocked v) (extractCommands ro script)) as [cmd|] eqn:F.
  - apply find_some in F. destruct F as [Hc Hb].
    exists cmd. split; [reflexivity|]. split; [|exact Hb].
    apply (elem_of_extractCommands ro), list_elem_of_In, Hc.
  - rewrite find_None_iff in F.
    rewrite (F bad) in Hbad; [discriminate|].
    apply elem_of_extractCommands, Hin.
Qed.

End BlockedFacts.

(** X6.  Within the size and the line cap, a script one of whose commands
    matches a blocked pattern is rejected, whatever the allow-list and the
    order in which the commands are visited; the command the error names
    is one the script runs and the list blocks. *)
Theorem Validate_reports_blocked
        (v : Security.ScriptValidator) (ro : RangeOrder) (script : string) :
  Z.of_nat (String.length script) <= Security.maxSize v ->
  Claims.lineCount script <= Security.maxLines v ->
  (exists cmd, is_Some (Security.commandSet script !! cmd)
               /\ Security.isBlocked v cmd = true) ->
  exists cmd,
    Security.Validate v ro script = Err (Security.BlockedCommand cmd)
    /\ is_Some (Security.commandSet script !! cmd)
    /\ Security.isBlocked v cmd = true.
Proof.
  intros Hsize Hlines (bad & Hin & Hbad).
  exact (Validate_blocked v ro script bad Hsize Hlines Hin Hbad).
Qed.

Lemma Validate_reports_blocked_witness :
  Z.of_nat (String.length Samples.removal) <= Security.maxSize Samples.twoLines
  /\ Claims.lineCount Samples.removal <= Security.maxLines Samples.twoLines
  /\ exists cmd,
      Security.Validate Samples.twoLines descending Samples.removal
      = Err (Security.BlockedCommand cmd)
      /\ is_Some (Security.commandSet Samples.removal !! cmd)
      /\ Security.isBlocked Samples.twoLines cmd = true.
Proof.
  assert (H1 : Z.of_nat (String.length Samples.removal)
               <= Security.maxSize Samples.twoLines) by (vm_compute; discriminate).
  assert (H2 : Claims.lineCount Samples.removal
               <= Security.maxLines Samples.twoLines) by (vm_compute; discriminate).
  split; [exact H1|]. split; [exact H2|].
  apply (Validate_reports_blocked _ _ _ H1 H2).
  exists "rm". split; [vm_compute; eauto | vm_compute; reflexivity].
Defined.

Section Wildcards.

Local Arguments String.append !_ _ / : simpl nomatch.

Lemma length_append (a b : string) :
  String.length (a ++ b) = (String.length a + String.length b)%nat.
Proof. induction a; simpl; congruence. Qed.

Lemma drop_append (a b : string) : Strings.drop (String.length a) (a ++ b) = b.
Proof. induction a; simpl; [destruct b; reflexivity | assumption]. Qed.

Lemma take_append (a b : string) : Strings.take (String.length a) (a ++ b) = a.
Proof. induction a; simpl; [reflexivity | congruence]. Qed.

Lemma HasPrefix_append (a b : string) : Strings.HasPrefix (a ++ b) a = true.
Proof.
  induction a as [|c a IH]; simpl; [destruct b; reflexivity|].
  rewrite Ascii.eqb_refl. exact IH.
Qed.

Lemma HasSuffix_append (a b : string) : Strings.HasSuffix (a ++ b) b = true.
Proof.
  unfold Strings.HasSuffix. rewrite length_append.
  replace (String.length a + String.length b - String.length b)%nat
    with (String.length a) by lia.
  rewrite drop_append. apply andb_true_iff. split.
  - apply Nat.leb_le. lia.
  - apply Strings_eqb_eq. reflexivity.
Qed.

Lemma TrimSuffix_append (a b : string) : Strings.TrimSuffix (a ++ b) b = a.
Proof.
  unfold Strings.TrimSuffix. rewrite HasSuffix_append, length_append.
  replace (String.length a + String.length b - String.length b)%nat
    with (String.length a) by lia.
  apply take_append.
Qed.

End Wildcards.

(** X7.  A pattern that ends in a star matches exactly the commands that
    begin with what precedes the star; a pattern without a final star
    matches only the command equal to it. *)
Theorem matchesCommand_spec (cmd pattern : string) :
  (forall stem, pattern = stem ++ "*" ->
                Security.matchesCommand cmd pattern = Strings.HasPrefix cmd stem)
  /\ (Strings.HasSuffix pattern "*" = false ->
      Security.matchesCommand cmd pattern = Strings.eqb cmd pattern).
Proof.
  unfold Security.matchesCommand. split.
  - intros stem ->. rewrite HasSuffix_append, TrimSuffix_append.
    destruct (Strings.eqb cmd (stem ++ "*")) eqn:E; [|reflexivity].
    apply Strings_eqb_eq in E. subst cmd. symmetry. apply HasPrefix_append.
  - intros ->. destruct (Strings.eqb cmd pattern); reflexivity.
Qed.

Section Scanner.

Local Arguments String.append !_ _ / : simpl nomatch.

Lemma append_assoc (a b c : string) : (a ++ b) ++ c = a ++ (b ++ c).
Proof. induction a; simpl; congruence. Qed.

Lemma Split_nonempty (a : string) (sep : ascii) : Strings.Split a sep <> [].
Proof.
  destruct a as [|c a]; simpl; [discriminate|].
  destruct (Ascii.eqb c sep); [discriminate|].
  destruct (Strings.Split a sep); discriminate.
Qed.

Lemma Split_append_sep (a b : string) (sep : ascii) :
  Strings.Split (a ++ String sep b) sep
  = (Strings.Split a sep ++ Strings.Split b sep)%list.
Proof.
  induction a as [|c a IH]; simpl.
  - rewrite Ascii.eqb_refl. reflexivity.
  - destruct (Ascii.eqb c sep); rewrite IH; [reflexivity|].
    destruct (Strings.Split a sep) as [|p r] eqn:E; [|reflexivity].
    destruct (Split_nonempty _ _ E).
Qed.

Lemma Split_append_line (a long : string) (sep : ascii) :
  Strings.Split long sep = [long] ->
  exists l x, Strings.Split a sep = (l ++ [x])%list
              /\ Strings.Split (a ++ long) sep = (l ++ [(x ++ long)%string])%list.
Proof.
  intros Hl. induction a as [|c a (l & x & E1 & E2)]; simpl.
  - exists [], "". split; [reflexivity | exact Hl].
  - destruct (Ascii.eqb c sep).
    + exists ("" :: l), x. rewrite E1, E2. split; reflexivity.
    + rewrite E1, E2. destruct l as [|p l]; simpl.
      * exists [], (String c x). split; reflexivity.
      * exists (String c p :: l), x. split; reflexivity.
Qed.

Lemma dropLastEmpty_middle (l t : list string) (y : string) :
  y <> "" ->
  Security.dropLastEmpty (l ++ y :: t) = (l ++ y :: Security.dropLastEmpty t)%list.
Proof.
  intros Hy. induction l as [|a l IH]; simpl.
  - destruct y; [congruence|]. destruct t; reflexivity.
  - rewrite <- IH. destruct (l ++ y :: t)%list eqn:E.
    + destruct l; discriminate.
    + destruct a; reflexivity.
Qed.

Lemma scannable_stops (l t : list string) (y : string) :
  Security.MaxScanTokenSize <= Z.of_nat (String.length y) ->
  Security.scannable (l ++ y :: t) = Security.scannable l.
Proof.
  intros Hy. induction l as [|a l IH]; simpl.
  - apply Z.ltb_ge in Hy. rewrite Hy. reflexivity.
  - rewrite IH. reflexivity.
Qed.

Lemma ScanLines_stops (head long tail : string) :
  Strings.Split long Security.newline = [long] ->
  Security.MaxScanTokenSize <= Z.of_nat (String.length long) ->
  Security.ScanLines (head ++ long ++ String Security.newline tail)
  = Security.ScanLines (head ++ long).
Proof.
  intros Hl Hn. unfold Security.ScanLines.
  rewrite <- append_assoc, Split_append_sep.
  destruct (Split_append_line head long Security.newline Hl) as (l & x & _ & ->).
  assert (Hlen : Security.MaxScanTokenSize <= Z.of_nat (String.length (x ++ long))).
  { rewrite length_append. lia. }
  assert (Hy : x ++ long <> "").
  { intros E. rewrite E in Hlen. vm_compute in Hlen. apply Hlen. reflexivity. }
  rewrite <- app_assoc. simpl.
  rewrite !(dropLastEmpty_middle _ _ _ Hy), !(scannable_stops _ _ _ Hlen).
  reflexivity.
Qed.

Lemma Split_repeat (c sep : ascii) (n : nat) :
  Ascii.eqb c sep = false ->
  Strings.Split (string_of_list_ascii (repeat c n)) sep
  = [string_of_list_ascii (repeat c n)].
Proof.
  intros Hc. induction n as [|n IH]; simpl; [reflexivity|].
  rewrite Hc, IH. reflexivity.
Qed.

End Scanner.

(** X8.  The scanner gives up at a line of 65536 bytes or more and the
    validator does not look at the scanner's error: whatever follows
    such a line contributes no command, so a script that passes up to and
    including the long line passes with any tail that stays within the
    size and the line cap. *)
Theorem long_line_hides_the_rest
        (v : Security.ScriptValidator) (ro : RangeOrder)
        (head long tail : string) :
  Strings.Split long Security.newline = [long] ->
  Security.MaxScanTokenSize <= Z.of_nat (String.length long) ->
  let script := head ++ long ++ String Security.newline tail in
  Security.extractCommands ro script = Security.extractCommands ro (head ++ long)
  /\ (Z.of_nat (String.length script) <= Security.maxSize v ->
      Claims.lineCount script <= Security.maxLines v ->
      Security.Validate v ro (head ++ long) = Ok tt ->
      Security.Validate v ro script = Ok tt).
Proof.
  intros Hl Hn script.
  assert (E : Security.extractCommands ro script
              = Security.extractCommands ro (head ++ long)).
  { unfold Security.extractCommands, Security.commandSet, script.
    rewrite (ScanLines_stops _ _ _ Hl Hn). reflexivity. }
  split; [exact E|].
  intros Hsize Hlines. unfold Security.Validate, Claims.lineCount in *.
  apply Z.ltb_ge in Hsize. rewrite Hsize.
  apply Z.ltb_ge in Hlines. rewrite Hlines.
  rewrite E.
  destruct (_ <? Z.of_nat (String.length (head ++ long))); [discriminate|].
  destruct (_ <? Z.of_nat (length (Strings.Split (head ++ long) _)));
    [discriminate|].
  trivial.
Qed.

Lemma long_line_hides_the_rest_witness :
  Strings.Split Cases.padding Security.newline = [Cases.padding]
  /\ Security.MaxScanTokenSize <= Z.of_nat (String.length Cases.padding)
  /\ Security.Validate Samples.twoLines ascending
       ("echo start " ++ Cases.padding ++ String Security.newline "rm -rf /data")
     = Ok tt.
Proof.
  assert (H1 : Strings.Split Cases.padding Security.newline = [Cases.padding])
    by (unfold Cases.padding; apply Split_repeat; reflexivity).
  assert (H2 : Security.MaxScanTokenSize <= Z.of_nat (String.length Cases.padding))
    by (vm_compute; discriminate).
  split; [exact H1|]. split; [exact H2|].
  pose proof (long_line_hides_the_rest Samples.twoLines ascending
                "echo start " Cases.padding "rm -rf /data" H1 H2) as H.
  cbv zeta in H. destruct H as [_ H]. apply H.
  - vm_compute; discriminate.
  - vm_compute; discriminate.
  - vm_compute; reflexivity.
Defined.

(** ** The image validator and the image resolver *)

(** X9.  The image validator accepts an image exactly when no blocked
    pattern matches it and, if there is an approved list, some approved
    pattern does; a blocked match is reported even for an image that is
    also approved, and the error names a blocked pattern that matches. *)
Theorem image_Validate_spec (v : Image.Validator) (image : string) :
  (Image.Validate v image = Ok tt
   <-> (forall p, In p (Image.blocked v) -> Image.matches image p = false)
       /\ (Image.approved v = []
           \/ exists p, In p (Image.approved v) /\ Image.matches image p = true))
  /\ ((exists p, In p (Image.blocked v) /\ Image.matches image p = true) ->
      exists p, In p (Image.blocked v) /\ Image.matches image p = true
                /\ Image.Validate v image
                   = Err ("image " ++ image ++ " is blocked (matches " ++ p ++ ")")).
Proof.
  assert (Hv : Image.Validate v image
               = match find (Image.matches image) (Image.blocked v) with
                 | Some pattern =>
                     Err ("image " ++ image ++ " is blocked (matches "
                            ++ pattern ++ ")")
                 | None =>
                     match Image.approved v with
                     | [] => Ok tt
                     | _ => if existsb (Image.matches image) (Image.approved v)
                            then Ok tt
                            else Err ("image " ++ image ++ " is not in approved list")
                     end
                 end).
  { unfold Image.Validate.
    destruct (Image.approved v), (Image.blocked v); reflexivity. }
  rewrite Hv. clear Hv. split.
  - destruct (find (Image.matches image) (Image.blocked v)) as [p|] eqn:F.
    + apply find_some in F. destruct F as [Hin Hm]. split; [discriminate|].
      intros [Hb _]. rewrite (Hb p Hin) in Hm. discriminate.
    + assert (F' : forall p, In p (Image.blocked v)
                             -> Image.matches image p = false).
      { rewrite find_None_iff in F. intros p Hp.
        apply F, list_elem_of_In, Hp. }
      clear F. rename F' into F.
      destruct (Image.approved v) as [|a l] eqn:Ea.
      * split; [|reflexivity]. intros _. split; [exact F | left; reflexivity].
      * destruct (existsb (Image.matches image) (a :: l)) eqn:Ex.
        -- split; [|reflexivity]. intros _. split; [exact F|]. right.
           apply existsb_exists in Ex. exact Ex.
        -- split; [discriminate|]. intros [_ [Hn | Hex]]; [discriminate|].
           apply existsb_exists in Hex. congruence.
  - intros (p & Hin & Hm).
    destruct (find (Image.matches image) (Image.blocked v)) as [q|] eqn:F.
    + apply find_some in F. destruct F as [Hq Hmq]. exists q. auto.
    + rewrite find_None_iff in F.
      rewrite (F p) in Hm; [discriminate|]. apply list_elem_of_In, Hin.
Qed.

(** X10.  A resolver made by [NewResolver] never resolves to an empty
    pull policy: the request's policy is used when there is one, the
    configured default otherwise, and [IfNotPresent] when neither is
    set. *)
Theorem Resolve_pull_policy
        (unmarshalCatalog : string -> option (gmap string Image.CatalogEntry))
        (catalog : Image.Catalog) (defaults : Image.ResolverDefaults)
        (o : K8s.Objects) (image imageRef policy secret : string)
        (resolved : Image.ResolvedImage) :
  Image.Resolve unmarshalCatalog (Image.NewResolver catalog defaults) o
                image imageRef policy secret = Ok resolved ->
  Image.PullPolicy resolved
  = (if Strings.is_empty policy
     then if Strings.is_empty (Image.DefaultPullPolicy defaults)
          then "IfNotPresent" else Image.DefaultPullPolicy defaults
     else policy)
  /\ Image.PullPolicy resolved <> "".
Proof.
  intros H.
  assert (E : Image.DefaultPullPolicy
                (Image.defaults (Image.NewResolver catalog defaults))
              = if Strings.is_empty (Image.DefaultPullPolicy defaults)
                then "IfNotPresent" else Image.DefaultPullPolicy defaults).
  { unfold Image.NewResolver. cbn [Image.defaults].
    destruct (Strings.is_empty (Image.DefaultPullPolicy defaults)); reflexivity. }
  unfold Image.Resolve in H. rewrite E in H.
  apply bind_Ok in H. destruct H as (ip & _ & H).
  injection H as <-. cbn [Image.PullPolicy].
  split; [reflexivity|].
  destruct (Strings.is_empty policy) eqn:Ep.
  - destruct (Strings.is_empty (Image.DefaultPullPolicy defaults)) eqn:Ed;
      [discriminate|].
    apply is_empty_false in Ed. exact Ed.
  - apply is_empty_false in Ep. exact Ep.
Qed.

Lemma Resolve_pull_policy_witness :
  Image.PullPolicy (Image.mkResolvedImage "alpine:3.19" "regcred" "IfNotPresent")
  = "IfNotPresent"
  /\ Image.PullPolicy (Image.mkResolvedImage "alpine:3.19" "regcred" "IfNotPresent")
     <> "".
Proof.
  apply (Resolve_pull_policy (fun _ => None)
           (Image.mkCatalog Cases.ns "image-catalog")
           (Image.mkResolverDefaults "busybox" "regcred" "")
           Cases.bundle "alpine:3.19" "" "" "").
  reflexivity.
Defined.

(** X11.  When the request names an image, the resolver uses it as it is
    and never reads the catalog: the result is the same in every cluster,
    with every reading of the catalog and for every [image_ref], and a
    missing or unreadable catalog cannot make it fail. *)
Theorem Resolve_explicit_image
        (unmarshalCatalog : string -> option (gmap string Image.CatalogEntry))
        (r : Image.Resolver) (o : K8s.Objects)
        (image imageRef policy secret : string) :
  image <> "" ->
  exists resolved,
    Image.Resolve unmarshalCatalog r o image imageRef policy secret = Ok resolved
    /\ Image.Image resolved = image
    /\ Image.Resolve (fun _ => None) r (K8s.Build_Objects ∅ ∅)
                     image "" policy secret = Ok resolved.
Proof.
  intros Hi. apply is_empty_false in Hi.
  unfold Image.Resolve. rewrite Hi. cbn [negb bind fst snd].
  eexists. split; [reflexivity|]. split; reflexivity.
Qed.

Lemma Resolve_explicit_image_witness :
  exists resolved,
    Image.Resolve (fun _ => None)
      (Image.NewResolver (Image.mkCatalog Cases.ns "image-catalog")
         (Image.mkResolverDefaults "busybox" "regcred" ""))
      Cases.bundle "alpine:3.19" "tools" "" "" = Ok resolved
    /\ Image.Image resolved = "alpine:3.19"
    /\ Image.Resolve (fun _ => None)
         (Image.NewResolver (Image.mkCatalog Cases.ns "image-catalog")
            (Image.mkResolverDefaults "busybox" "regcred" ""))
         (K8s.Build_Objects ∅ ∅) "alpine:3.19" "" "" "" = Ok resolved.
Proof.
  apply Resolve_explicit_image. discriminate.
Defined.

(** ** The approval store and the checker beyond [Approve] *)

Section ApprovalMore.

Import Approval Claims.

Lemma status_eqb_refl (st : Status) : Strings.eqb st st = true.
Proof. apply Strings_eqb_eq. reflexivity. Qed.

(** What a lookup finds in a store whose record under the key is
    settled: approved or denied records are returned as they are, at
    any time. *)
Lemma cmGet_settled (name : string) (now : Time) (e st : string)
      (data : gmap string Request) (req : Request) :
  data !! recordKey e st = Some req ->
  Status_ req <> StatusPending ->
  cmGet name now e st (Some data) = (Ok req, Some data).
Proof.
  intros H Hs. rewrite (cmGet_found _ _ _ _ _ _ H).
  apply Strings_eqb_neq in Hs. rewrite Hs. reflexivity.
Qed.

(** The answer of [Check], read off the status stored under the key,
    and what the lookup leaves in the store. *)
Lemma Check_verdict (name : string) (c : Checker) (now : Time)
      (e st script scriptHash user : string) (approvers : list string)
      (s : ConfigMapData) :
  let status := Status_ <$> (s ≫= (.!! recordKey e st)) in
  exists a,
    @Check _ (ConfigMapStore name) c now e st script scriptHash approvers user s
    = (Ok (if decide (status = Some StatusApproved) then StatusApproved
           else if decide (status = Some StatusDenied) then StatusDenied
                else StatusPending), a)
    /\ (a = s
        \/ exists data req,
            s = Some data /\ data !! recordKey e st = Some req
            /\ Status_ req = StatusPending
            /\ a = Some (<[recordKey (ExecutionID req) (StepName req)
                          := withStatus req StatusExpired]> data)).
Proof.
  intros status. subst status.
  unfold Check. cbn [Get ConfigMapStore].
  destruct s as [data|]; cbn [mbind option_bind fmap option_fmap option_map].
  2:{ exists None. split; [reflexivity | left; reflexivity]. }
  destruct (data !! recordKey e st) as [req|] eqn:E.
  2:{ unfold cmGet. rewrite E. exists (Some data).
      split; [reflexivity | left; reflexivity]. }
  rewrite (cmGet_found name now _ _ _ _ E).
  cbn [fmap option_fmap option_map].
  destruct (Strings.eqb (Status_ req) StatusPending) eqn:Ep.
  - apply Strings_eqb_eq in Ep.
    rewrite !decide_False by (rewrite Ep; discriminate).
    destruct (overdue now req); cbn [andb].
    + eexists. split; [reflexivity|]. right. exists data, req.
      split; [reflexivity|]. split; [exact E|]. split; [exact Ep | reflexivity].
    + rewrite Ep. eexists. split; [reflexivity | left; reflexivity].
  - cbn [andb]. exists (Some data). split; [|left; reflexivity].
    destruct (Strings.eqb (Status_ req) StatusApproved) eqn:Ea.
    { apply Strings_eqb_eq in Ea.
      rewrite decide_True by congruence. reflexivity. }
    apply Strings_eqb_neq in Ea. rewrite decide_False by congruence.
    destruct (Strings.eqb (Status_ req) StatusDenied) eqn:Ed.
    { apply Strings_eqb_eq in Ed.
      rewrite decide_True by congruence. reflexivity. }
    apply Strings_eqb_neq in Ed. rewrite decide_False by congruence.
    rewrite Ep.
    destruct (Strings.eqb (Status_ req) StatusExpired); reflexivity.
Qed.

(** What [CreateRequest] leaves in the ConfigMap store. *)
Lemma CreateRequest_writes (name : string) (c : Checker) (now : Time)
      (e st runbookID user script scriptHash : string)
      (approvers : list string) (s : ConfigMapData) :
  @CreateRequest _ (ConfigMapStore name) c now e st runbookID user script
                 scriptHash approvers s
  = (Ok tt,
     Some (<[recordKey e st
             := mkRequest (e ++ "-" ++ st ++ "-" ++ Strings.itoa now)
                  e st runbookID user script scriptHash
                  (match approvers with
                   | [] => defaultApprovers c
                   | _ => approvers
                   end)
                  StatusPending "" zeroTime "" zeroTime ""
                  now (now + 24 * Time.Hour)]>
             (default ∅ s))).
Proof. destruct s; reflexivity. Qed.

End ApprovalMore.

(** X12.  [CreateRequest] on the ConfigMap store always succeeds, also
    when the ConfigMap does not exist yet, and leaves every other record
    alone.  A lookup within twenty-four hours returns the record it
    wrote: pending, created at the time of the call, expiring a day
    later, with the request's approvers or, when the request names
    none, the checker's defaults.  Whatever was stored under the key
    before, an approved record included, is replaced. *)
Theorem CreateRequest_then_Get
        (name : string) (c : Approval.Checker) (now later : Approval.Time)
        (executionID stepName runbookID user script scriptHash : string)
        (approvers : list string) (s : Approval.ConfigMapData) :
  later <= now + 24 * Time.Hour ->
  let store := Approval.ConfigMapStore name in
  let r := @Approval.CreateRequest _ store c now executionID stepName runbookID
             user script scriptHash approvers s in
  let written :=
    Approval.mkRequest
      (executionID ++ "-" ++ stepName ++ "-" ++ Strings.itoa now)
      executionID stepName runbookID user script scriptHash
      (match approvers with
       | [] => Approval.defaultApprovers c
       | _ => approvers
       end)
      Approval.StatusPending "" Approval.zeroTime "" Approval.zeroTime ""
      now (now + 24 * Time.Hour) in
  fst r = Ok tt
  /\ @Approval.Get _ store later executionID stepName (snd r)
     = (Ok written, snd r)
  /\ (forall key, key <> Approval.recordKey executionID stepName ->
                  (snd r ≫= (.!! key)) = (s ≫= (.!! key))).
Proof.
  intros Hlater store r written. subst r store.
  unfold Approval.CreateRequest.
  cbn [Approval.Create Approval.Get Approval.ConfigMapStore].
  unfold Approval.cmCreate.
  cbn [fst snd Approval.ExecutionID Approval.StepName Approval.RunbookID
       Approval.User Approval.Script Approval.ScriptHash Approval.Approvers
       Approval.ApprovedBy Approval.ApprovedAt Approval.DeniedBy
       Approval.DeniedAt Approval.DenialReason].
  fold written.
  split; [reflexivity|]. split.
  - rewrite (cmGet_found name later executionID stepName _ written)
      by apply lookup_insert_eq.
    unfold Claims.overdue. subst written. cbn [Approval.ExpiresAt].
    apply Z.ltb_ge in Hlater. rewrite Hlater, andb_false_r. reflexivity.
  - intros key Hk. cbn [mbind option_bind].
    rewrite lookup_insert_ne by congruence.
    destruct s; [reflexivity|]. cbn. apply lookup_empty.
Qed.

Lemma CreateRequest_then_Get_witness :
  let store := Approval.ConfigMapStore "script-approvals" in
  let r := @Approval.CreateRequest _ store Samples.checker 1000 "e1" "deploy"
             "rb-7" "bob" "echo hello" "" [] None in
  fst r = Ok tt
  /\ @Approval.Get _ store Samples.inTime "e1" "deploy" (snd r)
     = (Ok (Approval.mkRequest "e1-deploy-1000" "e1" "deploy" "rb-7" "bob"
              "echo hello" "" ["sre-leads"] Approval.StatusPending
              "" Approval.zeroTime "" Approval.zeroTime ""
              1000 (1000 + 24 * Time.Hour)),
        snd r)
  /\ (forall key, key <> Approval.recordKey "e1" "deploy" ->
                  (snd r ≫= (.!! key)) = ((None : Approval.ConfigMapData) ≫= (.!! key))).
Proof.
  apply (CreateRequest_then_Get "script-approvals" Samples.checker 1000
           Samples.inTime "e1" "deploy" "rb-7" "bob" "echo hello" "" [] None).
  vm_compute. discriminate.
Defined.

(** X13.  An authorized approver who approves a pending record in time
    leaves the record approved, under that name and with the time of the
    call, and changes nothing else in the store.  From then on [Check]
    answers approved at any later time, also after the record's expiry
    time, and every further [Approve] or [Deny] fails with the status
    error and leaves the store alone. *)
Theorem Approve_effect
        (name : string) (c : Approval.Checker) (now : Approval.Time)
        (executionID stepName approver : string)
        (data : gmap string Approval.Request) (req : Approval.Request) :
  data !! Approval.recordKey executionID stepName = Some req ->
  Approval.recordKey (Approval.ExecutionID req) (Approval.StepName req)
  = Approval.recordKey executionID stepName ->
  Approval.Status_ req = Approval.StatusPending ->
  Claims.overdue now req = false ->
  Approval.contains (Approval.Approvers req) approver = true ->
  let store := Approval.ConfigMapStore name in
  let approved :=
    Approval.mkRequest
      (Approval.ID req) (Approval.ExecutionID req) (Approval.StepName req)
      (Approval.RunbookID req) (Approval.User req) (Approval.Script req)
      (Approval.ScriptHash req) (Approval.Approvers req)
      Approval.StatusApproved approver now
      (Approval.DeniedBy req) (Approval.DeniedAt req) (Approval.DenialReason req)
      (Approval.CreatedAt req) (Approval.ExpiresAt req) in
  let after :=
    Some (<[Approval.recordKey executionID stepName := approved]> data) in
  @Approval.Approve _ store c now executionID stepName approver (Some data)
  = (Ok tt, after)
  /\ (forall later script scriptHash approvers user,
         @Approval.Check _ store c later executionID stepName script scriptHash
                         approvers user after
         = (Ok Approval.StatusApproved, after))
  /\ (forall later who,
         @Approval.Approve _ store c later executionID stepName who after
         = (Err (Approval.NotPending "approve" Approval.StatusApproved), after))
  /\ (forall later who why,
         @Approval.Deny _ store c later executionID stepName who why after
         = (Err (Approval.NotPending "deny" Approval.StatusApproved), after)).
Proof.
  intros Hreq Hkey Hst Hdue Hauth store approved after.
  assert (Hget : forall later,
             Approval.cmGet name later executionID stepName after
             = (Ok approved, after)).
  { intros later. apply cmGet_settled; [apply lookup_insert_eq | discriminate]. }
  subst store. unfold Approval.Approve, Approval.Check, Approval.Deny.
  cbn [Approval.Get Approval.Update Approval.ConfigMapStore].
  split; [|split; [|split]].
  - rewrite (cmGet_found name now _ _ _ _ Hreq), Hdue, andb_false_r.
    rewrite Hst, status_eqb_refl, Hauth. cbn [negb].
    unfold Approval.cmUpdate.
    cbn [Approval.ExecutionID Approval.StepName]. rewrite Hkey. reflexivity.
  - intros. rewrite Hget. reflexivity.
  - intros. rewrite Hget. reflexivity.
  - intros. rewrite Hget. reflexivity.
Qed.

Lemma Approve_effect_witness :
  let store := Approval.ConfigMapStore "script-approvals" in
  exists after,
    @Approval.Approve _ store Samples.checker Samples.inTime "e1" "deploy" "Alice"
                      Samples.approvalStore
    = (Ok tt, after)
    /\ (forall later script scriptHash approvers user,
           @Approval.Check _ store Samples.checker later "e1" "deploy" script
                           scriptHash approvers user after
           = (Ok Approval.StatusApproved, after))
    /\ (forall later who,
           @Approval.Approve _ store Samples.checker later "e1" "deploy" who after
           = (Err (Approval.NotPending "approve" Approval.StatusApproved), after))
    /\ (forall later who why,
           @Approval.Deny _ store Samples.checker later "e1" "deploy" who why after
           = (Err (Approval.NotPending "deny" Approval.StatusApproved), after)).
Proof.
  eexists.
  apply (Approve_effect "script-approvals" Samples.checker Samples.inTime
           "e1" "deploy" "Alice" _ Samples.awaiting).
  - apply lookup_singleton_eq.
  - reflexivity.
  - reflexivity.
  - vm_compute. reflexivity.
  - vm_compute. reflexivity.
Defined.

(** X14.  [Deny] on a stored record: an authorized denier who acts on a
    pending record in time leaves it denied, with that name, the time and
    the reason, after which [Check] answers denied; a record that is not
    pending, or a user who is not among the approvers, gets an error and
    the store is left alone; an overdue pending record is rewritten to
    expired and the denial fails. *)
Theorem Deny_spec
        (name : string) (c : Approval.Checker) (now : Approval.Time)
        (executionID stepName denier reason : string)
        (data : gmap string Approval.Request) (req : Approval.Request) :
  data !! Approval.recordKey executionID stepName = Some req ->
  Approval.recordKey (Approval.ExecutionID req) (Approval.StepName req)
  = Approval.recordKey executionID stepName ->
  let store := Approval.ConfigMapStore name in
  let r := @Approval.Deny _ store c now executionID stepName denier reason
             (Some data) in
  let denied :=
    Approval.mkRequest
      (Approval.ID req) (Approval.ExecutionID req) (Approval.StepName req)
      (Approval.RunbookID req) (Approval.User req) (Approval.Script req)
      (Approval.ScriptHash req) (Approval.Approvers req)
      Approval.StatusDenied (Approval.ApprovedBy req) (Approval.ApprovedAt req)
      denier now reason (Approval.CreatedAt req) (Approval.ExpiresAt req) in
  (Approval.Status_ req = Approval.StatusPending ->
   Claims.overdue now req = false ->
   Approval.contains (Approval.Approvers req) denier = true ->
   r = (Ok tt, Some (<[Approval.recordKey executionID stepName := denied]> data))
   /\ forall later script scriptHash approvers user,
       fst (@Approval.Check _ store c later executionID stepName script
                            scriptHash approvers user (snd r))
       = Ok Approval.StatusDenied)
  /\ (Approval.Status_ req <> Approval.StatusPending ->
      r = (Err (Approval.NotPending "deny" (Approval.Status_ req)), Some data))
  /\ (Approval.Status_ req = Approval.StatusPending ->
      Claims.overdue now req = false ->
      Approval.contains (Approval.Approvers req) denier = false ->
      r = (Err (Approval.Unauthorized denier "deny"), Some data))
  /\ (Approval.Status_ req = Approval.StatusPending ->
      Claims.overdue now req = true ->
      r = (Err (Approval.NotPending "deny" Approval.StatusExpired),
           Some (<[Approval.recordKey executionID stepName
                   := Approval.withStatus req Approval.StatusExpired]> data))).
Proof.
  intros Hreq Hkey store r denied.
  pose proof (cmGet_found name now _ _ _ _ Hreq) as Hget. rewrite Hkey in Hget.
  split; [|subst r store; unfold Approval.Deny;
           cbn [Approval.Get Approval.Update Approval.ConfigMapStore];
           rewrite Hget; split; [|split]].
  - intros Hst Hdue Hauth.
    assert (Hr : r = (Ok tt, Some (<[Approval.recordKey executionID stepName
                                      := denied]> data))).
    { subst r store. unfold Approval.Deny.
      cbn [Approval.Get Approval.Update Approval.ConfigMapStore].
      rewrite Hget, Hdue, andb_false_r.
      rewrite Hst, status_eqb_refl, Hauth. cbn [negb].
      unfold Approval.cmUpdate.
      cbn [Approval.ExecutionID Approval.StepName]. rewrite Hkey. reflexivity. }
    split; [exact Hr|]. intros. rewrite Hr. cbn [snd].
    subst store. unfold Approval.Check.
    cbn [Approval.Get Approval.ConfigMapStore].
    rewrite (cmGet_settled name later _ _ _ denied);
      [reflexivity | apply lookup_insert_eq | discriminate].
  - intros Hst. pose proof Hst as Hne. apply Strings_eqb_neq in Hne.
    rewrite Hne. cbn [andb negb]. rewrite Hne. reflexivity.
  - intros Hst Hdue Hauth. rewrite Hdue, andb_false_r.
    rewrite Hst, status_eqb_refl, Hauth. reflexivity.
  - intros Hst Hdue. rewrite Hdue, Hst, status_eqb_refl. reflexivity.
Qed.

Lemma Deny_spec_witness :
  let store := Approval.ConfigMapStore "script-approvals" in
  let r := @Approval.Deny _ store Samples.checker Samples.inTime "e1" "deploy"
             "alice" "not during the freeze" Samples.approvalStore in
  fst r = Ok tt
  /\ forall later script scriptHash approvers user,
      fst (@Approval.Check _ store Samples.checker later "e1" "deploy" script
                           scriptHash approvers user (snd r))
      = Ok Approval.StatusDenied.
Proof.
  cbv zeta.
  destruct (proj1 (Deny_spec "script-approvals" Samples.checker Samples.inTime
                     "e1" "deploy" "alice" "not during the freeze"
                     {[Approval.recordKey "e1" "deploy" := Samples.awaiting]}
                     Samples.awaiting (lookup_singleton_eq _ _) eq_refl)
                  eq_refl eq_refl eq_refl) as [Hr Hc].
  split; [|exact Hc].
  unfold Samples.approvalStore. rewrite Hr. reflexivity.
Defined.

(** X15.  [Check] on the ConfigMap store never fails.  It answers
    approved exactly when the record stored under the key is approved
    and denied exactly when it is denied, at any time; in every other
    case, a missing ConfigMap, a missing record, an expired, overdue or
    unknown status, it answers pending. *)
Theorem Check_answers
        (name : string) (c : Approval.Checker) (now : Approval.Time)
        (executionID stepName script scriptHash user : string)
        (approvers : list string) (s : Approval.ConfigMapData) :
  let status :=
    Approval.Status_ <$> (s ≫= (.!! Approval.recordKey executionID stepName)) in
  exists answer,
    fst (@Approval.Check _ (Approval.ConfigMapStore name) c now executionID
                         stepName script scriptHash approvers user s)
    = Ok answer
    /\ (answer = Approval.StatusApproved <-> status = Some Approval.StatusApproved)
    /\ (answer = Approval.StatusDenied <-> status = Some Approval.StatusDenied)
    /\ (answer <> Approval.StatusApproved -> answer <> Approval.StatusDenied ->
        answer = Approval.StatusPending).
Proof.
  intros status.
  destruct (Check_verdict name c now executionID stepName script scriptHash
              user approvers s) as (a & Hc & _).
  fold status in Hc. rewrite Hc. cbn [fst]. eexists. split; [reflexivity|].
  destruct (decide (status = Some Approval.StatusApproved)) as [Ha|Ha].
  { rewrite Ha. repeat split; try congruence; discriminate. }
  destruct (decide (status = Some Approval.StatusDenied)) as [Hd|Hd].
  { rewrite Hd. repeat split; try congruence; discriminate. }
  repeat split; try congruence; try discriminate; intros; contradiction.
Qed.

(** X16.  The store's key joins the execution id and the step name with
    a hyphen, so ids and names that contain hyphens can share a key:
    execution [a-b] with step [c] and execution [a] with step [b-c] read
    and write the same record.  [Get], [Check] and [Approve] give the
    same result for both in every store. *)
Theorem approval_key_is_ambiguous
        (name : string) (c : Approval.Checker) (now : Approval.Time)
        (a b step : string) (s : Approval.ConfigMapData) :
  let store := Approval.ConfigMapStore name in
  Approval.recordKey (a ++ "-" ++ b) step = Approval.recordKey a (b ++ "-" ++ step)
  /\ @Approval.Get _ store now (a ++ "-" ++ b) step s
     = @Approval.Get _ store now a (b ++ "-" ++ step) s
  /\ (forall script scriptHash approvers user,
         @Approval.Check _ store c now (a ++ "-" ++ b) step script scriptHash
                         approvers user s
         = @Approval.Check _ store c now a (b ++ "-" ++ step) script scriptHash
                           approvers user s)
  /\ (forall approver,
         @Approval.Approve _ store c now (a ++ "-" ++ b) step approver s
         = @Approval.Approve _ store c now a (b ++ "-" ++ step) approver s).
Proof.
  intros store.
  assert (K : Approval.recordKey (a ++ "-" ++ b) step
              = Approval.recordKey a (b ++ "-" ++ step)).
  { unfold Approval.recordKey. rewrite !append_assoc. reflexivity. }
  assert (G : @Approval.Get _ store now (a ++ "-" ++ b) step s
              = @Approval.Get _ store now a (b ++ "-" ++ step) s).
  { subst store. cbn [Approval.Get Approval.ConfigMapStore].
    unfold Approval.cmGet. rewrite K. reflexivity. }
  split; [exact K|]. split; [exact G|].
  split; intros; unfold Approval.Check, Approval.Approve; rewrite G; reflexivity.
Qed.

(** ** [Execute] with the approval subsystem enabled *)

Section GateFacts.

Import Manager Claims.

Lemma withApprovals_same (w : World) : withApprovals (approvals w) w = w.
Proof. destruct w; reflexivity. Qed.

(** The gate of a manager that has a checker, for a request that asks
    for approval: the three ways it can go, by the status stored under
    the key of the step. *)
Lemma gate_enabled (m : t) (p : Platform) (w : World) (params : option Struct)
      (checker : Approval.Checker)
      (executionID user runbookID content hash : string) :
  approval m = Some checker ->
  Params.getBool params "approval_required" = true ->
  let stepName := Params.getString params "step_name" "default" in
  let key := Approval.recordKey executionID stepName in
  let status := Approval.Status_ <$> (approvals w ≫= (.!! key)) in
  let g := gate m p w params executionID user runbookID content hash in
  let asked := called (ApprovalGet executionID stepName) w in
  (status = Some Approval.StatusApproved -> g = (None, asked))
  /\ (status = Some Approval.StatusDenied ->
      g = (Some (Ok (errorResponse p "execution was denied")), asked))
  /\ (status <> Some Approval.StatusApproved ->
      status <> Some Approval.StatusDenied ->
      exists rest,
        g = (Some (Ok (mkExecuteResponse STATUS_PENDING None "Awaiting approval"
                         (elapsed p))),
             mkWorld (objects w)
               (Some (<[key
                       := Approval.mkRequest
                            (executionID ++ "-" ++ stepName ++ "-"
                               ++ Strings.itoa (unixNano p))
                            executionID stepName runbookID user content hash
                            (match
                                match default [] (Params.getStringSlice params
                                                    "approvers") with
                                | [] => ApprovalConfig.DefaultApprovers
                                          (ScriptExecutorConfig.Approval
                                             (Config.ScriptExecutor (config m)))
                                | l => l
                                end
                              with
                              | [] => Approval.defaultApprovers checker
                              | l => l
                              end)
                            Approval.StatusPending
                            "" Approval.zeroTime "" Approval.zeroTime ""
                            (unixNano p) (unixNano p + 24 * Time.Hour)]> rest))
               (jobs w) (audit w)
               (calls w ++ [ApprovalGet executionID stepName;
                            ApprovalCreate executionID stepName]))).
Proof.
  intros Hm Hflag stepName key status g asked.
  subst g. unfold gate. rewrite Hm, Hflag. fold stepName.
  cbn [called approvals].
  set (approvers := match default [] (Params.getStringSlice params "approvers")
                    with [] => _ | l => l end).
  destruct (Check_verdict
              (ApprovalStorageConfig.ConfigMapName
                 (ApprovalConfig.Storage
                    (ScriptExecutorConfig.Approval
                       (Config.ScriptExecutor (config m)))))
              checker (unixNano p) executionID stepName content hash user
              approvers (approvals w)) as (a & Hc & Ha).
  fold key in Hc, Ha. fold status in Hc.
  unfold store. rewrite Hc. clear Hc.
  assert (Hsettled : status <> None ->
                     (forall req, approvals w ≫= (.!! key) = Some req ->
                                  Approval.Status_ req <> Approval.StatusPending) ->
                     a = approvals w).
  { intros _ Hnp. destruct Ha as [Ha | (data & req & Hs & Hk & Hst & _)];
      [exact Ha|].
    exfalso. apply (Hnp req); [|exact Hst]. rewrite Hs. exact Hk. }
  split; [|split].
  - intros Hs. rewrite decide_True by exact Hs.
    change (Strings.eqb Approval.StatusApproved Approval.StatusPending) with false.
    change (Strings.eqb Approval.StatusApproved Approval.StatusDenied) with false.
    cbv iota. rewrite Hsettled.
    + unfold withApprovals, asked, called. destruct w; reflexivity.
    + rewrite Hs. discriminate.
    + intros req Hr. unfold status in Hs. rewrite Hr in Hs.
      injection Hs as ->. discriminate.
  - intros Hs.
    rewrite decide_False by (rewrite Hs; discriminate).
    rewrite decide_True by exact Hs.
    change (Strings.eqb Approval.StatusDenied Approval.StatusPending) with false.
    change (Strings.eqb Approval.StatusDenied Approval.StatusDenied) with true.
    cbv iota. rewrite Hsettled.
    + unfold withApprovals, asked, called. destruct w; reflexivity.
    + rewrite Hs. discriminate.
    + intros req Hr. unfold status in Hs. rewrite Hr in Hs.
      injection Hs as ->. discriminate.
  - intros H1 H2. rewrite !decide_False by assumption.
    change (Strings.eqb Approval.StatusPending Approval.StatusPending) with true.
    cbv iota. cbn [withApprovals called approvals objects jobs audit calls].
    rewrite CreateRequest_writes. fold key.
    exists (default ∅ a). unfold withApprovals, called.
    cbn [approvals objects jobs audit calls].
    rewrite <- app_assoc. destruct approvers; reflexivity.
Qed.

(** Steps 1 to 5 touch nothing: a request that fails there leaves the
    world as it was. *)
Lemma Execute_prepare_failed (m : t) (p : Platform) (w : World)
      (req : ExecuteRequest) (e : string) :
  prepare m p w (paramsOf req) = Err e ->
  Execute m p w req = (Ok (errorResponse p e), w).
Proof. unfold Execute, paramsOf. intros ->. reflexivity. Qed.

End GateFacts.

(** X17.  With the approval subsystem enabled, a request that asks for
    approval never reaches the cluster unless the record stored for its
    execution and step is approved: no job is created, nothing is waited
    for, nothing is written to the audit log, the only calls made are on
    the approval store, and the answer is never a success and carries no
    output.  This holds whatever the script, the image and the rest of
    the request are. *)
Theorem no_workload_without_approval
        (m : Manager.t) (p : Manager.Platform) (w : Manager.World)
        (req : Manager.ExecuteRequest) (checker : Approval.Checker) :
  Manager.approval m = Some checker ->
  Params.getBool (Claims.paramsOf req) "approval_required" = true ->
  Approval.Status_
    <$> (Manager.approvals w
           ≫= (.!! Approval.recordKey
                     (Manager.executionIDOf p (Claims.inboundOf req))
                     (Params.getString (Claims.paramsOf req) "step_name"
                                       "default")))
  <> Some Approval.StatusApproved ->
  let out := Manager.Execute m p w req in
  Manager.jobs (snd out) = Manager.jobs w
  /\ Manager.audit (snd out) = Manager.audit w
  /\ (exists new,
         Manager.calls (snd out) = (Manager.calls w ++ new)%list
         /\ Forall (fun c => Claims.isApprovalCall c = true) new)
  /\ (forall resp,
         fst out = Ok resp ->
         Manager.Status resp <> Manager.STATUS_SUCCEEDED
         /\ Manager.Output resp = None).
Proof.
  intros Hm Hflag Hstatus out. subst out.
  unfold Manager.Execute. fold (Claims.paramsOf req) (Claims.inboundOf req).
  destruct (Manager.prepare m p w (Claims.paramsOf req))
    as [[[[content source] hash] resolved]|e|e].
  - destruct (gate_enabled m p w (Claims.paramsOf req) checker
                (Manager.executionIDOf p (Claims.inboundOf req))
                (Execution.PbUser (Claims.inboundOf req))
                (Execution.RunbookId (Claims.inboundOf req))
                content hash Hm Hflag) as (_ & Hd & Hp).
    match type of Hd with
    | ?s = _ -> _ => destruct (decide (s = Some Approval.StatusDenied)) as [D|D]
    end.
    + rewrite (Hd D). cbn [fst snd Manager.called Manager.jobs Manager.audit
                           Manager.calls].
      split; [reflexivity|]. split; [reflexivity|]. split.
      * eexists. split; [reflexivity|]. repeat constructor.
      * intros resp H. injection H as <-. split; [discriminate | reflexivity].
    + destruct (Hp Hstatus D) as (rest & ->).
      cbn [fst snd Manager.jobs Manager.audit Manager.calls].
      split; [reflexivity|]. split; [reflexivity|]. split.
      * eexists. split; [reflexivity|]. repeat constructor.
      * intros resp H. injection H as <-. split; [discriminate | reflexivity].
  - cbn [fst snd]. split; [reflexivity|]. split; [reflexivity|]. split.
    + exists []. rewrite app_nil_r. split; [reflexivity | constructor].
    + intros resp H. injection H as <-. split; [discriminate | reflexivity].
  - cbn [fst snd]. split; [reflexivity|]. split; [reflexivity|]. split.
    + exists []. rewrite app_nil_r. split; [reflexivity | constructor].
    + intros resp H. discriminate H.
Qed.

Lemma no_workload_without_approval_witness :
  let out := Manager.Execute (Manager.NewManager Samples.shipped true)
               Samples.platform (Cases.settled Approval.StatusExpired)
               (Samples.request Cases.gatedDeploy) in
  Manager.jobs (snd out) = ∅ /\ Manager.audit (snd out) = [].
Proof.
  pose proof (no_workload_without_approval
                (Manager.NewManager Samples.shipped true) Samples.platform
                (Cases.settled Approval.StatusExpired)
                (Samples.request Cases.gatedDeploy)
                (Approval.NewChecker
                   (ApprovalConfig.DefaultApprovers
                      (ScriptExecutorConfig.Approval
                         (Config.ScriptExecutor Samples.shipped))))) as H.
  cbv zeta in *.
  destruct H as (Hj & Ha & _).
  - reflexivity.
  - vm_compute. reflexivity.
  - vm_compute. discriminate.
  - split; [exact Hj | exact Ha].
Defined.

(** X18.  With the approval subsystem enabled, a request that asks for
    approval and passes the script and image checks, while the record
    of its step is neither approved nor denied, is answered PENDING with
    the text [Awaiting approval], and the store then holds a new pending
    record under the step's key: it carries the script and its hash, the
    user and the runbook of the request, is created at the time of the
    call and expires a day later.  A record that was there, pending or
    expired, is replaced, so asking again restarts the day. *)
Theorem Execute_pending
        (m : Manager.t) (p : Manager.Platform) (w : Manager.World)
        (req : Manager.ExecuteRequest) (checker : Approval.Checker)
        (content : string) (source : Script.Source) (hash : string)
        (resolved : Image.ResolvedImage) :
  Manager.approval m = Some checker ->
  Params.getBool (Claims.paramsOf req) "approval_required" = true ->
  Manager.prepare m p w (Claims.paramsOf req)
  = Ok (content, source, hash, resolved) ->
  let executionID := Manager.executionIDOf p (Claims.inboundOf req) in
  let stepName := Params.getString (Claims.paramsOf req) "step_name" "default" in
  let key := Approval.recordKey executionID stepName in
  let status := Approval.Status_ <$> (Manager.approvals w ≫= (.!! key)) in
  status <> Some Approval.StatusApproved ->
  status <> Some Approval.StatusDenied ->
  let out := Manager.Execute m p w req in
  fst out = Ok (Manager.mkExecuteResponse Manager.STATUS_PENDING None
                  "Awaiting approval" (Manager.elapsed p))
  /\ Manager.jobs (snd out) = Manager.jobs w
  /\ Manager.calls (snd out)
     = (Manager.calls w ++ [Manager.ApprovalGet executionID stepName;
                            Manager.ApprovalCreate executionID stepName])%list
  /\ exists record,
      Manager.approvals (snd out) ≫= (.!! key) = Some record
      /\ Approval.Status_ record = Approval.StatusPending
      /\ Approval.Script record = content
      /\ Approval.ScriptHash record = Manager.scriptHashOf content
      /\ Approval.User record = Execution.PbUser (Claims.inboundOf req)
      /\ Approval.RunbookID record = Execution.RunbookId (Claims.inboundOf req)
      /\ Approval.CreatedAt record = Manager.unixNano p
      /\ Approval.ExpiresAt record = Manager.unixNano p + 24 * Time.Hour
      /\ Approval.ApprovedBy record = "".
Proof.
  intros Hm Hflag Hprep executionID stepName key status H1 H2 out. subst out.
  destruct (prepare_Ok _ _ _ _ _ _ _ _ Hprep) as [_ Hhash].
  unfold Manager.Execute. fold (Claims.paramsOf req) (Claims.inboundOf req).
  rewrite Hprep.
  destruct (gate_enabled m p w (Claims.paramsOf req) checker executionID
              (Execution.PbUser (Claims.inboundOf req))
              (Execution.RunbookId (Claims.inboundOf req))
              content hash Hm Hflag) as (_ & _ & Hp).
  destruct (Hp H1 H2) as (rest & Hg).
  fold executionID. rewrite Hg.
  cbn [fst snd Manager.jobs Manager.calls Manager.approvals mbind option_bind].
  split; [reflexivity|]. split; [reflexivity|]. split; [reflexivity|].
  eexists. split; [apply lookup_insert_eq|].
  cbn [Approval.Status_ Approval.Script Approval.ScriptHash Approval.User
       Approval.RunbookID Approval.CreatedAt Approval.ExpiresAt
       Approval.ApprovedBy].
  repeat split; try reflexivity. exact Hhash.
Qed.

Lemma Execute_pending_witness :
  let out := Manager.Execute (Manager.NewManager Samples.shipped true)
               Samples.platform (Cases.settled Approval.StatusExpired)
               (Samples.request Cases.gatedDeploy) in
  fst out = Ok (Manager.mkExecuteResponse Manager.STATUS_PENDING None
                  "Awaiting approval" (Manager.elapsed Samples.platform))
  /\ Manager.jobs (snd out) = ∅.
Proof.
  pose proof (fun content source hash resolved =>
                Execute_pending
                  (Manager.NewManager Samples.shipped true) Samples.platform
                  (Cases.settled Approval.StatusExpired)
                  (Samples.request Cases.gatedDeploy)
                  (Approval.NewChecker
                     (ApprovalConfig.DefaultApprovers
                        (ScriptExecutorConfig.Approval
                           (Config.ScriptExecutor Samples.shipped))))
                  content source hash resolved eq_refl) as H.
  cbv zeta in *.
  edestruct H as (Hr & Hj & _).
  - vm_compute. reflexivity.
  - vm_compute. reflexivity.
  - vm_compute. discriminate.
  - vm_compute. discriminate.
  - split; [exact Hr | exact Hj].
Defined.

(** X19.  With the approval subsystem enabled, for a request that asks
    for approval and passes the script and image checks: when the
    record of its step is approved the request goes on to build and run
    the workload, and the script and the hash kept in the record are
    not compared with the script of the request; when the record is
    denied the answer is the failure [execution was denied] and nothing
    but the lookup has happened. *)
Theorem Execute_settled
        (m : Manager.t) (p : Manager.Platform) (w : Manager.World)
        (req : Manager.ExecuteRequest) (checker : Approval.Checker)
        (content : string) (source : Script.Source) (hash : string)
        (resolved : Image.ResolvedImage) :
  Manager.approval m = Some checker ->
  Params.getBool (Claims.paramsOf req) "approval_required" = true ->
  Manager.prepare m p w (Claims.paramsOf req)
  = Ok (content, source, hash, resolved) ->
  let executionID := Manager.executionIDOf p (Claims.inboundOf req) in
  let stepName := Params.getString (Claims.paramsOf req) "step_name" "default" in
  let status :=
    Approval.Status_
      <$> (Manager.approvals w ≫= (.!! Approval.recordKey executionID stepName)) in
  let asked := Manager.called (Manager.ApprovalGet executionID stepName) w in
  (status = Some Approval.StatusApproved ->
   Manager.Execute m p w req
   = Manager.run m p asked req (Claims.paramsOf req) (Claims.inboundOf req)
       executionID (Execution.PbUser (Claims.inboundOf req))
       (Execution.RunbookId (Claims.inboundOf req))
       content source hash resolved)
  /\ (status = Some Approval.StatusDenied ->
      Manager.Execute m p w req
      = (Ok (Manager.errorResponse p "execution was denied"), asked)).
Proof.
  intros Hm Hflag Hprep executionID stepName status asked.
  unfold Manager.Execute. fold (Claims.paramsOf req) (Claims.inboundOf req).
  rewrite Hprep.
  destruct (gate_enabled m p w (Claims.paramsOf req) checker executionID
              (Execution.PbUser (Claims.inboundOf req))
              (Execution.RunbookId (Claims.inboundOf req))
              content hash Hm Hflag) as (Ha & Hd & _).
  fold executionID.
  split; intros Hs; [rewrite (Ha Hs) | rewrite (Hd Hs)]; reflexivity.
Qed.

Lemma Execute_settled_witness :
  Manager.Execute (Manager.NewManager Samples.shipped true) Samples.platform
    (Cases.settled Approval.StatusDenied) (Samples.request Cases.gatedDeploy)
  = (Ok (Manager.errorResponse Samples.platform "execution was denied"),
     Manager.called (Manager.ApprovalGet "e1" "deploy")
       (Cases.settled Approval.StatusDenied)).
Proof.
  pose proof (fun content source hash resolved =>
                Execute_settled
                  (Manager.NewManager Samples.shipped true) Samples.platform
                  (Cases.settled Approval.StatusDenied)
                  (Samples.request Cases.gatedDeploy)
                  (Approval.NewChecker
                     (ApprovalConfig.DefaultApprovers
                        (ScriptExecutorConfig.Approval
                           (Config.ScriptExecutor Samples.shipped))))
                  content source hash resolved eq_refl) as H.
  cbv zeta in *.
  edestruct H as (_ & Hd).
  - vm_compute. reflexivity.
  - vm_compute. reflexivity.
  - apply Hd. vm_compute. reflexivity.
Defined.

(** X20.  A script that comes with its content (inline, from a
    ConfigMap, a Secret or the registry), is not empty, is within the
    size and the line cap and runs a blocked command is refused before
    anything else happens: the answer is the failure
    [script validation: blocked command detected: <command>] and the
    world, approval store included, is as it was. *)
Theorem Execute_rejects_blocked_script
        (m : Manager.t) (p : Manager.Platform) (w : Manager.World)
        (req : Manager.ExecuteRequest) (script : string)
        (source : Script.Source) :
  Script.LoadScript (Manager.unmarshalRegistry p) (Manager.objects w)
    (Manager.loaderNamespace m) (Claims.paramsOf req) = Ok (script, source) ->
  Script.Type_ source <> Script.SourcePath ->
  script <> "" ->
  Z.of_nat (String.length script) <= Security.maxSize (Manager.scriptVal m) ->
  Claims.lineCount script <= Security.maxLines (Manager.scriptVal m) ->
  (exists cmd, is_Some (Security.commandSet script !! cmd)
               /\ Security.isBlocked (Manager.scriptVal m) cmd = true) ->
  exists cmd,
    Manager.Execute m p w req
    = (Ok (Manager.errorResponse p
             ("script validation: " ++ Security.BlockedCommand cmd)), w)
    /\ is_Some (Security.commandSet script !! cmd)
    /\ Security.isBlocked (Manager.scriptVal m) cmd = true.
Proof.
  intros Hload Hty Hne Hsize Hlines (bad & Hin & Hbad).
  destruct (Validate_blocked (Manager.scriptVal m) (Manager.order p) script bad
              Hsize Hlines Hin Hbad) as (cmd & Hv & Hc & Hb).
  exists cmd. split; [|split; assumption].
  apply Execute_prepare_failed.
  unfold Manager.prepare. rewrite Hload. cbn [bind fst snd].
  rewrite bool_decide_eq_false_2 by exact Hty.
  apply is_empty_false in Hne. rewrite Hne. cbn [negb andb].
  rewrite Hv. reflexivity.
Qed.

Lemma Execute_rejects_blocked_script_witness :
  exists cmd,
    Manager.Execute (Manager.NewManager Samples.shipped true) Samples.platform
      Samples.world
      (Samples.request (Samples.bag [("inline_script", VString "sudo rm -rf /")]))
    = (Ok (Manager.errorResponse Samples.platform
             ("script validation: " ++ Security.BlockedCommand cmd)),
       Samples.world)
    /\ is_Some (Security.commandSet "sudo rm -rf /" !! cmd)
    /\ Security.isBlocked
         (Manager.scriptVal (Manager.NewManager Samples.shipped true)) cmd = true.
Proof.
  apply (Execute_rejects_blocked_script
           (Manager.NewManager Samples.shipped true) Samples.platform
           Samples.world
           (Samples.request (Samples.bag [("inline_script", VString "sudo rm -rf /")]))
           "sudo rm -rf /" (Samples.inlineSource "sudo rm -rf /")).
  - vm_compute. reflexivity.
  - discriminate.
  - discriminate.
  - vm_compute. discriminate.
  - vm_compute. discriminate.
  - exists "rm". split; [vm_compute; eauto | vm_compute; reflexivity].
Defined.

(** ** The job builder: metadata, volumes and environment *)

Section BuilderMore.

Import Execution.

(** The fields of the context that [BuildContext] reads off the request
    and the configuration without a failure mode of their own. *)
Lemma BuildContext_fields
      (params : option Struct) (execCtx : option ExecutionContextPb)
      (scriptContent : string) (source : option Script.Source)
      (scriptHash image imagePullPolicy imagePullSecret : string)
      (cfg : Config.t) (ctx : Context) :
  BuildContext params execCtx scriptContent source scriptHash image
               imagePullPolicy imagePullSecret cfg = Ok ctx ->
  Labels ctx = stringFields (Params.getMap params "labels")
  /\ Annotations ctx = stringFields (Params.getMap params "annotations")
  /\ ScriptHash ctx = scriptHash
  /\ TTLSecondsAfterFinished ctx
     = (if 0 <? Params.getInt params "ttl_seconds_after_finished"
        then int32 (Params.getInt params "ttl_seconds_after_finished")
        else int32 (JobDefaultsConfig.TTLSecondsAfterFinished
                      (KubernetesConfig.JobDefaults
                         (ScriptExecutorConfig.Kubernetes
                            (Config.ScriptExecutor cfg)))))
  /\ BackoffLimit ctx
     = (if 0 <=? Params.getInt params "backoff_limit"
        then if 3 <? int32 (Params.getInt params "backoff_limit") then 3
             else int32 (Params.getInt params "backoff_limit")
        else int32 (JobDefaultsConfig.BackoffLimit
                      (KubernetesConfig.JobDefaults
                         (ScriptExecutorConfig.Kubernetes
                            (Config.ScriptExecutor cfg))))).
Proof.
  unfold BuildContext. intros H.
  destruct (parseDuration _) as [dur| |]; [|discriminate..].
  destruct (buildResources params cfg) as [resources| |]; [|discriminate..].
  inversion H; subst; clear H. simpl. repeat split; reflexivity.
Qed.

End BuilderMore.

(** X21.  The labels and annotations of the request are written over
    the ones the builder sets: a key the request supplies under
    [labels] or [annotations] ends up on the job with the request's
    value, also when the key is one of the builder's own, such as
    [managed-by], [user] or the [script-hash] annotation.  Without an
    [annotations] field the [script-hash] annotation is the hash that
    was computed. *)
Theorem request_metadata_overrides
        (b : JobBuilder.t) (unixNow : Z) (ro : RangeOrder)
        (params : option Struct) (execCtx : option Execution.ExecutionContextPb)
        (scriptContent : string) (source : option Script.Source)
        (scriptHash image imagePullPolicy imagePullSecret : string)
        (cfg : Config.t) (ctx : Execution.Context)
        (executionID runbookID user key : string) (v : Value) :
  Execution.BuildContext params execCtx scriptContent source scriptHash image
    imagePullPolicy imagePullSecret cfg = Ok ctx ->
  let job := JobBuilder.Build b unixNow ro
               (Manager.withIdentity executionID runbookID user ctx) in
  (forall labels,
      Params.getMap params "labels" = Some labels ->
      labels !! key = Some v ->
      Manifest.Labels job !! key = Some (GetStringValue v))
  /\ (forall annotations,
         Params.getMap params "annotations" = Some annotations ->
         annotations !! key = Some v ->
         Manifest.Annotations job !! key = Some (GetStringValue v))
  /\ (Params.getMap params "annotations" = None ->
      Manifest.Annotations job !! "script-hash" = Some scriptHash).
Proof.
  intros Hctx job.
  destruct (BuildContext_fields _ _ _ _ _ _ _ _ _ _ Hctx)
    as (Hl & Ha & Hh & _).
  subst job. unfold JobBuilder.Build, JobBuilder.mergeOver.
  cbn [Manifest.Labels Manifest.Annotations Manager.withIdentity
       Execution.Labels Execution.Annotations Execution.ScriptHash].
  rewrite Hl, Ha, Hh. split; [|split].
  - intros labels -> Hk. apply lookup_union_Some_l.
    cbn [Execution.stringFields]. rewrite lookup_fmap, Hk. reflexivity.
  - intros annotations -> Hk. apply lookup_union_Some_l.
    cbn [Execution.stringFields]. rewrite lookup_fmap, Hk. reflexivity.
  - intros ->. cbn [Execution.stringFields].
    rewrite (left_id_L ∅ (∪)). apply lookup_insert_eq.
Qed.

Lemma request_metadata_overrides_witness :
  let params :=
    Samples.bag [("inline_script", VString "echo hello");
                 ("annotations",
                  Samples.struct [("script-hash", VString "reviewed")])] in
  exists ctx,
    Execution.BuildContext params (Some Samples.inbound) "echo hello"
      (Some (Samples.inlineSource "echo hello")) "5891b5b5" "alpine:3"
      "IfNotPresent" "" Samples.shipped = Ok ctx
    /\ Manifest.Annotations
         (JobBuilder.Build (JobBuilder.NewJobBuilder Samples.shipped)
            1700000000 ascending (Manager.withIdentity "e1" "rb-7" "bob" ctx))
       !! "script-hash"
       = Some "reviewed".
Proof.
  cbv zeta.
  destruct (Execution.BuildContext _ _ _ _ _ _ _ _ _) as [ctx|e|e] eqn:Hctx;
    [|exfalso; vm_compute in Hctx; discriminate..].
  exists ctx. split; [reflexivity|].
  apply (proj1 (proj2 (request_metadata_overrides _ _ _ _ _ _ _ _ _ _ _ _ _
                         "e1" "rb-7" "bob" "script-hash" (VString "reviewed")
                         Hctx))
           {["script-hash" := VString "reviewed"]});
    vm_compute; reflexivity.
Defined.

Section VolumeFacts.

Import Manifest JobBuilder.

Lemma map_indexed {A B C : Type} (g : B -> C) (f : nat -> A -> B) (l : list A) :
  map g (indexed f l) = indexed (fun i x => g (f i x)) l.
Proof.
  unfold indexed. revert f.
  induction l as [|a l IH]; intros f; [reflexivity|].
  cbn [imap map]. f_equal. apply IH.
Qed.

Lemma Forall_indexed {A B : Type} (P : B -> Prop) (f : nat -> A -> B)
      (l : list A) :
  (forall i x, P (f i x)) -> Forall P (indexed f l).
Proof.
  unfold indexed. revert f.
  induction l as [|a l IH]; intros f Hf; cbn [imap]; constructor.
  - apply Hf.
  - apply IH. intros i x. apply Hf.
Qed.

End VolumeFacts.

(** X22.  The container's mounts and the pod's volumes go together: the
    mounts name exactly the volumes of the pod, one mount per volume and
    in the same order, so no mount refers to a volume that is missing
    and no volume is left unmounted.  The workspace and the scratch
    directory come first and are writable; every mount after them, the
    approved scripts, the Secret and the ConfigMap volumes, is
    read-only. *)
Theorem mounts_match_volumes (ctx : Execution.Context) :
  map Manifest.MountName (JobBuilder.buildVolumeMounts ctx)
  = map Manifest.VolumeName (JobBuilder.buildVolumes ctx)
  /\ firstn 2 (JobBuilder.buildVolumeMounts ctx)
     = [Manifest.mkVolumeMount "workspace" "/workspace" false;
        Manifest.mkVolumeMount "tmp" "/tmp" false]
  /\ Forall (fun m => Manifest.ReadOnly m = true)
            (skipn 2 (JobBuilder.buildVolumeMounts ctx)).
Proof.
  unfold JobBuilder.buildVolumeMounts, JobBuilder.buildVolumes.
  split; [|split].
  - rewrite !map_app, !map_indexed. cbn [map Manifest.MountName Manifest.VolumeName].
    destruct (JobBuilder.isPath ctx); reflexivity.
  - reflexivity.
  - cbn [skipn app]. apply Forall_app. split.
    + destruct (JobBuilder.isPath ctx); repeat constructor.
    + apply Forall_app. split; apply Forall_indexed; reflexivity.
Qed.

(** X23.  The environment of the container holds no dangling
    reference: an entry that takes its value from a Secret or a
    ConfigMap names both the object and the key, entries of the request
    that lack either are left out, and a literal entry carries the value
    the context has under its name.  Likewise no [envFrom] entry names
    the empty string.  This holds in whatever order the maps are
    ranged over. *)
Theorem env_refs_complete
        (b : JobBuilder.t) (ro : RangeOrder) (ctx : Execution.Context) :
  let c := JobBuilder.buildContainer b ro ctx in
  Forall (fun e =>
            match Manifest.ValueFrom e with
            | Some (Manifest.FromSecretKey name key _) =>
                name <> "" /\ key <> ""
                /\ exists ref,
                    Execution.EnvFromSecret ctx !! Manifest.EnvName e = Some ref
                    /\ Execution.SecretName ref = name
                    /\ Execution.SecretKey ref = key
            | Some (Manifest.FromConfigMapKey name key _) =>
                name <> "" /\ key <> ""
                /\ exists ref,
                    Execution.EnvFromConfigMap ctx !! Manifest.EnvName e = Some ref
                    /\ Execution.ConfigMapName ref = name
                    /\ Execution.ConfigMapKey ref = key
            | None =>
                Execution.Env ctx !! Manifest.EnvName e = Some (Manifest.EnvValue e)
            end)
         (Manifest.Env c)
  /\ Forall (fun s =>
               match s with
               | Manifest.SecretRef name | Manifest.ConfigMapRef name => name <> ""
               end)
            (Manifest.EnvFrom c).
Proof.
  intros c. subst c. unfold JobBuilder.buildContainer.
  cbn [Manifest.Env Manifest.EnvFrom].
  unfold JobBuilder.buildEnvVars, JobBuilder.buildEnvFrom. split.
  - rewrite !Forall_app. split; [|split]; apply Forall_forall; intros e He.
    + apply list_elem_of_fmap in He. destruct He as ([k v] & -> & Hkv).
      cbn [Manifest.ValueFrom Manifest.EnvName Manifest.EnvValue fst snd].
      rewrite (range_perm ro) in Hkv. apply elem_of_map_to_list in Hkv.
      exact Hkv.
    + apply list_elem_of_omap in He. destruct He as ([k ref] & Hkv & He).
      cbn [fst snd] in He.
      destruct (Strings.is_empty (Execution.SecretName ref)) eqn:E1;
        [discriminate He|].
      destruct (Strings.is_empty (Execution.SecretKey ref)) eqn:E2;
        [discriminate He|].
      cbn [orb] in He. injection He as <-.
      cbn [Manifest.ValueFrom Manifest.EnvName].
      apply is_empty_false in E1. apply is_empty_false in E2.
      split; [exact E1|]. split; [exact E2|].
      rewrite (range_perm ro) in Hkv. apply elem_of_map_to_list in Hkv.
      exists ref. auto.
    + apply list_elem_of_omap in He. destruct He as ([k ref] & Hkv & He).
      cbn [fst snd] in He.
      destruct (Strings.is_empty (Execution.ConfigMapName ref)) eqn:E1;
        [discriminate He|].
      destruct (Strings.is_empty (Execution.ConfigMapKey ref)) eqn:E2;
        [discriminate He|].
      cbn [orb] in He. injection He as <-.
      cbn [Manifest.ValueFrom Manifest.EnvName].
      apply is_empty_false in E1. apply is_empty_false in E2.
      split; [exact E1|]. split; [exact E2|].
      rewrite (range_perm ro) in Hkv. apply elem_of_map_to_list in Hkv.
      exists ref. auto.
  - rewrite Forall_app. split; apply Forall_forall; intros s Hs;
      apply list_elem_of_fmap in Hs; destruct Hs as (name & -> & Hn);
      apply list_elem_of_filter in Hn; destruct Hn as [Hn _]; exact Hn.
Qed.

(** ** [BuildContext]: retries, clean-up time and how it fails *)

Section ContextMore.

Import Execution.

Lemma int32_small (z : Z) : - 2 ^ 31 <= z < 2 ^ 31 -> int32 z = z.
Proof. intros Hz. unfold int32. rewrite Z.mod_small; lia. Qed.

(** [setParsed] either stores the quantity or panics; it has no error
    of its own. *)
Lemma setParsed_cases (text name : string) (list : Corev1.ResourceList) :
  (exists list', setParsed text name list = Ok list')
  \/ (exists msg, setParsed text name list = Panic msg).
Proof.
  unfold setParsed, mustParse.
  destruct (Strings.is_empty text); [left; eauto|].
  destruct (Resource.MustParse text); cbn [bind]; [left | right]; eauto.
Qed.

Lemma setParsed_panics (text name : string) (list : Corev1.ResourceList) :
  text <> "" ->
  Resource.MustParse text = None ->
  setParsed text name list
  = Panic ("cannot parse " ++ quote text ++ " as a quantity").
Proof.
  intros Hne Hp. unfold setParsed, mustParse.
  apply is_empty_false in Hne. rewrite Hne, Hp. reflexivity.
Qed.

Lemma capAt_cases (max name : string) (limits : Corev1.ResourceList) :
  (exists limits', capAt max name limits = Ok limits')
  \/ (exists msg, capAt max name limits = Panic msg).
Proof.
  unfold capAt, mustParse.
  destruct (Strings.is_empty max); [left; eauto|].
  destruct (Resource.MustParse max); cbn [bind]; [|right; eauto].
  destruct (limits !! name); [|left; eauto].
  destruct (0 <? _); left; eauto.
Qed.

End ContextMore.

Ltac quantity_step :=
  match goal with
  | |- context [Execution.setParsed ?a ?b ?c] =>
      let E := fresh "E" in
      destruct (setParsed_cases a b c) as [[? E] | [? E]];
      rewrite E; clear E; cbn [bind fst snd]
  | |- context [Execution.capAt ?a ?b ?c] =>
      let E := fresh "E" in
      destruct (capAt_cases a b c) as [[? E] | [? E]];
      rewrite E; clear E; cbn [bind fst snd]
  end.

Section ContextFailures.

Import Execution.

Lemma buildResources_not_Err (params : option Struct) (cfg : Config.t)
      (e : string) :
  buildResources params cfg <> Err e.
Proof.
  unfold buildResources.
  do 5 (quantity_step; [|discriminate]).
  destruct (Params.getMap params "resources") as [res|]; cbn [bind fst snd].
  - destruct (Params.getMap (Some res) "requests") as [reqs|];
      cbn [bind fst snd];
      [do 2 (quantity_step; [|discriminate])|];
      (destruct (Params.getMap (Some res) "limits") as [lims|];
       cbn [bind fst snd];
       [do 3 (quantity_step; [|discriminate])|];
       do 2 (quantity_step; [|discriminate]); discriminate).
  - do 2 (quantity_step; [|discriminate]). discriminate.
Qed.

Lemma buildResources_panics (params : option Struct) (cfg : Config.t)
      (res lims : Struct) (text : string) :
  Params.getMap params "resources" = Some res ->
  Params.getMap (Some res) "limits" = Some lims ->
  Params.getString (Some lims) "cpu" "" = text ->
  text <> "" ->
  Resource.MustParse text = None ->
  exists msg, buildResources params cfg = Panic msg.
Proof.
  intros Hres Hlims Htext Hne Hparse.
  unfold buildResources. rewrite Hres.
  do 5 (quantity_step; [|eexists; reflexivity]).
  rewrite Hlims, Htext.
  destruct (Params.getMap (Some res) "requests") as [reqs|];
    cbn [bind fst snd];
    [do 2 (quantity_step; [|eexists; reflexivity])|];
    rewrite (setParsed_panics text _ _ Hne Hparse); cbn [bind];
    eexists; reflexivity.
Qed.

End ContextFailures.

(** X24.  Retries and clean-up time.  A request without
    [backoff_limit] gets no retries, whatever the configured default
    is; a value from 0 up is used up to the ceiling of 3; only a
    negative value falls back on the configured default.  A positive
    [ttl_seconds_after_finished] is used as it is and anything else
    falls back on the configured default. *)
Theorem BuildContext_retries
        (params : option Struct) (execCtx : option Execution.ExecutionContextPb)
        (scriptContent : string) (source : option Script.Source)
        (scriptHash image imagePullPolicy imagePullSecret : string)
        (cfg : Config.t) (ctx : Execution.Context) :
  Execution.BuildContext params execCtx scriptContent source scriptHash image
    imagePullPolicy imagePullSecret cfg = Ok ctx ->
  let defaults :=
    KubernetesConfig.JobDefaults
      (ScriptExecutorConfig.Kubernetes (Config.ScriptExecutor cfg)) in
  let bl := Params.getInt params "backoff_limit" in
  let ttl := Params.getInt params "ttl_seconds_after_finished" in
  ((forall fields, params = Some fields -> fields !! "backoff_limit" = None ->
                   Execution.BackoffLimit ctx = 0)
   /\ (0 <= bl < 2 ^ 31 -> Execution.BackoffLimit ctx = Z.min bl 3)
   /\ (0 <= bl -> Execution.BackoffLimit ctx <= 3)
   /\ (bl < 0 ->
       Execution.BackoffLimit ctx
       = Execution.int32 (JobDefaultsConfig.BackoffLimit defaults)))
  /\ ((0 < ttl < 2 ^ 31 -> Execution.TTLSecondsAfterFinished ctx = ttl)
      /\ (ttl <= 0 ->
          Execution.TTLSecondsAfterFinished ctx
          = Execution.int32 (JobDefaultsConfig.TTLSecondsAfterFinished defaults))).
Proof.
  intros Hctx defaults bl ttl.
  destruct (BuildContext_fields _ _ _ _ _ _ _ _ _ _ Hctx)
    as (_ & _ & _ & Ht & Hb).
  fold bl in Hb. fold ttl in Ht. fold defaults in Hb, Ht.
  rewrite Hb, Ht. clear Hb Ht. split; [split; [|split; [|split]] | split].
  - intros fields -> Hk. subst bl. unfold Params.getInt. rewrite Hk.
    reflexivity.
  - intros Hbl. destruct (0 <=? bl) eqn:E; [|apply Z.leb_gt in E; lia].
    rewrite int32_small by lia.
    destruct (3 <? bl) eqn:E3; [apply Z.ltb_lt in E3 | apply Z.ltb_ge in E3]; lia.
  - intros Hbl. destruct (0 <=? bl) eqn:E; [|apply Z.leb_gt in E; lia].
    destruct (3 <? Execution.int32 bl) eqn:E3;
      [apply Z.ltb_lt in E3 | apply Z.ltb_ge in E3]; lia.
  - intros Hbl. destruct (0 <=? bl) eqn:E; [apply Z.leb_le in E; lia|].
    reflexivity.
  - intros Httl. destruct (0 <? ttl) eqn:E; [|apply Z.ltb_ge in E; lia].
    apply int32_small. lia.
  - intros Httl. destruct (0 <? ttl) eqn:E; [apply Z.ltb_lt in E; lia|].
    reflexivity.
Qed.

Lemma BuildContext_retries_witness :
  exists ctx,
    Execution.BuildContext Samples.plain (Some Samples.inbound) "echo hello"
      (Some (Samples.inlineSource "echo hello")) "5891b5b5" "alpine:3"
      "IfNotPresent" "" Samples.shipped = Ok ctx
    /\ Execution.BackoffLimit ctx = 0.
Proof.
  destruct (Execution.BuildContext _ _ _ _ _ _ _ _ _) as [ctx|e|e] eqn:Hctx;
    [|exfalso; vm_compute in Hctx; discriminate..].
  exists ctx. split; [reflexivity|].
  apply (proj1 (proj1 (BuildContext_retries _ _ _ _ _ _ _ _ _ _ Hctx))
           (list_to_map [("inline_script", VString "echo hello")]));
    [reflexivity | vm_compute; reflexivity].
Defined.

(** X25.  A resource quantity of the request that does not parse is not
    answered with an error: [resource.MustParse] panics.  With a
    timeout that parses and a [resources.limits.cpu] text that is not a
    quantity, [BuildContext] panics under every configuration, and so
    do steps 7 to 11 of [Execute], before any job is created. *)
Theorem malformed_quantity_panics
        (params : option Struct) (execCtx : Execution.ExecutionContextPb)
        (scriptContent : string) (source : Script.Source)
        (scriptHash : string) (resolved : Image.ResolvedImage)
        (m : Manager.t) (p : Manager.Platform) (w : Manager.World)
        (req : Manager.ExecuteRequest) (executionID user runbookID : string)
        (res lims : Struct) (text : string) (dur : Time.Duration) :
  Execution.parseDuration
    (Params.getString params "timeout"
       (SecurityConfig.DefaultTimeout
          (ScriptExecutorConfig.Security
             (Config.ScriptExecutor (Manager.config m))))) = Ok dur ->
  Params.getMap params "resources" = Some res ->
  Params.getMap (Some res) "limits" = Some lims ->
  Params.getString (Some lims) "cpu" "" = text ->
  text <> "" ->
  Resource.MustParse text = None ->
  exists msg,
    Execution.BuildContext params (Some execCtx) scriptContent (Some source)
      scriptHash (Image.Image resolved) (Image.PullPolicy resolved)
      (Image.PullSecret resolved) (Manager.config m) = Panic msg
    /\ Manager.run m p w req params execCtx executionID user runbookID
         scriptContent source scriptHash resolved = (Panic msg, w).
Proof.
  intros Hdur Hres Hlims Htext Hne Hparse.
  destruct (buildResources_panics params (Manager.config m) res lims text
              Hres Hlims Htext Hne Hparse) as (msg & Hmsg).
  exists msg.
  assert (Hb : Execution.BuildContext params (Some execCtx) scriptContent
                 (Some source) scriptHash (Image.Image resolved)
                 (Image.PullPolicy resolved) (Image.PullSecret resolved)
                 (Manager.config m) = Panic msg).
  { unfold Execution.BuildContext. rewrite Hdur, Hmsg. reflexivity. }
  split; [exact Hb|]. unfold Manager.run. rewrite Hb. reflexivity.
Qed.

Lemma malformed_quantity_panics_witness :
  let params :=
    Samples.bag
      [("inline_script", VString "echo hello");
       ("resources",
        Samples.struct [("limits", Samples.struct [("cpu", VString "lots")])])] in
  exists msg,
    Execution.BuildContext params (Some Samples.inbound) "echo hello"
      (Some (Samples.inlineSource "echo hello")) "5891b5b5"
      "alpine:3" "IfNotPresent" ""
      (Manager.config (Manager.NewManager Samples.shipped true)) = Panic msg
    /\ Manager.run (Manager.NewManager Samples.shipped true) Samples.platform
         Samples.world (Samples.request params) params Samples.inbound
         "e1" "bob" "rb-7" "echo hello" (Samples.inlineSource "echo hello")
         "5891b5b5" (Image.mkResolvedImage "alpine:3" "" "IfNotPresent")
       = (Panic msg, Samples.world).
Proof.
  cbv zeta.
  apply (malformed_quantity_panics _ Samples.inbound "echo hello"
           (Samples.inlineSource "echo hello") "5891b5b5"
           (Image.mkResolvedImage "alpine:3" "" "IfNotPresent")
           (Manager.NewManager Samples.shipped true) Samples.platform
           Samples.world _ "e1" "bob" "rb-7"
           (list_to_map [("limits", Samples.struct [("cpu", VString "lots")])])
           (list_to_map [("cpu", VString "lots")]) "lots" (5 * Time.Minute)).
  - vm_compute. reflexivity.
  - vm_compute. reflexivity.
  - vm_compute. reflexivity.
  - vm_compute. reflexivity.
  - discriminate.
  - vm_compute. reflexivity.
Defined.

(** X26.  [BuildContext] returns an error in one case only, a timeout
    text that does not parse as a duration; the error then quotes the
    text.  Nothing else in the request makes it return an error. *)
Theorem BuildContext_error
        (params : option Struct) (execCtx : option Execution.ExecutionContextPb)
        (scriptContent : string) (source : option Script.Source)
        (scriptHash image imagePullPolicy imagePullSecret : string)
        (cfg : Config.t) (e : string) :
  let timeoutStr :=
    Params.getString params "timeout"
      (SecurityConfig.DefaultTimeout
         (ScriptExecutorConfig.Security (Config.ScriptExecutor cfg))) in
  Execution.BuildContext params execCtx scriptContent source scriptHash image
    imagePullPolicy imagePullSecret cfg = Err e
  <-> (timeoutStr <> "" /\ Time.ParseDuration timeoutStr = None
       /\ e = "invalid timeout " ++ quote timeoutStr
                ++ ": time: invalid duration " ++ quote timeoutStr).
Proof.
  intros timeoutStr. unfold Execution.BuildContext. fold timeoutStr.
  unfold Execution.parseDuration.
  destruct (Strings.is_empty timeoutStr) eqn:Ee.
  - apply is_empty_true in Ee. split.
    + intros H.
      destruct (Execution.buildResources params cfg) as [r|x|x] eqn:Er;
        [discriminate H | | discriminate H].
      destruct (buildResources_not_Err _ _ _ Er).
    + intros [Hne _]. contradiction.
  - apply is_empty_false in Ee.
    destruct (Time.ParseDuration timeoutStr) as [d|] eqn:Ep.
    + split.
      * intros H.
        destruct (Execution.buildResources params cfg) as [r|x|x] eqn:Er;
          [discriminate H | | discriminate H].
        destruct (buildResources_not_Err _ _ _ Er).
      * intros (_ & Hn & _). discriminate Hn.
    + split.
      * intros H. injection H as <-. auto.
      * intros (_ & _ & ->). reflexivity.
Qed.

(** ** The monitor's result and the approval endpoint *)

Section MonitorFacts.

Import Monitor.

Lemma endTime_spec (statuses : list ContainerStatus) (now : Z) :
  now <= endTime now statuses
  /\ (forall cs t, In cs statuses -> StateTerminated cs = Some t ->
                   FinishedAt t <= endTime now statuses)
  /\ ((forall cs t, In cs statuses -> StateTerminated cs = Some t ->
                    FinishedAt t <= now) ->
      endTime now statuses = now).
Proof.
  unfold endTime. revert now.
  induction statuses as [|cs l IH]; intros now; cbn [fold_left].
  - split; [lia|]. split; [intros ? ? []|reflexivity].
  - set (next := match StateTerminated cs with
                 | Some t => if now <? FinishedAt t then FinishedAt t else now
                 | None => now
                 end).
    destruct (IH next) as (H1 & H2 & H3).
    assert (Hnext : now <= next
                    /\ forall t, StateTerminated cs = Some t -> FinishedAt t <= next).
    { subst next. destruct (StateTerminated cs) as [t|].
      - destruct (now <? FinishedAt t) eqn:E;
          [apply Z.ltb_lt in E | apply Z.ltb_ge in E];
          (split; [lia|]); intros t' Ht; injection Ht as <-; lia.
      - split; [lia|]. intros t' Ht. discriminate Ht. }
    destruct Hnext as [Hn Hc].
    split; [lia|]. split.
    + intros cs' t [<- | Hin] Ht.
      * specialize (Hc t Ht). lia.
      * apply (H2 cs' t Hin Ht).
    + intros Hall.
      assert (Heq : next = now).
      { subst next. destruct (StateTerminated cs) as [t|] eqn:Et; [|reflexivity].
        specialize (Hall cs t (or_introl eq_refl) Et).
        destruct (now <? FinishedAt t) eqn:E; [apply Z.ltb_lt in E; lia|].
        reflexivity. }
      rewrite Heq in *. apply H3.
      intros cs' t Hin Ht. apply (Hall cs' t (or_intror Hin) Ht).
Qed.

End MonitorFacts.

(** X27.  The duration the monitor reports for a pod that has a start
    time runs from the pod's start to the moment the result is
    collected, or to the latest finish time of a container if that is
    later: it is never shorter than the time to collection, it covers
    every container's run, and when every container finished before the
    collection it is exactly the time from start to collection.  The
    error stream of the result is always empty; the log goes to the
    output stream. *)
Theorem collectResult_duration
        (jobName : string) (st : Monitor.JobStatus) (pod : Monitor.Pod)
        (rest : list Monitor.Pod) (now start : Z)
        (logs : string -> option string) :
  Monitor.StartTime pod = Some start ->
  let r := Monitor.collectResult jobName st (Ok (pod :: rest)) now logs in
  now - start <= Manager.Duration r
  /\ (forall cs t, In cs (Monitor.ContainerStatuses pod) ->
                   Monitor.StateTerminated cs = Some t ->
                   Monitor.FinishedAt t - start <= Manager.Duration r)
  /\ ((forall cs t, In cs (Monitor.ContainerStatuses pod) ->
                    Monitor.StateTerminated cs = Some t ->
                    Monitor.FinishedAt t <= now) ->
      Manager.Duration r = now - start)
  /\ Manager.Stderr r = "".
Proof.
  intros Hstart r. subst r. unfold Monitor.collectResult.
  cbn [Manager.Duration Manager.Stderr]. rewrite Hstart.
  destruct (endTime_spec (Monitor.ContainerStatuses pod) now) as (H1 & H2 & H3).
  split; [lia|]. split.
  - intros cs t Hin Ht. specialize (H2 cs t Hin Ht). lia.
  - split; [|reflexivity]. intros Hall. rewrite (H3 Hall). reflexivity.
Qed.

Lemma collectResult_duration_witness :
  let pod :=
    Monitor.mkPod "script-exec-e1-x7k2p" (Some 100)
      [Monitor.mkContainerStatus (Some (Monitor.mkTerminated 0 130))] in
  Manager.Duration
    (Monitor.collectResult "script-exec-e1" (Monitor.mkJobStatus [] 1 0)
       (Ok [pod]) 160 (fun _ => Some "hello"))
  = 160 - 100.
Proof.
  cbv zeta.
  apply (collectResult_duration "script-exec-e1" (Monitor.mkJobStatus [] 1 0)
           (Monitor.mkPod "script-exec-e1-x7k2p" (Some 100)
              [Monitor.mkContainerStatus (Some (Monitor.mkTerminated 0 130))])
           [] 160 100 (fun _ => Some "hello") eq_refl).
  intros cs t [<- | []] Ht. injection Ht as <-. cbn. lia.
Defined.

Section EndpointFacts.

Import Approval.

(** What a successful [Approve] found in the ConfigMap store and what
    it left there. *)
Lemma Approve_Ok_inv (name : string) (c : Checker) (now : Time)
      (e st approver : string) (s a : ConfigMapData) :
  @Approve _ (ConfigMapStore name) c now e st approver s = (Ok tt, a) ->
  exists data req,
    s = Some data
    /\ data !! recordKey e st = Some req
    /\ Status_ req = StatusPending
    /\ Claims.overdue now req = false
    /\ contains (Approvers req) approver = true
    /\ a = Some (<[recordKey (ExecutionID req) (StepName req)
                  := mkRequest (ID req) (ExecutionID req) (StepName req)
                       (RunbookID req) (User req) (Script req) (ScriptHash req)
                       (Approvers req) StatusApproved approver now
                       (DeniedBy req) (DeniedAt req) (DenialReason req)
                       (CreatedAt req) (ExpiresAt req)]> data).
Proof.
  unfold Approve. cbn [Get Update ConfigMapStore].
  destruct s as [data|]; [|discriminate].
  destruct (data !! recordKey e st) as [req|] eqn:E;
    [|unfold cmGet; rewrite E; discriminate].
  rewrite (cmGet_found name now _ _ _ _ E).
  destruct (Strings.eqb (Status_ req) StatusPending) eqn:Ep.
  - destruct (Claims.overdue now req) eqn:Eo; cbn [andb].
    + cbn [withStatus Status_].
      change (Strings.eqb StatusExpired StatusPending) with false.
      cbn [negb]. discriminate.
    + rewrite Ep. cbn [negb].
      destruct (contains (Approvers req) approver) eqn:Ec; cbn [negb];
        [|discriminate].
      unfold cmUpdate. cbn [ExecutionID StepName]. intros H. injection H as <-.
      apply Strings_eqb_eq in Ep. exists data, req. auto 10.
  - cbn [andb]. rewrite Ep. cbn [negb]. discriminate.
Qed.

End EndpointFacts.

(** X28.  From the approval endpoint to the run.  When the endpoint
    answers 200 to an approval of the step of a request, the X-User
    header (or [anonymous] when it is absent) named one of the record's
    approvers and the record was pending and not overdue; and the same
    request, issued again, passes the gate and goes on to build and run
    the workload. *)
Theorem approved_over_http_then_runs
        (m : Manager.t) (p : Manager.Platform) (w : Manager.World)
        (req : Manager.ExecuteRequest) (checker : Approval.Checker)
        (now : Approval.Time) (xUser : string)
        (resp : Api.Response) (after : Approval.ConfigMapData)
        (content : string) (source : Script.Source) (hash : string)
        (resolved : Image.ResolvedImage) :
  let executionID := Manager.executionIDOf p (Claims.inboundOf req) in
  let stepName := Params.getString (Claims.paramsOf req) "step_name" "default" in
  let key := Approval.recordKey executionID stepName in
  Manager.approval m = Some checker ->
  Params.getBool (Claims.paramsOf req) "approval_required" = true ->
  (forall record,
      Manager.approvals w ≫= (.!! key) = Some record ->
      Approval.recordKey (Approval.ExecutionID record) (Approval.StepName record)
      = key) ->
  @Api.Approve _ (Manager.store m) (Some checker) now executionID stepName xUser
               (Manager.approvals w) = (Ok resp, after) ->
  Api.Code resp = Api.StatusOK ->
  Manager.prepare m p (Manager.withApprovals after w) (Claims.paramsOf req)
  = Ok (content, source, hash, resolved) ->
  (exists record,
      Manager.approvals w ≫= (.!! key) = Some record
      /\ Approval.Status_ record = Approval.StatusPending
      /\ Claims.overdue now record = false
      /\ Approval.contains (Approval.Approvers record) (Api.userOf xUser) = true)
  /\ Manager.Execute m p (Manager.withApprovals after w) req
     = Manager.run m p
         (Manager.called (Manager.ApprovalGet executionID stepName)
            (Manager.withApprovals after w))
         req (Claims.paramsOf req) (Claims.inboundOf req) executionID
         (Execution.PbUser (Claims.inboundOf req))
         (Execution.RunbookId (Claims.inboundOf req))
         content source hash resolved.
Proof.
  intros executionID stepName key Hm Hflag Hkeyed Hapi Hcode Hprep.
  unfold Api.Approve in Hapi.
  destruct (Strings.is_empty executionID || Strings.is_empty stepName).
  { injection Hapi as <- <-. discriminate Hcode. }
  destruct (Approval.Approve _ _ _ _ _ _) as [[u|e|e] a] eqn:Happ.
  2:{ injection Hapi as <- <-. discriminate Hcode. }
  2:{ discriminate Hapi. }
  injection Hapi as _ <-. destruct u.
  unfold Manager.store in Happ.
  apply Approve_Ok_inv in Happ.
  destruct Happ as (data & record & Hs & Hk & Hst & Hdue & Hauth & Hafter).
  fold key in Hk.
  assert (Hrec : Manager.approvals w ≫= (.!! key) = Some record).
  { rewrite Hs. exact Hk. }
  split; [exists record; auto|].
  rewrite (Hkeyed record Hrec) in Hafter.
  unfold Manager.Execute. fold (Claims.paramsOf req) (Claims.inboundOf req).
  rewrite Hprep.
  destruct (gate_enabled m p (Manager.withApprovals a w)
              (Claims.paramsOf req) checker executionID
              (Execution.PbUser (Claims.inboundOf req))
              (Execution.RunbookId (Claims.inboundOf req))
              content hash Hm Hflag) as (Ha & _ & _).
  fold executionID. fold stepName in Ha. rewrite Ha; [reflexivity|].
  cbn [Manager.withApprovals Manager.approvals]. rewrite Hafter.
  cbn [mbind option_bind]. fold key. rewrite lookup_insert_eq. reflexivity.
Qed.

Lemma approved_over_http_then_runs_witness :
  exists record,
    Manager.approvals (Cases.settled Approval.StatusPending)
      ≫= (.!! Approval.recordKey "e1" "deploy") = Some record
    /\ Approval.Status_ record = Approval.StatusPending
    /\ Claims.overdue Samples.inTime record = false
    /\ Approval.contains (Approval.Approvers record) (Api.userOf "alice") = true.
Proof.
  pose proof (approved_over_http_then_runs
                (Manager.NewManager Samples.shipped true) Samples.platform
                (Cases.settled Approval.StatusPending)
                (Samples.request Cases.gatedDeploy)
                (Approval.NewChecker
                   (ApprovalConfig.DefaultApprovers
                      (ScriptExecutorConfig.Approval
                         (Config.ScriptExecutor Samples.shipped))))
                Samples.inTime "alice") as H.
  cbv zeta in H.
  edestruct H as [H1 _]; [| | | | | | exact H1].
  - reflexivity.
  - vm_compute. reflexivity.
  - intros record Hrec. vm_compute in Hrec. injection Hrec as <-.
    vm_compute. reflexivity.
  - vm_compute. reflexivity.
  - reflexivity.
  - vm_compute. reflexivity.
Defined.

(** ** Sanity checks of the models of the libraries *)

Example parse_five_minutes :
  Time.ParseDuration "5m" = Some (5 * Time.Minute).
Proof. reflexivity. Qed.

Example parse_compound : Time.ParseDuration "1h30m" = Some (90 * Time.Minute).
Proof. reflexivity. Qed.

Example parse_fraction : Time.ParseDuration "1.5h" = Some (90 * Time.Minute).
Proof. reflexivity. Qed.

Example parse_rejects :
  Time.ParseDuration "" = None /\ Time.ParseDuration "abc" = None
  /\ Time.ParseDuration "10" = None.
Proof. repeat split; reflexivity. Qed.

Example quantity_values :
  Resource.MustParse "500m" = Some (500 * 10 ^ 6)
  /\ Resource.MustParse "8Gi" = Some (8 * 2 ^ 30 * 10 ^ 9)
  /\ Resource.MustParse "1.5Gi" = Some (1610612736 * 10 ^ 9)
  /\ Resource.MustParse "1e3" = Some (1000 * 10 ^ 9)
  /\ Resource.MustParse "abc" = None
  /\ Resource.MustParse "" = None.
Proof. repeat split; reflexivity. Qed.

Example fields_of_line : Strings.Fields "  sudo  rm -rf " = ["sudo"; "rm"; "-rf"].
Proof. reflexivity. Qed.

Example split_counts_the_last_piece :
  Strings.Split ("a" ++ Samples.lf ++ "b" ++ Samples.lf) Security.newline
  = ["a"; "b"; ""].
Proof. reflexivity. Qed.

Example sha256_empty :
  Sha256.EncodeToString (Sha256.Sum256 "")
  = "e3b0c44298fc1c149afbf4c8996fb92427ae41e4649b934ca495991b7852b855".
Proof. vm_compute. reflexivity. Qed.

Example sha256_abc :
  Sha256.EncodeToString (Sha256.Sum256 "abc")
  = "ba7816bf8f01cfea414140de5dae2223b00361a396177a9cb410ff61f20015ad".
Proof. vm_compute. reflexivity. Qed.

Example sha256_two_blocks :
  Sha256.EncodeToString
    (Sha256.Sum256 "abcdbcdecdefdefgefghfghighijhijkijkljklmklmnlmnomnopnopq")
  = "248d6a61d20638b8e5c026930c3e6039a33ce45964ff2167f6ecedd419db06c1".
Proof. vm_compute. reflexivity. Qed.

(** Scenario 2 of the specification. *)
Example blocked_command :
  Security.Validate (Security.NewScriptValidator ["rm"] [] 0 0) ascending
    "rm -rf /data"
  = Err "blocked command detected: rm".
Proof. vm_compute. reflexivity. Qed.

(** An inline script wins over a script path set in the same request. *)
Example inline_wins_over_path :
  Script.LoadScript (fun _ => None) Samples.cluster "opscontrolroom-system"
    (Samples.bag [("script_path", VString "/scripts/deploy.sh");
                  ("inline_script", VString "echo hello")])
  = Ok ("echo hello", Samples.inlineSource "echo hello").
Proof. vm_compute. reflexivity. Qed.

Example no_source :
  Script.LoadScript (fun _ => None) Samples.cluster "opscontrolroom-system"
    (Samples.bag [("image", VString "alpine:3")])
  = Err Script.NoSourceProvided.
Proof. vm_compute. reflexivity. Qed.
